(** * Repository Service for TUF command-line client: a Rocq model

    A shallow embedding of the parts of [repository_service_tuf] that the
    specification talks about:

    - [helpers/oras_registry.py]: normalising container references and
      harvesting the artifacts of an OCI index or manifest;
    - [helpers/cli.py] and [cli/artifact/add.py]: the payload of
      [artifact add] for a local file;
    - [helpers/tuf_fetcher.py]: the fetcher handed to the TUF client;
    - [cli/admin/ceremony.py]: the ceremony, the bootstrap request and the
      bootstrap status poll;
    - [cli/admin/new.py]: the [metadata new] command.

    Conventions.  A Python [str] is a Rocq [string] holding its UTF-8
    encoding: every separator the code looks for is an ASCII character, and
    an ASCII byte never occurs inside a multi-byte UTF-8 sequence, so
    [split], [rsplit], [startswith], [rstrip] and [in] act on the encoding
    exactly as they act on the code points.  A Python exception is a
    constructor of [exn]; a call that may raise returns an [outcome].
    Messages of exceptions and console output are not part of the model. *)

From Stdlib Require Import List String Ascii ZArith Lia Bool Arith DecimalString.
From Equations Require Import Equations.
Import ListNotations.

Set Implicit Arguments.
Set Warnings "-register-all".

Local Open Scope string_scope.
Local Open Scope list_scope.

(** ** Exceptions and outcomes *)

Inductive exn : Type :=
| IndexError
| KeyError
| TypeError
| ValueError
| AttributeError
| UnboundLocalError
| EOFError
| OSError
| ClickAbort
| CryptoError
| SecureSystemsLibError
| ClickException
| DownloadError
| DownloadHTTPError
| RequestException
| OtherException (name : string)
| SystemExit (code : Z).

Inductive outcome (A : Type) : Type :=
| Ok (a : A)
| Raise (e : exn).

Arguments Ok {A} a.
Arguments Raise {A} e.

Definition obind {A B} (m : outcome A) (f : A -> outcome B) : outcome B :=
  match m with
  | Ok a => f a
  | Raise e => Raise e
  end.

Declare Scope outcome_scope.
Delimit Scope outcome_scope with outcome.
Notation "x <- m ;; k" := (obind m (fun x => k))
  (at level 61, m at next level, right associativity) : outcome_scope.
Notation "' p <- m ;; k" := (obind m (fun p => k))
  (at level 61, p pattern, m at next level, right associativity) : outcome_scope.

(** ** Python string operations *)

Module PyStr.

(** [c in s] for a one-character [c]. *)
Fixpoint contains (c : ascii) (s : string) : bool :=
  match s with
  | EmptyString => false
  | String a s' => Ascii.eqb a c || contains c s'
  end.

(** [s.split(c)]: the list of maximal pieces between occurrences of [c];
    never empty. *)
Fixpoint split (c : ascii) (s : string) : list string :=
  match s with
  | EmptyString => [EmptyString]
  | String a s' =>
      if Ascii.eqb a c then EmptyString :: split c s'
      else match split c s' with
           | [] => [String a EmptyString]
           | p :: ps => String a p :: ps
           end
  end.

(** The cut of [s] at its first [c], when there is one. *)
Fixpoint cut_first (c : ascii) (s : string) : option (string * string) :=
  match s with
  | EmptyString => None
  | String a s' =>
      if Ascii.eqb a c then Some (EmptyString, s')
      else match cut_first c s' with
           | Some (l, r) => Some (String a l, r)
           | None => None
           end
  end.

(** The cut of [s] at its last [c], when there is one. *)
Fixpoint cut_last (c : ascii) (s : string) : option (string * string) :=
  match s with
  | EmptyString => None
  | String a s' =>
      match cut_last c s' with
      | Some (l, r) => Some (String a l, r)
      | None => if Ascii.eqb a c then Some (EmptyString, s') else None
      end
  end.

(** [s.split(c, 1)]. *)
Definition split1 (c : ascii) (s : string) : list string :=
  match cut_first c s with
  | Some (l, r) => [l; r]
  | None => [s]
  end.

(** [s.rsplit(c, 1)]. *)
Definition rsplit1 (c : ascii) (s : string) : list string :=
  match cut_last c s with
  | Some (l, r) => [l; r]
  | None => [s]
  end.

(** [sep.join(parts)]. *)
Fixpoint join (sep : string) (parts : list string) : string :=
  match parts with
  | [] => EmptyString
  | [p] => p
  | p :: ps => (p ++ sep ++ join sep ps)%string
  end.

(** [s.startswith(p)]. *)
Definition startswith (p s : string) : bool := String.prefix p s.

(** [s.endswith(c)] for a one-character [c]. *)
Fixpoint endswith (c : ascii) (s : string) : bool :=
  match s with
  | EmptyString => false
  | String a EmptyString => Ascii.eqb a c
  | String _ s' => endswith c s'
  end.

(** [s.rstrip(c)] for a one-character [c]. *)
Fixpoint rstrip (c : ascii) (s : string) : string :=
  match s with
  | EmptyString => EmptyString
  | String a s' =>
      match rstrip c s' with
      | EmptyString => if Ascii.eqb a c then EmptyString else String a EmptyString
      | t => String a t
      end
  end.

(** [s[:n]] and [s[n:]]. *)
Fixpoint take (n : nat) (s : string) : string :=
  match n, s with
  | S n', String a s' => String a (take n' s')
  | _, _ => EmptyString
  end.

Fixpoint drop (n : nat) (s : string) : string :=
  match n, s with
  | S n', String _ s' => drop n' s'
  | _, _ => s
  end.

(** [str(z)] for an integer. *)
Definition of_Z (z : Z) : string := DecimalString.NilZero.string_of_int (Z.to_int z).

(** Truth value of a string: [bool(s)]. *)
Definition truthy (s : string) : bool :=
  match s with
  | EmptyString => false
  | _ => true
  end.

(** [a, b = parts]. *)
Definition unpack2 (parts : list string) : outcome (string * string) :=
  match parts with
  | [a; b] => Ok (a, b)
  | _ => Raise ValueError
  end.

(** [parts[0]]. *)
Definition first (parts : list string) : outcome string :=
  match parts with
  | p :: _ => Ok p
  | [] => Raise IndexError
  end.

(** [parts[-1]]. *)
Definition last (parts : list string) : outcome string :=
  match parts with
  | [] => Raise IndexError
  | p :: ps => Ok (List.last ps p)
  end.

(** [parts[1]]. *)
Definition second (parts : list string) : outcome string :=
  match parts with
  | _ :: p :: _ => Ok p
  | _ => Raise IndexError
  end.

End PyStr.

(** ** JSON documents as Python values

    What [json.loads] and [response.json()] return: [None], booleans,
    integers, strings, lists and dictionaries in insertion order.  JSON
    numbers with a fraction or an exponent do not occur in the documents the
    program reads and are left out. *)

Inductive json : Type :=
| JNull
| JBool (b : bool)
| JInt (z : Z)
| JStr (s : string)
| JArr (items : list json)
| JObj (fields : list (string * json)).

Module Py.

(** [d[k]] with a missing key is [None] in [lookup]; see [subscript] and
    [get] for the two ways the code reads a dictionary. *)
Fixpoint lookup (k : string) (fields : list (string * json)) : option json :=
  match fields with
  | [] => None
  | (k', v) :: rest => if String.eqb k k' then Some v else lookup k rest
  end.

(** [v[k]] for a string [k]. *)
Definition subscript (v : json) (k : string) : outcome json :=
  match v with
  | JObj fields =>
      match lookup k fields with
      | Some x => Ok x
      | None => Raise KeyError
      end
  | _ => Raise TypeError
  end.

(** [v.get(k, default)]. *)
Definition get_default (v : json) (k : string) (default : json) : outcome json :=
  match v with
  | JObj fields =>
      match lookup k fields with
      | Some x => Ok x
      | None => Ok default
      end
  | _ => Raise AttributeError
  end.

(** [v.get(k)]. *)
Definition get (v : json) (k : string) : outcome json := get_default v k JNull.

(** [bool(v)]. *)
Definition truthy (v : json) : bool :=
  match v with
  | JNull => false
  | JBool b => b
  | JInt z => negb (Z.eqb z 0)
  | JStr s => PyStr.truthy s
  | JArr items => match items with [] => false | _ => true end
  | JObj fields => match fields with [] => false | _ => true end
  end.

Fixpoint chars (s : string) : list json :=
  match s with
  | EmptyString => []
  | String a s' => JStr (String a EmptyString) :: chars s'
  end.

(** The values [for x in v] runs through. *)
Definition iter (v : json) : outcome (list json) :=
  match v with
  | JArr items => Ok items
  | JObj fields => Ok (map (fun kv => JStr (fst kv)) fields)
  | JStr s => Ok (chars s)
  | _ => Raise TypeError
  end.

(** [k in d] for the fields of a dictionary. *)
Definition mem (k : string) (fields : list (string * json)) : bool :=
  match lookup k fields with
  | Some _ => true
  | None => false
  end.

(** [d[k] = v] on the fields of a dictionary: the value of an existing key
    is replaced in place, a new key goes to the end. *)
Fixpoint set_item (k : string) (v : json) (fields : list (string * json))
    : list (string * json) :=
  match fields with
  | [] => [(k, v)]
  | (k', v') :: rest =>
      if String.eqb k k' then (k', v) :: rest
      else (k', v') :: set_item k v rest
  end.

(** [a == b].  Dictionaries are compared key by key, whatever the order of
    insertion; [True] and [False] equal [1] and [0]. *)
Fixpoint eq (a b : json) {struct a} : bool :=
  match a, b with
  | JNull, JNull => true
  | JBool x, JBool y => Bool.eqb x y
  | JBool x, JInt y => Z.eqb (if x then 1 else 0) y
  | JInt x, JBool y => Z.eqb x (if y then 1 else 0)
  | JInt x, JInt y => Z.eqb x y
  | JStr x, JStr y => String.eqb x y
  | JArr xs, JArr ys =>
      (fix items (xs ys : list json) {struct xs} : bool :=
         match xs, ys with
         | [], [] => true
         | x :: xs', y :: ys' => eq x y && items xs' ys'
         | _, _ => false
         end) xs ys
  | JObj fa, JObj fb =>
      Nat.eqb (List.length fa) (List.length fb) &&
      (fix fields (fa : list (string * json)) {struct fa} : bool :=
         match fa with
         | [] => true
         | (k, v) :: rest =>
             match lookup k fb with
             | Some v' => eq v v'
             | None => false
             end && fields rest
         end) fa
  | _, _ => false
  end.

(** [v == s] for a string [s]. *)
Definition eq_str (v : json) (s : string) : bool :=
  match v with
  | JStr s' => String.eqb s' s
  | _ => false
  end.

(** [v is True]. *)
Definition is_True (v : json) : bool :=
  match v with
  | JBool true => true
  | _ => false
  end.

(** [v is None]. *)
Definition is_None (v : json) : bool :=
  match v with
  | JNull => true
  | _ => false
  end.

End Py.

(** ** Programs with a state and exceptions *)

Definition prog (S A : Type) : Type := S -> outcome A * S.

Definition ret {S A} (a : A) : prog S A := fun s => (Ok a, s).

Definition raise {S A} (e : exn) : prog S A := fun s => (Raise e, s).

Definition lift {S A} (o : outcome A) : prog S A := fun s => (o, s).

Definition bind {S A B} (m : prog S A) (f : A -> prog S B) : prog S B :=
  fun s =>
    match m s with
    | (Ok a, s') => f a s'
    | (Raise e, s') => (Raise e, s')
    end.

(** [try: m  except <classes selected by handles>: h]. *)
Definition try_except {S A} (m : prog S A) (handles : exn -> bool)
    (h : exn -> prog S A) : prog S A :=
  fun s =>
    match m s with
    | (Ok a, s') => (Ok a, s')
    | (Raise e, s') => if handles e then h e s' else (Raise e, s')
    end.

Declare Scope prog_scope.
Delimit Scope prog_scope with prog.
Notation "x <~ m ;; k" := (bind m (fun x => k))
  (at level 61, m at next level, right associativity) : prog_scope.
Notation "' p <~ m ;; k" := (bind m (fun p => k))
  (at level 61, p pattern, m at next level, right associativity) : prog_scope.
Notation "m ;;; k" := (bind m (fun _ => k))
  (at level 61, right associativity) : prog_scope.

(** [except Exception] catches every class of the model but [SystemExit]. *)
Definition is_Exception (e : exn) : bool :=
  match e with
  | SystemExit _ => false
  | _ => true
  end.

(** ** [helpers/oras_registry.py]: container references *)

Module Oras.

Import PyStr.
Local Open Scope outcome_scope.

Definition docker_hub : string := "registry-1.docker.io".

(** [_parse_container_url(url)]. *)
Definition _parse_container_url (url : string) : outcome string :=
  (* Default values *)
  let server := docker_hub in
  let tag := "latest" in
  (* Handle tag separation first *)
  '(image_part, tag) <-
     (if contains ":" url then unpack2 (rsplit1 ":" url)
      else Ok (url, tag)) ;;
  let parts := split "/" image_part in
  (* Determine if first part is a server *)
  p0 <- first parts ;;
  let '(server, parts) :=
    if contains "." p0 || startswith "registry" p0
    then (p0, tl parts)
    else (server, parts) in
  (* Handle path and image *)
  '(path, image) <-
     (if (1 <? List.length parts)%nat
      then image <- last parts ;;
           Ok (join "/" (removelast parts), image)
      else image <- first parts ;;
           Ok ((if String.eqb server docker_hub then "library" else EmptyString),
               image)) ;;
  (* Build normalized URL *)
  if truthy path
  then Ok (server ++ "/" ++ path ++ "/" ++ image ++ ":" ++ tag)%string
  else Ok (server ++ "/" ++ image ++ ":" ++ tag)%string.

(** *** Digests *)

Definition hex_digit (n : N) : ascii :=
  match n with
  | 0 => "0" | 1 => "1" | 2 => "2" | 3 => "3" | 4 => "4" | 5 => "5"
  | 6 => "6" | 7 => "7" | 8 => "8" | 9 => "9" | 10 => "a" | 11 => "b"
  | 12 => "c" | 13 => "d" | 14 => "e" | _ => "f"
  end%N%char.

(** [bytes.hex()]. *)
Fixpoint hex (data : string) : string :=
  match data with
  | EmptyString => EmptyString
  | String a rest =>
      String (hex_digit (N.div (N_of_ascii a) 16))
        (String (hex_digit (N.modulo (N_of_ascii a) 16)) (hex rest))
  end.

(** The artifact [_add_to_rstuf] appends. *)
Definition artifact (path : string) (size : Z) (algo value : string) : json :=
  JObj [("info", JObj [("length", JInt size);
                       ("hashes", JObj [(algo, JStr value)])]);
        ("path", JStr path)].

(** [payload[k].append(x)]. *)
Definition append_to (payload : json) (k : string) (x : json) : outcome json :=
  target <- Py.subscript payload k ;;
  match payload, target with
  | JObj fields, JArr items => Ok (JObj (Py.set_item k (JArr (items ++ [x])) fields))
  | _, _ => Raise AttributeError
  end.

(** [_add_to_rstuf(path, size, digest, payload)]. *)
Definition _add_to_rstuf (path : string) (size : Z) (digest : string)
    (payload : json) : outcome json :=
  _ <- Py.subscript payload "artifacts" ;;
  algo <- first (split ":" digest) ;;
  value <- second (split ":" digest) ;;
  append_to payload "artifacts" (artifact path size algo value).

(** The first piece of [re.split(r"[@:]", uri, maxsplit=1)]. *)
Fixpoint before_at_or_colon (uri : string) : string :=
  match uri with
  | EmptyString => EmptyString
  | String a rest =>
      if Ascii.eqb a "@" || Ascii.eqb a ":" then EmptyString
      else String a (before_at_or_colon rest)
  end.

(** [_get_uri_for_digest(uri, digest)]. *)
Definition _get_uri_for_digest (uri digest : string) : string :=
  (before_at_or_colon uri ++ "@" ++ digest)%string.

(** [_sanitize_dockerhub_path(image_ref, path)]. *)
Definition _sanitize_dockerhub_path (image_ref path : string) : string := path.

Definition index_media_type : string := "application/vnd.oci.image.index.v1+json".

(** The two-way split of the normalized reference in [add_container_oci]. *)
Definition split_reference (image_ref : string) : outcome (string * string) :=
  if contains "@" image_ref
  then unpack2 (split1 "@" image_ref)
  else unpack2 (rsplit1 ":" image_ref).

(** [rstuf_path_base]: the repository without its first segment. *)
Definition path_base (repo : string) : outcome string :=
  if (1 <? List.length (split "/" repo))%nat
  then second (split1 "/" repo)
  else Ok repo.

Section Registry.

(** The registry client [context.oci_cli] and the library functions the
    module calls.  [W] is the state of the outside world the client talks
    to; a request may change it. *)
Variable W : Type.
Variable get_raw_data : string -> prog W json.
Variable get_manifest : string -> prog W json.
(** [json.dumps(v).encode("utf-8")]. *)
Variable dumps : json -> string.
(** [hashlib.sha256(data).digest()]. *)
Variable sha256 : string -> string.
(** [str(v)], which an f-string applies to a value that is not a string. *)
Variable py_str : json -> string.

Local Open Scope prog_scope.

Definition format (v : json) : string :=
  match v with
  | JStr s => s
  | _ => py_str v
  end.

(** [_calculate_size_and_hash(data)]. *)
Definition _calculate_size_and_hash (data : string) : Z * string :=
  (Z.of_nat (String.length data), ("sha256:" ++ hex (sha256 data))%string).

(** The body of [for manifest in raw_data.get("manifests", [])]. *)
Fixpoint each_manifest (image_ref rstuf_path_base : string)
    (manifests : list json) (payload : json) : prog W json :=
  match manifests with
  | [] => ret payload
  | manifest :: rest =>
      digest <~ lift (Py.subscript manifest "digest") ;;
      let manifest_path :=
        _sanitize_dockerhub_path image_ref
          (rstuf_path_base ++ "@" ++ format digest)%string in
      manifest_data <~ get_manifest (_get_uri_for_digest image_ref (format digest)) ;;
      let '(size, digest) := _calculate_size_and_hash (dumps manifest_data) in
      payload <~ lift (_add_to_rstuf manifest_path size digest payload) ;;
      each_manifest image_ref rstuf_path_base rest payload
  end.

(** [add_container_oci(context, image_ref)]. *)
Definition add_container_oci (image_ref : string) : prog W json :=
  if contains "@" image_ref then raise (SystemExit 1) else
  image_ref <~ lift (_parse_container_url image_ref) ;;
  '(repo, tag_or_digest) <~ lift (split_reference image_ref) ;;
  rstuf_path_base <~ lift (path_base repo) ;;
  raw_data <~ try_except (get_raw_data image_ref) is_Exception
                (fun _ => raise (SystemExit 1)) ;;
  let manifest := dumps raw_data in
  let '(size, digest) := _calculate_size_and_hash manifest in
  let payload := JObj [("artifacts", JArr [])] in
  media_type <~ lift (Py.subscript raw_data "mediaType") ;;
  if Py.eq_str media_type index_media_type then
    let index_path :=
      _sanitize_dockerhub_path image_ref
        (rstuf_path_base ++ ":" ++ tag_or_digest)%string in
    payload <~ lift (_add_to_rstuf index_path size digest payload) ;;
    manifests <~ lift (Py.get_default raw_data "manifests" (JArr [])) ;;
    manifests <~ lift (Py.iter manifests) ;;
    each_manifest image_ref rstuf_path_base manifests payload
  else
    let tag_path :=
      _sanitize_dockerhub_path image_ref
        (rstuf_path_base ++ ":" ++ tag_or_digest)%string in
    payload <~ lift (_add_to_rstuf tag_path size digest payload) ;;
    let digest_path := (rstuf_path_base ++ "@" ++ digest)%string in
    lift (_add_to_rstuf digest_path size digest payload).

End Registry.

End Oras.

(** ** [helpers/cli.py]: the payload of [artifact add] for a local file *)

Module Cli.

Import PyStr.
Local Open Scope outcome_scope.

(** [PayloadArtifactsHashes.blake2b_256]. *)
Definition blake2b_256 : string := "blake2b-256".

Record ArtifactInfo : Type := mkArtifactInfo {
  length : Z;
  hashes : list (string * string);
  custom : option json
}.

Record Artifact : Type := mkArtifact {
  info : ArtifactInfo;
  path : string
}.

Record AddPayload : Type := mkAddPayload {
  artifacts : list Artifact;
  add_task_id_to_custom : bool;
  publish_artifacts : bool
}.

(** [AddPayload(artifacts=...)] with the defaults of the other two fields. *)
Definition AddPayload_new (artifacts : list Artifact) : AddPayload :=
  mkAddPayload artifacts false true.

(** [dataclasses.asdict] on the three classes. *)
Definition ArtifactInfo_asdict (i : ArtifactInfo) : json :=
  JObj [("length", JInt (length i));
        ("hashes", JObj (map (fun kv => (fst kv, JStr (snd kv))) (hashes i)));
        ("custom", match custom i with Some c => c | None => JNull end)].

Definition Artifact_asdict (a : Artifact) : json :=
  JObj [("info", ArtifactInfo_asdict (info a)); ("path", JStr (path a))].

(** [AddPayload.to_dict]. *)
Definition to_dict (p : AddPayload) : json :=
  JObj [("artifacts", JArr (map Artifact_asdict (artifacts p)));
        ("add_task_id_to_custom", JBool (add_task_id_to_custom p));
        ("publish_artifacts", JBool (publish_artifacts p))].

Definition inspect {A} (a : A) : {b : A | a = b} := exist _ a eq_refl.

Section Files.

(** The regular files of the file system, by path, with their bytes. *)
Variable fs : string -> option string.

(** [hashlib.blake2b]: a new hasher for a digest size, [update] and
    [hexdigest]. *)
Variable hasher : Type.
Variable blake2b : nat -> hasher.
Variable update : hasher -> string -> hasher.
Variable hexdigest : hasher -> string.

(** [os.path.isfile(p)]. *)
Definition isfile (p : string) : bool :=
  match fs p with
  | Some _ => true
  | None => false
  end.

(** [os.path.getsize(p)]. *)
Definition getsize (p : string) : outcome Z :=
  match fs p with
  | Some data => Ok (Z.of_nat (String.length data))
  | None => Raise OSError
  end.

(** [for chunk in iter(lambda: file.read(size), <empty bytes>):
    hasher.update(chunk)] on a file whose unread bytes are [unread]. *)
Equations? update_chunks (size : nat) (h : hasher) (unread : string) : hasher
    by wf (String.length unread) lt :=
  update_chunks size h unread with inspect (take size unread) => {
    | exist _ EmptyString _ => h
    | exist _ (String a chunk) E =>
        update_chunks size (update h (String a chunk)) (drop size unread) }.
Proof.
  clear update_chunks.
  destruct size as [|n]; [discriminate|].
  destruct unread as [|b rest]; [discriminate|].
  simpl. clear E a chunk b.
  revert rest. induction n as [|n IH]; intros rest.
  - simpl. lia.
  - destruct rest as [|c rest]; simpl; [lia|].
    specialize (IH rest). lia.
Qed.

(** [calculate_blake2b_256(filepath)]. *)
Definition calculate_blake2b_256 (filepath : string) : outcome string :=
  (* Using non-default digest size of 32 for blake2b-256 *)
  let h := blake2b 32 in
  (* 8kB chunk size *)
  let chunk_size_bytes := (8 * 1024)%nat in
  match fs filepath with
  | Some data => Ok (hexdigest (update_chunks chunk_size_bytes h data))
  | None => Raise OSError
  end.

(** [create_artifact_add_payload_from_filepath(filepath, path)]. *)
Definition create_artifact_add_payload_from_filepath (filepath : string)
    (path : option string) : outcome json :=
  length <- getsize filepath ;;
  blake2b_256_hash <- calculate_blake2b_256 filepath ;;
  name <- last (split "/" filepath) ;;
  let payload_path :=
    match path with
    | Some p => if truthy p then (rstrip "/" p ++ "/" ++ name)%string else name
    | None => name
    end in
  let payload :=
    AddPayload_new
      [mkArtifact (mkArtifactInfo length [(blake2b_256, blake2b_256_hash)] None)
                  payload_path] in
  Ok (to_dict payload).

End Files.

End Cli.

(** ** [cli/artifact/add.py]: the [artifact add] command *)

Module Add.

Local Open Scope prog_scope.

Section Command.

Variable fs : string -> option string.
Variable hasher : Type.
Variable blake2b : nat -> hasher.
Variable update : hasher -> string -> hasher.
Variable hexdigest : hasher -> string.

(** The registry and the API server. *)
Variable W : Type.
Variable get_raw_data : string -> prog W json.
Variable get_manifest : string -> prog W json.
Variable dumps : json -> string.
Variable sha256 : string -> string.
Variable py_str : json -> string.
(** What the API answers to a payload: [send_payload] returns a task
    identifier or raises. *)
Variable api : json -> prog W string.

(** The world of the command: the outside world, and the payloads that
    were sent to the API, oldest first. *)
Record State : Type := mkState {
  world : W;
  sent : list json
}.

Definition in_world {A} (m : prog W A) : prog State A :=
  fun st =>
    let '(o, w) := m (world st) in
    (o, mkState w (sent st)).

(** [send_payload(settings, URL.ARTIFACTS.value, payload, ...)]. *)
Definition send_payload (payload : json) : prog State string :=
  fun st =>
    let '(o, w) := api payload (world st) in
    (o, mkState w (sent st ++ [payload])).

(** [add(context, artifact, oci_image, path, api_server, headers)];
    [settings_server] is [SERVER] in the settings [_set_settings] returns.
    The result is the task identifier the command prints. *)
Definition add (settings_server : option string) (artifact : string)
    (oci_image : bool) (path : option string) (api_server : option string)
    : prog State string :=
  let SERVER :=
    match api_server with
    | Some s => if PyStr.truthy s then Some s else settings_server
    | None => settings_server
    end in
  match SERVER with
  | None => raise ClickException
  | Some _ =>
      payload <~
        (if negb oci_image && Cli.isfile fs artifact
         then lift (Cli.create_artifact_add_payload_from_filepath
                      fs blake2b update hexdigest artifact path)
         else in_world (Oras.add_container_oci get_raw_data get_manifest dumps
                          sha256 py_str artifact)) ;;
      send_payload payload
  end.

End Command.

End Add.

(** ** [helpers/tuf_fetcher.py]: the fetcher of the TUF client *)

Module Fetcher.

Import PyStr.

(** What [requests.get(url, stream=True)] returns: the status code and the
    body as [response.iter_content(chunk_size=8192)] delivers it, a list of
    chunks and, when the transfer breaks, the exception that ends it. *)
Record Response : Type := mkResponse {
  status_code : Z;
  iter_content : list string;
  broken : option exn
}.

(** The fetcher object: the world its client talks to and the attribute
    [oci_registry]. *)
Record RSTUFFetcher (W : Type) : Type := mkFetcher {
  world : W;
  oci_registry : bool
}.

(** What draining the generator [_fetch(url)] gives: the chunks it yields,
    and the exception that ends it, if any. *)
Record Fetched : Type := mkFetched {
  yielded : list string;
  raised : option exn
}.

(** [except requests.RequestException]. *)
Definition is_RequestException (e : exn) : bool :=
  match e with
  | RequestException => true
  | _ => false
  end.

(** [except DownloadHTTPError]. *)
Definition is_DownloadHTTPError (e : exn) : bool :=
  match e with
  | DownloadHTTPError => true
  | _ => false
  end.

Section Fetch.

Variable W : Type.
(** [urlparse(url).scheme]. *)
Variable urlparse_scheme : string -> outcome string.
(** [requests.get(url, stream=True)]. *)
Variable requests_get : string -> prog W Response.
(** [self.client.get_raw_data(container=image_ref)]. *)
Variable get_raw_data : string -> prog W json.
(** [json.dumps(v).encode("utf-8")]. *)
Variable dumps : json -> string.

(** The handlers of the HTTP branch: [except requests.RequestException]. *)
Definition http_except (e : exn) : exn :=
  if is_RequestException e then DownloadError else e.

(** The handlers of the OCI branch: [except DownloadHTTPError] re-raises,
    [except Exception] raises [DownloadError]. *)
Definition oci_except (e : exn) : exn :=
  if is_DownloadHTTPError e then e
  else if is_Exception e then DownloadError
  else e.

(** [RSTUFFetcher._fetch(self, url)], drained. *)
Definition _fetch (url : string) (self : RSTUFFetcher W)
    : Fetched * RSTUFFetcher W :=
  match urlparse_scheme url with
  | Raise e => (mkFetched [] (Some e), self)
  | Ok scheme =>
      if String.eqb scheme "http" || String.eqb scheme "https" then
        (* Use requests for HTTP/HTTPS URLs *)
        match requests_get url (world self) with
        | (Raise e, w) =>
            (mkFetched [] (Some (http_except e)), mkFetcher w (oci_registry self))
        | (Ok response, w) =>
            if negb (Z.eqb (status_code response) 200) then
              (mkFetched [] (Some (http_except DownloadHTTPError)),
               mkFetcher w (oci_registry self))
            else
              (mkFetched (filter truthy (iter_content response))
                         (option_map http_except (broken response)),
               mkFetcher w (oci_registry self))
        end
      else
        let self := mkFetcher (world self) true in
        (* Use oras-py for OCI URIs *)
        let image_ref := url in
        if negb (contains ":" image_ref) && negb (contains "@" image_ref) then
          (mkFetched [] (Some (oci_except DownloadError)), self)
        else
          match get_raw_data image_ref (world self) with
          | (Raise e, w) =>
              (mkFetched [] (Some (oci_except e)), mkFetcher w true)
          | (Ok raw_data, w) =>
              (mkFetched [dumps raw_data] None, mkFetcher w true)
          end
  end.

End Fetch.

(** *** The standard library's URL parser

    The part of [urllib.parse.urlsplit] that decides the scheme and rejects
    a network location with an unbalanced bracket. *)

Definition is_alpha (a : ascii) : bool :=
  let n := nat_of_ascii a in
  ((65 <=? n) && (n <=? 90) || (97 <=? n) && (n <=? 122))%nat.

Definition is_scheme_char (a : ascii) : bool :=
  let n := nat_of_ascii a in
  (is_alpha a || (48 <=? n) && (n <=? 57)
   || Ascii.eqb a "+" || Ascii.eqb a "-" || Ascii.eqb a ".")%nat.

Fixpoint all_chars (p : ascii -> bool) (s : string) : bool :=
  match s with
  | EmptyString => true
  | String a s' => p a && all_chars p s'
  end.

Definition lower_char (a : ascii) : ascii :=
  let n := nat_of_ascii a in
  if ((65 <=? n) && (n <=? 90))%nat then ascii_of_nat (n + 32) else a.

Fixpoint lower (s : string) : string :=
  match s with
  | EmptyString => EmptyString
  | String a s' => String (lower_char a) (lower s')
  end.

(** The text of [s] before the first of ['/'], ['?'] and ['#']. *)
Fixpoint netloc_of (s : string) : string :=
  match s with
  | EmptyString => EmptyString
  | String a s' =>
      if Ascii.eqb a "/" || Ascii.eqb a "?" || Ascii.eqb a "#" then EmptyString
      else String a (netloc_of s')
  end.

Definition urlsplit_scheme (url : string) : outcome string :=
  let '(scheme, rest) :=
    match cut_first ":" url with
    | Some (String a l, r) =>
        if is_alpha a && all_chars is_scheme_char (String a l)
        then (lower (String a l), r)
        else (EmptyString, url)
    | _ => (EmptyString, url)
    end in
  if String.prefix "//" rest then
    let netloc := netloc_of (drop 2 rest) in
    if contains "[" netloc && negb (contains "]" netloc)
       || contains "]" netloc && negb (contains "[" netloc)
    then Raise ValueError
    else Ok scheme
  else Ok scheme.

End Fetcher.

(** ** [cli/admin/ceremony.py]: the ceremony *)

Module RoleSettings.

Record t : Type := mk {
  expiration : Z;
  threshold : Z;
  keys : Z;
  offline_keys : bool
}.

End RoleSettings.

Module Ceremony.

Import PyStr.

Inductive Roles : Type := ROOT | TARGETS | SNAPSHOT | TIMESTAMP | BINS.

Definition value (r : Roles) : string :=
  match r with
  | ROOT => "root"
  | TARGETS => "targets"
  | SNAPSHOT => "snapshot"
  | TIMESTAMP => "timestamp"
  | BINS => "bins"
  end.

(** The members of the enumeration, in the order of their definition. *)
Definition all_Roles : list Roles := [ROOT; TARGETS; SNAPSHOT; TIMESTAMP; BINS].

Definition default_settings : list (string * RoleSettings.t) :=
  [(value ROOT, RoleSettings.mk 365 1 2 true);
   (value TARGETS, RoleSettings.mk 365 1 2 true);
   (value SNAPSHOT, RoleSettings.mk 1 1 1 false);
   (value TIMESTAMP, RoleSettings.mk 1 1 1 false);
   (value BINS, RoleSettings.mk 1 1 1 false)].

(** [d[k]] on a dictionary with string keys. *)
Fixpoint item {A} (d : list (string * A)) (k : string) : outcome A :=
  match d with
  | [] => Raise KeyError
  | (k', v) :: rest => if String.eqb k k' then Ok v else item rest k
  end.

(** Modelled from the spec: the class [RolesKeysInput] of [helpers/tuf.py],
    which is not among the sources.  Its fields are the attributes
    [ceremony.py] reads and writes; [number_hash_prefixes] is set for the
    targets role only. *)
Record RolesKeysInput : Type := mkRolesKeysInput {
  expiration : Z;
  num_of_keys : Z;
  threshold : Z;
  keys : list (string * json);
  offline_keys : bool;
  number_hash_prefixes : option Z
}.

(** Modelled from the spec: [RolesKeysInput.to_dict], taken to be
    [dataclasses.asdict] as for [ServiceSettings]. *)
Definition RolesKeysInput_to_dict (r : RolesKeysInput) : json :=
  JObj [("expiration", JInt (expiration r));
        ("num_of_keys", JInt (num_of_keys r));
        ("threshold", JInt (threshold r));
        ("keys", JObj (keys r));
        ("offline_keys", JBool (offline_keys r));
        ("number_hash_prefixes",
         match number_hash_prefixes r with Some n => JInt n | None => JNull end)].

Record Key : Type := mkKey {
  key : option json;
  error : option string
}.

Record ServiceSettings : Type := mkServiceSettings {
  targets_base_url : string
}.

Definition ServiceSettings_to_dict (s : ServiceSettings) : json :=
  JObj [("targets_base_url", JStr (targets_base_url s))].

Record PayloadSettings : Type := mkPayloadSettings {
  roles : list (string * RolesKeysInput);
  service : ServiceSettings
}.

Definition OFFLINE_KEYS : list string := [value ROOT; value TARGETS].

(** The module-level [SETTINGS], where [new_role] is [RolesKeysInput()]. *)
Definition SETTINGS_initial (new_role : RolesKeysInput) : PayloadSettings :=
  mkPayloadSettings (map (fun role => (value role, new_role)) all_Roles)
                    (mkServiceSettings EmptyString).

(** An answer of the API server, as [request_server] returns it: the
    status code, the JSON object [response.json()] and [response.text]. *)
Record Response : Type := mkResponse {
  status_code : Z;
  body : list (string * json);
  text : string
}.

(** What [is_logged(server, token)] returns. *)
Record Logged : Type := mkLogged {
  state : bool;
  data : json
}.

(** The steps of a run that the outside can see. *)
Inductive Event : Type :=
| Configure (rolename : string)
| LoadKeys (rolename : string)
| Confirm (rolename : string) (answer : bool)
| InitializeMetadata (settings : list (string * RolesKeysInput)) (save : bool)
| WriteFile (file : string) (payload : json)
| Post (payload : json).

(** The state of a run: the global [SETTINGS]; what the prompts will
    return, by kind of prompt and in order; what the API server will answer
    to the requests, in order; the steps made so far, oldest first. *)
Record State : Type := mkState {
  SETTINGS : PayloadSettings;
  ints : list Z;
  confirms : list bool;
  texts : list string;
  server : list (outcome Response);
  trace : list Event
}.

(** The functions of other modules and libraries a run calls. *)
Record Env (Metadata : Type) : Type := mkEnv {
  SERVER : option string;
  TOKEN : option string;
  makedirs : outcome unit;
  is_logged : string -> string -> outcome Logged;
  import_ed25519_privatekey_from_file : string -> string -> outcome json;
  initialize_metadata :
    list (string * RolesKeysInput) -> bool -> outcome (list (string * Metadata));
  Metadata_to_dict : Metadata -> json;
  open_write : string -> outcome unit;
  json_load : string -> outcome json
}.

Local Open Scope prog_scope.

(** *** Reading and writing the state *)

Definition log (e : Event) : prog State unit :=
  fun st =>
    (Ok tt, mkState (SETTINGS st) (ints st) (confirms st) (texts st) (server st)
                    (trace st ++ [e])).

(** [prompt.IntPrompt.ask]. *)
Definition IntPrompt_ask : prog State Z :=
  fun st =>
    match ints st with
    | [] => (Raise EOFError, st)
    | z :: rest =>
        (Ok z, mkState (SETTINGS st) rest (confirms st) (texts st) (server st)
                       (trace st))
    end.

(** [prompt.Confirm.ask]. *)
Definition Confirm_ask : prog State bool :=
  fun st =>
    match confirms st with
    | [] => (Raise EOFError, st)
    | b :: rest =>
        (Ok b, mkState (SETTINGS st) (ints st) rest (texts st) (server st)
                       (trace st))
    end.

(** [prompt.Prompt.ask] and [click.prompt], which differ in what they raise
    at the end of the input. *)
Definition ask_text (at_end : exn) : prog State string :=
  fun st =>
    match texts st with
    | [] => (Raise at_end, st)
    | s :: rest =>
        (Ok s, mkState (SETTINGS st) (ints st) (confirms st) rest (server st)
                       (trace st))
    end.

Definition Prompt_ask : prog State string := ask_text EOFError.
Definition click_prompt : prog State string := ask_text ClickAbort.

(** [request_server(...)]. *)
Definition request_server : prog State Response :=
  fun st =>
    match server st with
    | [] => (Raise RequestException, st)
    | r :: rest =>
        (r, mkState (SETTINGS st) (ints st) (confirms st) (texts st) rest
                    (trace st))
    end.

Definition get_SETTINGS : prog State PayloadSettings :=
  fun st => (Ok (SETTINGS st), st).

Definition set_SETTINGS (s : PayloadSettings) : prog State unit :=
  fun st =>
    (Ok tt, mkState s (ints st) (confirms st) (texts st) (server st) (trace st)).

(** The role object [SETTINGS.roles[rolename]]. *)
Definition get_role (rolename : string) : prog State RolesKeysInput :=
  s <~ get_SETTINGS ;;
  lift (item (roles s) rolename).

Fixpoint update_item {A} (k : string) (f : A -> A) (d : list (string * A))
    : list (string * A) :=
  match d with
  | [] => []
  | (k', v) :: rest =>
      if String.eqb k k' then (k', f v) :: rest
      else (k', v) :: update_item k f rest
  end.

(** An assignment to attributes of the role object [SETTINGS.roles[rolename]]. *)
Definition modify_role (rolename : string) (f : RolesKeysInput -> RolesKeysInput)
    : prog State unit :=
  s <~ get_SETTINGS ;;
  set_SETTINGS (mkPayloadSettings (update_item rolename f (roles s)) (service s)).

Definition with_expiration (z : Z) (r : RolesKeysInput) : RolesKeysInput :=
  mkRolesKeysInput z (num_of_keys r) (threshold r) (keys r) (offline_keys r)
                   (number_hash_prefixes r).
Definition with_num_of_keys (z : Z) (r : RolesKeysInput) : RolesKeysInput :=
  mkRolesKeysInput (expiration r) z (threshold r) (keys r) (offline_keys r)
                   (number_hash_prefixes r).
Definition with_threshold (z : Z) (r : RolesKeysInput) : RolesKeysInput :=
  mkRolesKeysInput (expiration r) (num_of_keys r) z (keys r) (offline_keys r)
                   (number_hash_prefixes r).
Definition with_keys (k : list (string * json)) (r : RolesKeysInput) : RolesKeysInput :=
  mkRolesKeysInput (expiration r) (num_of_keys r) (threshold r) k (offline_keys r)
                   (number_hash_prefixes r).
Definition with_offline_keys (b : bool) (r : RolesKeysInput) : RolesKeysInput :=
  mkRolesKeysInput (expiration r) (num_of_keys r) (threshold r) (keys r) b
                   (number_hash_prefixes r).
Definition with_number_hash_prefixes (z : Z) (r : RolesKeysInput) : RolesKeysInput :=
  mkRolesKeysInput (expiration r) (num_of_keys r) (threshold r) (keys r)
                   (offline_keys r) (Some z).

(** [for x in xs: body(x)]. *)
Fixpoint for_each {S A} (xs : list A) (body : A -> prog S unit) : prog S unit :=
  match xs with
  | [] => ret tt
  | x :: rest => body x ;;; for_each rest body
  end.

(** *** Keys *)

(** [any(k for k in keys.values() if key == k.get(field))]. *)
Fixpoint any_key_with (field : string) (key : json) (keys : list (string * json))
    : outcome bool :=
  match keys with
  | [] => Ok false
  | (_, k) :: rest =>
      obind (Py.get k field) (fun v =>
        if Py.eq key v && Py.truthy k then Ok true
        else any_key_with field key rest)
  end.

(** [_key_is_duplicated(key)], on the roles of [SETTINGS]. *)
Fixpoint _key_is_duplicated (roles : list (string * RolesKeysInput)) (key : json)
    : outcome bool :=
  match roles with
  | [] => Ok false
  | (_, role) :: rest =>
      obind (any_key_with "key" key (keys role)) (fun by_key =>
        if by_key then Ok true
        else obind (any_key_with "path" key (keys role)) (fun by_path =>
          if by_path then Ok false
          else _key_is_duplicated rest key))
  end.

Section Run.

Variable Metadata : Type.
Variable env : Env Metadata.

(** [_load_key(filepath, password)]; [None] is [JNull]. *)
Definition _load_key (filepath password : string) : outcome (json * option string) :=
  match import_ed25519_privatekey_from_file env filepath password with
  | Ok k => Ok (k, None)
  | Raise CryptoError =>
      Ok (JNull, Some ":cross_mark: [red]Failed[/]: Check the password.")
  | Raise SecureSystemsLibError =>
      Ok (JNull, Some ":cross_mark: [red]Failed[/]")
  | Raise e => Raise e
  end.

(** [_configure_role(rolename, role)], where [role] is the object
    [SETTINGS.roles[rolename]]. *)
Definition _configure_role (rolename : string) : prog State unit :=
  log (Configure rolename) ;;;
  (* default reset when start configuration *)
  modify_role rolename (with_keys []) ;;;
  default <~ lift (item default_settings rolename) ;;
  modify_role rolename (with_threshold (RoleSettings.threshold default)) ;;;
  modify_role rolename (with_offline_keys (RoleSettings.offline_keys default)) ;;;
  expiration <~ IntPrompt_ask ;;
  modify_role rolename (with_expiration expiration) ;;;
  num_of_keys <~ IntPrompt_ask ;;
  modify_role rolename (with_num_of_keys num_of_keys) ;;;
  (if (1 <? num_of_keys)%Z
   then threshold <~ IntPrompt_ask ;;
        modify_role rolename (with_threshold threshold)
   else modify_role rolename (with_threshold 1)) ;;;
  if String.eqb rolename (value TARGETS) then
    show_example <~ Confirm_ask ;;
    number_hash_prefixes <~ IntPrompt_ask ;;
    modify_role rolename (with_number_hash_prefixes number_hash_prefixes) ;;;
    targets_base_url <~ click_prompt ;;
    let targets_base_url :=
      if negb (endswith "/" targets_base_url)
      then (targets_base_url ++ "/")%string
      else targets_base_url in
    s <~ get_SETTINGS ;;
    set_SETTINGS (mkPayloadSettings (roles s) (mkServiceSettings targets_base_url))
  else ret tt.

(** The loop of [_configure_keys]; every round reads a path and a password,
    so a run makes fewer rounds than there are texts to read. *)
Fixpoint configure_keys_loop (rounds : nat) (rolename : string) (key_count : Z)
    : prog State unit :=
  match rounds with
  | O => raise EOFError
  | S rounds =>
      role <~ get_role rolename ;;
      if (Z.of_nat (List.length (keys role)) <? num_of_keys role)%Z then
        filepath <~ Prompt_ask ;;
        password <~ click_prompt ;;
        '(key, error) <~ lift (_load_key filepath password) ;;
        match error with
        | Some _ =>
            try_again <~ Confirm_ask ;;
            if try_again
            then configure_keys_loop rounds rolename key_count
            else raise ClickException
        | None =>
            duplicated <~
              (if negb (Py.is_None key)
               then s <~ get_SETTINGS ;; lift (_key_is_duplicated (roles s) key)
               else ret false) ;;
            if duplicated
            then configure_keys_loop rounds rolename key_count
            else
              filename <~ lift (last (split "/" filepath)) ;;
              modify_role rolename (fun role =>
                with_keys
                  (Py.set_item (rolename ++ "_" ++ of_Z key_count)%string
                     (JObj [("filename", JStr filename);
                            ("password", JStr password);
                            ("key", key)])
                     (keys role))
                  role) ;;;
              configure_keys_loop rounds rolename (key_count + 1)%Z
        end
      else ret tt
  end.

(** [_configure_keys(rolename, role)]. *)
Definition _configure_keys (rolename : string) : prog State unit :=
  log (LoadKeys rolename) ;;;
  fun st => configure_keys_loop (S (List.length (texts st))) rolename 1%Z st.

(** *** The API server *)

(** [_check_server(settings)]; the result is the bearer token of the
    [Authorization] header. *)
Definition _check_server : prog State string :=
  match SERVER env, TOKEN env with
  | Some server, Some token =>
      if truthy server && truthy token then
        token_access_check <~ lift (is_logged env server token) ;;
        if negb (state token_access_check) then raise ClickException else
        expired_admin <~ lift (Py.get (data token_access_check) "expired") ;;
        if Py.is_True expired_admin then raise ClickException else
        response <~ request_server ;;
        bootstrap <~ lift (Py.get (JObj (body response)) "bootstrap") ;;
        if negb (Z.eqb (status_code response) 200) && Py.is_True bootstrap
        then raise ClickException
        else ret token
      else raise ClickException
  | _, _ => raise ClickException
  end.

(** What [_bootstrap] makes of the answer to its request. *)
Definition bootstrap_answer (response : Response) : outcome json :=
  let task_id := JNull in
  let response_json := JObj (body response) in
  if negb (Z.eqb (status_code response) 202) then Raise ClickException
  else
    obind (Py.get response_json "message") (fun message =>
      if Py.is_None message || negb (Py.eq_str message "Bootstrap accepted.")
      then Raise ClickException
      else
        obind (Py.get response_json "data") (fun data =>
          if Py.truthy data
          then Py.get data "task_id"
          else Ok task_id)).

(** [_bootstrap(server, headers, json_payload)]. *)
Definition _bootstrap (json_payload : json) : prog State json :=
  log (Post json_payload) ;;;
  response <~ request_server ;;
  lift (bootstrap_answer response).

(** One round of the loop of [_bootstrap_state]. *)
Inductive Round : Type :=
| Again (received_state : list json)
| Finished
| Failed (e : exn).

Definition is_AttributeError (e : exn) : bool :=
  match e with
  | AttributeError => true
  | _ => false
  end.

Definition bootstrap_round (state_response : Response) (received_state : list json)
    : Round :=
  if negb (Z.eqb (status_code state_response) 200) then Failed ClickException
  else
    match Py.get (JObj (body state_response)) "data" with
    | Raise e => Failed e
    | Ok data =>
        if Py.truthy data then
          match Py.get data "state" with
          | Raise e => Failed e
          | Ok state =>
              if Py.truthy state then
                let received_state :=
                  if negb (existsb (fun s => Py.eq s state) received_state)
                  then received_state ++ [state]
                  else received_state in
                if Py.eq_str state "SUCCESS" then
                  let bootstrap_result :=
                    match obind (Py.get data "result") (fun result =>
                          obind (Py.get result "details") (fun details =>
                          Py.get details "bootstrap")) with
                    | Ok b => Ok b
                    | Raise e => if is_AttributeError e then Ok (JBool false)
                                 else Raise e
                    end in
                  match bootstrap_result with
                  | Raise e => Failed e
                  | Ok bootstrap_result =>
                      if negb (Py.is_True bootstrap_result)
                      then Failed ClickException
                      else Finished
                  end
                else if Py.eq_str state "FAILURE" then Failed ClickException
                else Again received_state
              else Failed ClickException
          end
        else Failed ClickException
    end.

(** The loop of [_bootstrap_state] on the answers the server will give;
    what is left of them is returned with the outcome. *)
Fixpoint bootstrap_poll (answers : list (outcome Response)) (received_state : list json)
    : outcome unit * list (outcome Response) :=
  match answers with
  | [] => (Raise RequestException, [])
  | Raise e :: rest => (Raise e, rest)
  | Ok state_response :: rest =>
      match bootstrap_round state_response received_state with
      | Again received_state => bootstrap_poll rest received_state
      | Finished => (Ok tt, rest)
      | Failed e => (Raise e, rest)
      end
  end.

(** [_bootstrap_state(task_id, server, headers)]. *)
Definition _bootstrap_state : prog State unit :=
  fun st =>
    let '(o, rest) := bootstrap_poll (server st) [] in
    (o, mkState (SETTINGS st) (ints st) (confirms st) (texts st) rest (trace st)).

(** *** The command *)

(** The rows of the table of keys in the summary of a role:
    [key.get("filename")] and [key.get("key").get("keyid")] for every key. *)
Fixpoint keys_table (keys : list (string * json)) : outcome unit :=
  match keys with
  | [] => Ok tt
  | (_, key) :: rest =>
      obind (Py.get key "filename") (fun _ =>
      obind (Py.get key "key") (fun k =>
      obind (Py.get k "keyid") (fun _ =>
      keys_table rest)))
  end.

(** The loop [while True] that shows the summary of a role and asks for
    its confirmation; every round reads one confirmation. *)
Fixpoint confirm_loop (rounds : nat) (rolename : string) : prog State unit :=
  match rounds with
  | O => raise EOFError
  | S rounds =>
      role <~ get_role rolename ;;
      lift (keys_table (keys role)) ;;;
      confirm_config <~ Confirm_ask ;;
      log (Confirm rolename confirm_config) ;;;
      if negb confirm_config then
        (* reconfigure role and keys *)
        _configure_role rolename ;;;
        _configure_keys rolename ;;;
        confirm_loop rounds rolename
      else ret tt
  end.

Definition confirm_role (rolename : string) : prog State unit :=
  fun st => confirm_loop (S (List.length (confirms st))) rolename st.

(** The names [SETTINGS.roles.items()] runs through. *)
Definition role_names : prog State (list string) :=
  s <~ get_SETTINGS ;;
  ret (map fst (roles s)).

(** The loop that fills [json_payload["settings"]["roles"]]; [settings] is
    the dictionary [json_payload["settings"]]. *)
Fixpoint payload_roles (names : list string) (settings : list (string * json))
    : prog State (list (string * json)) :=
  match names with
  | [] => ret settings
  | settings_role :: rest =>
      data <~ get_role settings_role ;;
      (if offline_keys data
       then modify_role settings_role (with_keys [])
       else ret tt) ;;;
      data <~ get_role settings_role ;;
      settings <~
        (if negb (Py.mem "roles" settings) then
           ret (Py.set_item "roles"
                  (JObj [(settings_role, RolesKeysInput_to_dict data)]) settings)
         else
           roles <~ lift (Py.subscript (JObj settings) "roles") ;;
           match roles with
           | JObj fields =>
               ret (Py.set_item "roles"
                      (JObj (Py.set_item settings_role
                               (RolesKeysInput_to_dict data) fields))
                      settings)
           | _ => raise TypeError
           end) ;;
      payload_roles rest settings
  end.

(** The construction of [json_payload] from [SETTINGS] and the metadata. *)
Definition build_payload (metadata : list (string * Metadata)) : prog State json :=
  s <~ get_SETTINGS ;;
  let settings := [("service", ServiceSettings_to_dict (service s))] in
  names <~ role_names ;;
  settings <~ payload_roles names settings ;;
  ret (JObj [("settings", JObj settings);
             ("metadata",
              JObj (map (fun kv => (fst kv, Metadata_to_dict env (snd kv)))
                        metadata))]).

(** [except OSError] around a call that raises [ClickException] instead. *)
Definition OSError_to_ClickException {A} (o : outcome A) : outcome A :=
  match o with
  | Raise OSError => Raise ClickException
  | _ => o
  end.

(** The branch [if upload is False] of [ceremony], up to the payload. *)
Definition ceremony_steps (save : bool) : prog State json :=
  ceramony_detailed <~ Confirm_ask ;;
  start_ceremony <~ Confirm_ask ;;
  if negb start_ceremony then raise ClickException else
  names <~ role_names ;;
  for_each names _configure_role ;;;
  start_ceremony <~ Confirm_ask ;;
  if negb start_ceremony then raise ClickException else
  names <~ role_names ;;
  for_each names _configure_keys ;;;
  names <~ role_names ;;
  for_each names confirm_role ;;;
  s <~ get_SETTINGS ;;
  log (InitializeMetadata (roles s) save) ;;;
  metadata <~ lift (initialize_metadata env (roles s) save) ;;
  build_payload metadata.

(** [ceremony(context, bootstrap, file, upload, save)]. *)
Definition ceremony (bootstrap : bool) (file : string) (upload save : bool)
    : prog State unit :=
  (if save then lift (OSError_to_ClickException (makedirs env)) else ret tt) ;;;
  (if upload && negb bootstrap then raise ClickException else ret tt) ;;;
  headers <~
    (if bootstrap then
       headers <~ _check_server ;;
       bs_response <~ request_server ;;
       bs_bootstrap <~ lift (Py.get (JObj (body bs_response)) "bootstrap") ;;
       if Z.eqb (status_code bs_response) 404 then raise ClickException
       else if negb (Z.eqb (status_code bs_response) 200) then raise ClickException
       else if Py.is_True bs_bootstrap then raise ClickException
       else ret (Some headers)
     else ret None) ;;
  (if negb upload then
     json_payload <~ ceremony_steps save ;;
     (if truthy file
      then lift (open_write env file) ;;; log (WriteFile file json_payload)
      else ret tt) ;;;
     (if bootstrap
      then _bootstrap json_payload ;;; ret tt
      else ret tt)
   else if bootstrap && upload then
     json_payload <~ lift (OSError_to_ClickException (json_load env file)) ;;
     task_id <~ _bootstrap json_payload ;;
     if Py.is_None task_id then raise ClickException
     else _bootstrap_state
   else ret tt) ;;;
  ret tt.

End Run.

End Ceremony.

(** ** [cli/admin/new.py]: the [metadata new] command *)

Module New.

Local Open Scope prog_scope.

(** The value of a local variable that may not have been assigned yet. *)
Definition local {A} (v : option A) : outcome A :=
  match v with
  | Some a => Ok a
  | None => Raise UnboundLocalError
  end.

Section Command.

(** The delegations [_configure_delegations] of [cli/admin/helpers.py]
    builds from the answers of the user, and their [to_dict]. *)
Variable Delegations : Type.
Variable Delegations_to_dict : Delegations -> json.
Variable W : Type.
Variable _configure_delegations : prog W Delegations.

(** The world of the command: the prompts, and what was written to the
    files opened for [--out], oldest first. *)
Record State : Type := mkState {
  world : W;
  written : list (string * json)
}.

(** [json.dump(value, out, indent=2)]. *)
Definition json_dump (value : json) (out : string) : prog State unit :=
  fun st => (Ok tt, mkState (world st) (written st ++ [(out, value)])).

Definition in_world {A} (m : prog W A) : prog State A :=
  fun st =>
    let '(o, w) := m (world st) in
    (o, mkState w (written st)).

(** [new(context, out, dry_run)]; [SERVER] is [settings.get("SERVER")] and
    [out] the name of the file opened for [--out], if the option is given.
    The result is the value of [delegations] when the command ends. *)
Definition new (SERVER : option string) (out : option string) (dry_run : bool)
    : prog State Delegations :=
  let delegations : option Delegations := None in
  if match SERVER with None => true | Some _ => false end && negb dry_run
  then raise ClickException
  else
    (match out with
     | Some out =>
         d <~ lift (local delegations) ;;
         json_dump (JObj [("delegations", Delegations_to_dict d)]) out
     | None => ret tt
     end) ;;;
    delegations <~ in_world _configure_delegations ;;
    ret delegations.

End Command.

End New.

(** ** [cli/admin/new.py]: the roles that wait for a signature *)

Module Pending.

Local Open Scope outcome_scope.

(** [len(v) == 0]. *)
Definition len_is_zero (v : json) : outcome bool :=
  match v with
  | JStr s => Ok (negb (PyStr.truthy s))
  | JArr items => Ok (match items with [] => true | _ => false end)
  | JObj fields => Ok (match fields with [] => true | _ => false end)
  | _ => Raise TypeError
  end.

(** [_parse_pending_data(pending_roles_resp)]. *)
Definition _parse_pending_data (pending_roles_resp : json) : outcome json :=
  data <- Py.get pending_roles_resp "data" ;;
  if Py.is_None data then Raise ClickException else
  pending_roles <- Py.get_default data "metadata" (JObj []) ;;
  empty <- len_is_zero pending_roles ;;
  if empty then Raise ClickException else
  Ok pending_roles.

Section Server.

Variable W : Type.
(** [request_server(settings.SERVER, URL.METADATA_SIGN.value, Methods.GET)]. *)
Variable request_server : prog W Ceremony.Response.

Local Open Scope prog_scope.

(** [_get_pending_roles(settings)]. *)
Definition _get_pending_roles : prog W json :=
  response <~ request_server ;;
  if negb (Z.eqb (Ceremony.status_code response) 200) then raise ClickException
  else lift (_parse_pending_data (JObj (Ceremony.body response))).

End Server.

End Pending.

(** * The vocabulary of the properties

    The notions the properties below are stated with, in the words of the
    specification, and the examples they are tried on. *)

(** ** Container references *)

Section StatedReferences.

Import PyStr Oras.

(** The text after the last [c] of [s]; all of [s] when it has no [c]. *)
Definition after_last (c : ascii) (s : string) : string :=
  match cut_last c s with
  | Some (_, r) => r
  | None => s
  end.

(** The text before the last [c] of [s]; all of [s] when it has no [c]. *)
Definition before_last (c : ascii) (s : string) : string :=
  match cut_last c s with
  | Some (l, _) => l
  | None => s
  end.

(** The tag: the text after the last [':'], or [latest]. *)
Definition stated_tag (url : string) : string :=
  if contains ":" url then after_last ":" url else "latest".

(** The segments of the remainder, between the ['/']. *)
Definition stated_segments (url : string) : list string :=
  split "/" (if contains ":" url then before_last ":" url else url).

(** A segment that is taken for a server. *)
Definition names_server (segment : string) : bool :=
  contains "." segment || startswith "registry" segment.

(** The server: the first segment when it has a dot or starts with
    [registry], else Docker Hub. *)
Definition stated_server (url : string) : string :=
  match stated_segments url with
  | segment :: _ => if names_server segment then segment else docker_hub
  | [] => docker_hub
  end.

(** The segments that remain once the server is taken. *)
Definition stated_remaining (url : string) : list string :=
  match stated_segments url with
  | segment :: rest => if names_server segment then rest else segment :: rest
  | [] => []
  end.

(** The path: [library] or nothing when a single segment remains, the
    segments before the last one otherwise. *)
Definition stated_path (url : string) : string :=
  match stated_remaining url with
  | [_] => if String.eqb (stated_server url) docker_hub then "library"
           else EmptyString
  | parts => join "/" (removelast parts)
  end.

(** The image: the last of the remaining segments. *)
Definition stated_image (url : string) : string :=
  List.last (stated_remaining url) EmptyString.

(** The normal form of a reference in the words of the specification:
    [server/path/image:tag], or [server/image:tag] without a path. *)
Definition normal_form (url : string) : string :=
  match stated_path url with
  | EmptyString =>
      (stated_server url ++ "/" ++ stated_image url ++ ":" ++ stated_tag url)%string
  | path =>
      (stated_server url ++ "/" ++ path ++ "/" ++ stated_image url ++ ":"
       ++ stated_tag url)%string
  end.

End StatedReferences.

(** ** Artifacts of an OCI index *)

Section StatedArtifacts.

Import PyStr Oras.
Local Open Scope prog_scope.

Variable W : Type.
Variable get_manifest : string -> prog W json.
Variable dumps : json -> string.
Variable sha256 : string -> string.
Variable py_str : json -> string.


(** One request [get_manifest] for every reference, in order. *)
Fixpoint fetch_all (uris : list string) : prog W (list json) :=
  match uris with
  | [] => ret []
  | uri :: rest =>
      body <~ get_manifest uri ;;
      bodies <~ fetch_all rest ;;
      ret (body :: bodies)
  end.

(** The artifact of a serialized document at a path: its length in bytes
    and its SHA-256 digest. *)
Definition artifact_of (path : string) (document : json) : json :=
  artifact path (Z.of_nat (String.length (dumps document))) "sha256"
           (hex (sha256 (dumps document))).

(** The artifact of the manifest with digest [digest] in the index and
    body [body]. *)
Definition manifest_artifact (base : string) (entry : json * json) : json :=
  artifact_of (base ++ "@" ++ format py_str (fst entry))%string (snd entry).

End StatedArtifacts.

(** ** The payload of a local file *)

Section StatedFilePayload.

Import PyStr.

Variable hasher : Type.
Variable blake2b : nat -> hasher.
Variable update : hasher -> string -> hasher.
Variable hexdigest : hasher -> string.

(** The payload the specification describes for a file with bytes
    [contents]. *)
Definition file_payload (filepath : string) (path : option string)
    (contents : string) : json :=
  let name := after_last "/" filepath in
  let target :=
    match path with
    | Some (String a p) => (rstrip "/" (String a p) ++ "/" ++ name)%string
    | _ => name
    end in
  JObj [("artifacts",
         JArr [JObj [("info",
                      JObj [("length", JInt (Z.of_nat (String.length contents)));
                            ("hashes",
                             JObj [("blake2b-256",
                                    JStr (hexdigest (update (blake2b 32) contents)))]);
                            ("custom", JNull)]);
                     ("path", JStr target)]]);
        ("add_task_id_to_custom", JBool false);
        ("publish_artifacts", JBool true)].

End StatedFilePayload.

(** ** The fetcher *)

Section StatedFetcher.

Import PyStr Fetcher.

(** The exceptions the specification lets [_fetch] raise. *)
Definition download_error (e : exn) : Prop :=
  e = DownloadHTTPError \/ e = DownloadError.

Definition is_http (scheme : string) : bool :=
  String.eqb scheme "http" || String.eqb scheme "https".

(** C4 as the specification states it: whatever the URL, no exception
    other than [DownloadHTTPError] and [DownloadError] leaves [_fetch]. *)
Definition only_download_errors_escape (W : Type)
    (urlparse_scheme : string -> outcome string)
    (requests_get : string -> prog W Response)
    (get_raw_data : string -> prog W json) (dumps : json -> string) : Prop :=
  forall url self e,
    raised (fst (_fetch urlparse_scheme requests_get get_raw_data dumps url self))
    = Some e ->
    download_error e.

End StatedFetcher.

(** ** The bootstrap request and the status poll *)

Section StatedBootstrap.

Import Ceremony.






End StatedBootstrap.

(** ** The ceremony *)

Section StatedCeremony.

Import PyStr Ceremony.

(** The names of the roles of [SETTINGS], in order. *)
Definition names_of (st : State) : list string := map fst (roles (SETTINGS st)).

(** The role [r] has the [offline_keys] of [default_settings]. *)
Definition is_default (r : string) (st : State) : Prop :=
  forall data d,
    item (roles (SETTINGS st)) r = Ok data ->
    item default_settings r = Ok d ->
    offline_keys data = RoleSettings.offline_keys d.

(** From [st] to [st'], the names of the roles stay, the roles that have
    their default [offline_keys] keep it, the steps [evs] are made, and no
    answer of the user comes back. *)
Record evolves (st st' : State) (evs : list Event) : Prop := mkEvolves {
  ev_names : names_of st' = names_of st;
  ev_default : forall r, is_default r st -> is_default r st';
  ev_trace : trace st' = trace st ++ evs;
  ev_texts : (List.length (texts st') <= List.length (texts st))%nat;
  ev_confirms : (List.length (confirms st') <= List.length (confirms st))%nat
}.

(** The steps of the confirmation of a role: rounds that refuse the
    summary and configure the role and its keys again, then a round that
    accepts it. *)
Inductive confirmation (rolename : string) : list Event -> Prop :=
| confirmation_accepted :
    confirmation rolename [Confirm rolename true]
| confirmation_refused evs :
    confirmation rolename evs ->
    confirmation rolename
      (Confirm rolename false :: Configure rolename :: LoadKeys rolename :: evs).

Inductive confirmations : list string -> list Event -> Prop :=
| confirmations_nil : confirmations [] []
| confirmations_cons rolename names evs1 evs2 :
    confirmation rolename evs1 ->
    confirmations names evs2 ->
    confirmations (rolename :: names) (evs1 ++ evs2).

(** The five names of the roles. *)
Definition five_names : list string := map value all_Roles.

(** [payload["settings"]["roles"][r]["keys"]]. *)
Definition payload_keys (payload : json) (r : string) : outcome json :=
  obind (Py.subscript payload "settings") (fun settings =>
  obind (Py.subscript settings "roles") (fun roles =>
  obind (Py.subscript roles r) (fun role =>
  Py.subscript role "keys"))).

(** The steps of a run that does not upload: the roles are configured,
    the keys are loaded, the roles are confirmed, the metadata is
    initialized, and the payload is written and posted as asked. *)
Definition run_events (save : bool) (file : string) (bootstrap : bool)
    (evs : list Event) (settings : list (string * RolesKeysInput))
    (payload : json) : list Event :=
  map Configure five_names ++ map LoadKeys five_names ++ evs
  ++ [InitializeMetadata settings save]
  ++ (if truthy file then [WriteFile file payload] else [])
  ++ (if bootstrap then [Post payload] else []).



End StatedCeremony.

(** ** Examples *)

Section Examples.

Import PyStr Oras.



Definition example_get_manifest (container : string) : prog nat json :=
  fun n => (Ok (JObj [("ref", JStr container)]), S n).

(** A stand-in for the serializer: the reference a manifest records, or
    the word [index]. *)
Definition example_dumps (v : json) : string :=
  match v with
  | JObj [(_, JStr s)] => s
  | _ => "index"
  end.

Definition example_sha256 (data : string) : string := data.

Definition example_str (v : json) : string := EmptyString.

(** A file of 10000 bytes, more than one chunk of 8 kB, and a stand-in for
    the hasher that keeps the bytes it was fed and shows the first four in
    hexadecimal. *)
Fixpoint example_bytes (n : nat) : string :=
  match n with
  | O => EmptyString
  | S n => String "a" (example_bytes n)
  end.

Definition example_size : nat := 100 * 100.

Definition example_fs (p : string) : option string :=
  if String.eqb p "dist/tool-1.0.tar" then Some (example_bytes example_size) else None.

Definition example_update (h data : string) : string := (h ++ data)%string.

Definition example_hexdigest (h : string) : string := Oras.hex (take 4 h).

Definition example_api (payload : json) : prog unit string :=
  fun w => (Ok "task-1", w).

End Examples.

Section FetcherExample.

Import PyStr Fetcher.

(** A server that answers every request with the same body in three
    chunks, one of them empty, and a registry with one document. *)
Definition example_requests_get (url : string) : prog unit Response :=
  fun w => (Ok (mkResponse 200 ["signed"; EmptyString; "metadata"] None), w).

Definition example_registry (container : string) : prog unit json :=
  fun w => (Ok (JObj [("schemaVersion", JInt 2)]), w).

Definition example_serialize (v : json) : string := "schemaVersion=2".

End FetcherExample.

Section CeremonyExamples.

Import Ceremony.









(** A run of the ceremony without upload and without bootstrap, in which
    the summary of the snapshot role is refused once. *)
Definition example_env : Env unit :=
  mkEnv None None (Ok tt)
        (fun _ _ => Raise ClickException)
        (fun filepath password => Ok (JObj [("keyid", JStr filepath)]))
        (fun settings save => Ok [("root", tt); ("targets", tt)])
        (fun _ => JObj [("signed", JNull)])
        (fun _ => Ok tt)
        (fun _ => Raise OSError).

Definition example_run : State :=
  mkState (SETTINGS_initial (mkRolesKeysInput 1 1 1 [] true None))
          (* expiration, number of keys and threshold of the roles; the
             number of hash bins after those of targets *)
          [365; 2; 1;  365; 2; 1; 8;  1; 1;  1; 1;  1; 1;  7; 1]%Z
          (* more information, start, show example, load the keys, then
             the confirmations *)
          [false; true; true; true;  true; true; false; true; true; true]
          ["https://www.example.com/downloads";
           "keys/root1"; "pw"; "keys/root2"; "pw";
           "keys/targets1"; "pw"; "keys/targets2"; "pw";
           "keys/snapshot"; "pw"; "keys/timestamp"; "pw"; "keys/bins"; "pw";
           "keys/snapshot2"; "pw"]
          [] [].

Definition example_end : State :=
  snd (ceremony example_env false "payload.json" false false example_run).

End CeremonyExamples.

(** ** Further notions *)

Section StatedNormalization.

Import PyStr Oras.

(** The reference made of a server, segments and a tag. *)
Definition glue (server : string) (parts : list string) (tag : string) : string :=
  (server ++ "/" ++ join "/" parts ++ ":" ++ tag)%string.

(** What [_parse_container_url] builds from a server, the segments that
    remain and a tag. *)
Definition assemble (server : string) (parts : list string) (tag : string)
    : string :=
  match match parts with
        | [_] => if String.eqb server docker_hub then "library" else EmptyString
        | _ => join "/" (removelast parts)
        end with
  | EmptyString =>
      (server ++ "/" ++ List.last parts EmptyString ++ ":" ++ tag)%string
  | path =>
      (server ++ "/" ++ path ++ "/" ++ List.last parts EmptyString ++ ":"
       ++ tag)%string
  end.

(** The segments after the server in what [assemble] builds. *)
Definition settle (server : string) (parts : list string) : list string :=
  match parts with
  | [p] => if String.eqb server docker_hub then ["library"; p] else [p]
  | _ =>
      match join "/" (removelast parts) with
      | EmptyString => [List.last parts EmptyString]
      | _ => parts
      end
  end.

(** What follows the server in the normal form, up to the tag: the path
    and the image. *)
Definition stated_base (url : string) : string :=
  match stated_path url with
  | EmptyString => stated_image url
  | path => (path ++ "/" ++ stated_image url)%string
  end.

End StatedNormalization.

Section MoreExamples.

Import PyStr Oras.

(** The manifest of an image, which is not an index, and a registry that
    gives the same answer to every request and counts the requests. *)
Definition example_manifest : json :=
  JObj [("schemaVersion", JInt 2);
        ("mediaType", JStr "application/vnd.oci.image.manifest.v1+json")].

Definition example_registry_with (answer : outcome json) (container : string)
    : prog nat json :=
  fun n => (answer, S n).

End MoreExamples.

(** ** The roles of the ceremony *)

Section StatedRoles.

Import PyStr Ceremony.

(** The role holds as many keys as were asked for, and its threshold is 1
    when at most one key was asked for. *)
Definition settled (role : RolesKeysInput) : Prop :=
  Z.of_nat (List.length (keys role)) = Z.max 0 (num_of_keys role) /\
  (num_of_keys role <= 1 -> threshold role = 1)%Z.

(** The role was configured, and its keys are loaded or still to load. *)
Definition configured (role : RolesKeysInput) : Prop :=
  (keys role = [] \/
   Z.of_nat (List.length (keys role)) = Z.max 0 (num_of_keys role)) /\
  (num_of_keys role <= 1 -> threshold role = 1)%Z.

(** A property of the role [r] of [SETTINGS]. *)
Definition at_role (P : RolesKeysInput -> Prop) (r : string) (st : State) : Prop :=
  forall role, item (roles (SETTINGS st)) r = Ok role -> P role.

(** The base URL of the targets ends with a slash. *)
Definition slashed (st : State) : Prop :=
  endswith "/" (targets_base_url (service (SETTINGS st))) = true.

(** From a state to another, the roles other than [r] stay as they are,
    and the role [r] becomes [f] of what it was. *)
Definition reworks (r : string) (f : RolesKeysInput -> RolesKeysInput)
    (st st' : State) : Prop :=
  forall r',
    item (roles (SETTINGS st')) r'
    = match item (roles (SETTINGS st)) r' with
      | Ok role => Ok (if String.eqb r' r then f role else role)
      | Raise e => Raise e
      end.

(** [payload["settings"]["service"]["targets_base_url"]]. *)
Definition payload_base_url (payload : json) : outcome json :=
  obind (Py.subscript payload "settings") (fun settings =>
  obind (Py.subscript settings "service") (fun service =>
  Py.subscript service "targets_base_url")).

(** An entry of the keys of a role as [_configure_keys] stores it. *)
Definition loaded (entry : json) : Prop :=
  exists filename password key,
    entry = JObj [("filename", JStr filename); ("password", JStr password);
                  ("key", key)].

(** [entry.get("key")], or [None] for an entry that has no [get]. *)
Definition entry_key (entry : json) : json :=
  match Py.get entry "key" with
  | Ok key => key
  | Raise _ => JNull
  end.

(** The entries of the keys of all the roles, in the order of the roles. *)
Definition all_entries (roles : list (string * RolesKeysInput)) : list json :=
  flat_map (fun role => map snd (keys (snd role))) roles.

(** Some role holds an entry whose key equals [key]. *)
Definition held (roles : list (string * RolesKeysInput)) (key : json) : bool :=
  existsb (fun entry => Py.eq key (entry_key entry)) (all_entries roles).

(** Every entry of every role is one that [_configure_keys] stored. *)
Definition all_loaded (roles : list (string * RolesKeysInput)) : Prop :=
  Forall loaded (all_entries roles).

(** Two keys that are not the same key: one of them is [None], or they
    are not equal. *)
Definition different (a b : json) : Prop :=
  Py.is_None a = true \/ Py.is_None b = true \/
  Py.eq a b = false \/ Py.eq b a = false.

(** No two entries of a list hold the same key. *)
Definition no_key_twice (entries : list json) : Prop :=
  ForallOrdPairs different (map entry_key entries).

(** The entries of the roles are entries that [_configure_keys] stored,
    and no two of them hold the same key. *)
Definition distinct_keys (roles : list (string * RolesKeysInput)) : Prop :=
  all_loaded roles /\ no_key_twice (all_entries roles).

(** The role has no keys. *)
Definition keyless (role : RolesKeysInput) : Prop := keys role = [].

(** A step that reads no answer of the user, leaves [SETTINGS] as it is
    and makes no step that the outside can see: all it may do is talk to
    the server. *)
Definition quiet {A} (m : prog State A) : Prop :=
  forall st o st',
    m st = (o, st') ->
    SETTINGS st' = SETTINGS st /\ ints st' = ints st /\
    confirms st' = confirms st /\ texts st' = texts st /\
    trace st' = trace st.

(** The steps that give the payload away: a write to the file and a
    post to the server. *)
Definition is_output (e : Event) : bool :=
  match e with
  | WriteFile _ _ => true
  | Post _ => true
  | _ => false
  end.

(** A step that gives no payload away, however it ends. *)
Definition silent {A} (m : prog State A) : Prop :=
  forall st o st',
    m st = (o, st') ->
    exists evs, trace st' = trace st ++ evs /\ existsb is_output evs = false.

(** Roles that hold one key, for the root. *)
Definition example_roles : list (string * RolesKeysInput) :=
  [("root",
    mkRolesKeysInput 365 1 1
      [("root_1", JObj [("filename", JStr "root1"); ("password", JStr "pw");
                        ("key", JObj [("keyid", JStr "k1")])])]
      true None);
   ("bins", mkRolesKeysInput 1 1 1 [] false None)].




(** Two keys to load for the role [bins], the first file given with a
    wrong password at first. *)
Definition example_keys_env : Env unit :=
  mkEnv None None (Ok tt)
        (fun _ _ => Raise ClickException)
        (fun filepath password =>
           if String.eqb password "pw" then Ok (JObj [("keyid", JStr filepath)])
           else Raise CryptoError)
        (fun settings save => Ok [])
        (fun _ => JNull)
        (fun _ => Ok tt)
        (fun _ => Raise OSError).

Definition example_loading : State :=
  mkState (mkPayloadSettings
             [("bins", mkRolesKeysInput 1 2 1 [] false None)]
             (mkServiceSettings "https://www.example.com/"))
          [90; 1]%Z [true]
          ["keys/bins1"; "wrong"; "keys/bins1"; "pw"; "keys/bins2"; "pw"]
          [] [].

End StatedRoles.

(** * Properties *)

(** ** Programs *)

Lemma obind_Ok {A B} (m : outcome A) (f : A -> outcome B) (b : B) :
  obind m f = Ok b -> exists a, m = Ok a /\ f a = Ok b.
Proof.
  destruct m as [a|e]; simpl; intros H; [eauto | discriminate].
Qed.

Lemma bind_Ok {S A B} (m : prog S A) (f : A -> prog S B) s b s2 :
  bind m f s = (Ok b, s2) ->
  exists a s1, m s = (Ok a, s1) /\ f a s1 = (Ok b, s2).
Proof.
  unfold bind. destruct (m s) as [[a|e] s1]; intros H.
  - exists a, s1. auto.
  - discriminate.
Qed.

Lemma lift_Ok {S A} (o : outcome A) (s s' : S) a :
  lift o s = (Ok a, s') -> o = Ok a /\ s' = s.
Proof.
  unfold lift. intros H. inversion H. auto.
Qed.

Lemma ret_Ok {S A} (a b : A) (s s' : S) :
  ret a s = (Ok b, s') -> b = a /\ s' = s.
Proof.
  unfold ret. intros H. inversion H. auto.
Qed.

(** ** Strings *)

Section StringFacts.

Import PyStr.

Lemma contains_app c s t :
  contains c (s ++ t)%string = contains c s || contains c t.
Proof.
  induction s as [|a s IH]; simpl; [reflexivity|].
  rewrite IH. now rewrite orb_assoc.
Qed.

Lemma cut_last_app c s l r :
  cut_last c s = Some (l, r) -> s = (l ++ String c r)%string.
Proof.
  revert l r. induction s as [|a s IH]; simpl; intros l r H; [discriminate|].
  destruct (cut_last c s) as [[l' r']|] eqn:E.
  - inversion H; subst. simpl. f_equal. now apply IH.
  - destruct (Ascii.eqb a c) eqn:Ea; [|discriminate].
    inversion H; subst. apply Ascii.eqb_eq in Ea. now subst.
Qed.

Lemma cut_last_right c s l r :
  cut_last c s = Some (l, r) -> contains c r = false.
Proof.
  revert l r. induction s as [|a s IH]; simpl; intros l r H; [discriminate|].
  destruct (cut_last c s) as [[l' r']|] eqn:E.
  - inversion H; subst. eapply IH; eauto.
  - destruct (Ascii.eqb a c); [|discriminate].
    inversion H; subst. clear - E.
    induction r as [|b r IH]; simpl in *; [reflexivity|].
    destruct (cut_last c r) as [[? ?]|]; [discriminate|].
    destruct (Ascii.eqb b c); [discriminate|]. simpl. now apply IH.
Qed.

Lemma cut_last_None c s :
  cut_last c s = None <-> contains c s = false.
Proof.
  induction s as [|a s IH]; simpl; [tauto|].
  destruct (cut_last c s) as [[l r]|].
  - split; [discriminate|]. intros H. apply orb_false_iff in H.
    destruct H as [_ H]. apply IH in H. discriminate.
  - destruct (Ascii.eqb a c); simpl.
    + split; discriminate.
    + tauto.
Qed.

Lemma cut_first_app c s l r :
  cut_first c s = Some (l, r) -> s = (l ++ String c r)%string.
Proof.
  revert l. induction s as [|a s IH]; simpl; intros l H; [discriminate|].
  destruct (Ascii.eqb a c) eqn:Ea.
  - inversion H; subst. apply Ascii.eqb_eq in Ea. now subst.
  - destruct (cut_first c s) as [[l' r']|]; [|discriminate].
    inversion H; subst. simpl. f_equal. now apply IH.
Qed.

(** The pieces of a split lack every character the string lacks. *)
Lemma split_lacks x c s :
  contains x s = false ->
  Forall (fun p => contains x p = false) (split c s).
Proof.
  induction s as [|a s IH]; simpl; intros H.
  - constructor; [reflexivity | constructor].
  - apply orb_false_iff in H. destruct H as [Ha Hs]. specialize (IH Hs).
    destruct (Ascii.eqb a c).
    + constructor; [reflexivity | assumption].
    + destruct (split c s) as [|p ps].
      * constructor; [simpl; now rewrite Ha | constructor].
      * inversion IH; subst. constructor; [simpl; rewrite Ha; assumption | assumption].
Qed.

Lemma split_nonempty c s : split c s <> [].
Proof.
  destruct s as [|a s]; simpl; [discriminate|].
  destruct (Ascii.eqb a c); [discriminate|].
  destruct (split c s); discriminate.
Qed.

Lemma join_lacks x sep parts :
  contains x sep = false ->
  Forall (fun p => contains x p = false) parts ->
  contains x (join sep parts) = false.
Proof.
  intros Hsep. induction 1 as [|p ps Hp Hps IH]; [reflexivity|].
  simpl. destruct ps as [|q qs]; [assumption|].
  rewrite !contains_app, Hp, Hsep, IH. reflexivity.
Qed.

Lemma Forall_removelast {A} (P : A -> Prop) l :
  Forall P l -> Forall P (removelast l).
Proof.
  induction 1 as [|a l Ha Hl IH]; simpl; [constructor|].
  destruct l; [constructor | constructor; assumption].
Qed.

Lemma Forall_last {A} (P : A -> Prop) l d :
  P d -> Forall P l -> P (List.last l d).
Proof.
  intros Hd. induction 1 as [|a l Ha Hl IH]; simpl; [assumption|].
  destruct l; [assumption | apply IH].
Qed.

Lemma Forall_tl {A} (P : A -> Prop) l : Forall P l -> Forall P (tl l).
Proof.
  destruct 1; simpl; [constructor | assumption].
Qed.

End StringFacts.

(** ** Container references *)

Section ReferenceFacts.

Import PyStr Oras.

(** The split of the tag never fails. *)
Lemma tag_split url :
  exists image_part tag,
    (if contains ":" url then unpack2 (rsplit1 ":" url) else Ok (url, "latest"))
    = Ok (image_part, tag) /\
    (contains "@" url = false ->
     contains "@" image_part = false /\ contains "@" tag = false).
Proof.
  destruct (contains ":" url) eqn:Hc.
  - unfold rsplit1. destruct (cut_last ":" url) as [[l r]|] eqn:E.
    + exists l, r. split; [reflexivity|]. intros H.
      apply cut_last_app in E. subst url.
      rewrite contains_app in H. apply orb_false_iff in H.
      destruct H as [Hl Hr]. simpl in Hr. auto.
    + apply cut_last_None in E. congruence.
  - exists url, "latest". split; [reflexivity|]. intros H. auto.
Qed.

Lemma parse_lacks_at url normalized :
  contains "@" url = false ->
  _parse_container_url url = Ok normalized ->
  contains "@" normalized = false.
Proof.
  intros Hat. unfold _parse_container_url.
  destruct (tag_split url) as (image_part & tag & -> & Hparts).
  destruct (Hparts Hat) as [Himg Htag]. clear Hparts. simpl obind.
  pose proof (split_lacks "@" "/" image_part Himg) as Hall.
  destruct (split "/" image_part) as [|p0 ps] eqn:Es; simpl; [discriminate|].
  pose proof Hall as Hall0. inversion Hall0 as [|? ? Hp0 Hps]; subst.
  set (choice := if contains "." p0 || startswith "registry" p0
                 then (p0, ps) else (docker_hub, p0 :: ps)).
  assert (Hchoice : contains "@" (fst choice) = false /\
                    Forall (fun p => contains "@" p = false) (snd choice)).
  { unfold choice. destruct (contains "." p0 || startswith "registry" p0); simpl.
    - auto.
    - split; [reflexivity | assumption]. }
  destruct choice as [server parts]. simpl in Hchoice.
  destruct Hchoice as [Hserver Hparts].
  destruct ((1 <? List.length parts)%nat).
  - destruct parts as [|q qs]; [discriminate|].
    assert (Hpath : contains "@" (join "/" (removelast (q :: qs))) = false).
    { apply join_lacks; [reflexivity|]. now apply Forall_removelast. }
    assert (Himage : contains "@" (List.last qs q) = false).
    { inversion Hparts; subst. now apply Forall_last. }
    cbn [last obind].
    generalize dependent (join "/" (removelast (q :: qs))).
    generalize dependent (List.last qs q).
    intros image Himage path Hpath.
    destruct (truthy path); intros H; inversion H; subst; clear H;
      rewrite !contains_app; cbn [contains];
      rewrite ?contains_app; cbn [contains];
      rewrite ?contains_app; cbn [contains];
      rewrite ?Hserver, ?Hpath, ?Himage, ?Htag; reflexivity.
  - destruct parts as [|q qs]; [discriminate|].
    inversion Hparts as [|? ? Hq _]; subst.
    cbn [first obind].
    destruct (String.eqb server docker_hub); cbn [truthy]; intros H;
      inversion H; subst; clear H;
      rewrite !contains_app; cbn [contains];
      rewrite ?contains_app; cbn [contains];
      rewrite ?contains_app; cbn [contains];
      rewrite ?Hserver, ?Hq, ?Htag; reflexivity.
Qed.

Lemma parse_has_colon url normalized :
  _parse_container_url url = Ok normalized ->
  contains ":" normalized = true.
Proof.
  unfold _parse_container_url.
  destruct (tag_split url) as (image_part & tag & -> & _). simpl obind.
  destruct (split "/" image_part) as [|p0 ps]; simpl; [discriminate|].
  destruct (if contains "." p0 || startswith "registry" p0
            then (p0, ps) else (docker_hub, p0 :: ps)) as [server parts].
  destruct ((1 <? List.length parts)%nat).
  - destruct parts as [|q qs]; [discriminate|].
    cbn [last obind].
    generalize (join "/" (removelast (q :: qs))) (List.last qs q).
    intros path image.
    destruct (truthy path); intros H; inversion H; subst; clear H;
      rewrite !contains_app; cbn [contains];
      rewrite ?contains_app; cbn [contains];
      rewrite ?contains_app; cbn [contains];
      rewrite ?orb_true_r; reflexivity.
  - destruct parts as [|q qs]; [discriminate|].
    cbn [first obind].
    destruct (String.eqb server docker_hub); cbn [truthy]; intros H;
      inversion H; subst; clear H;
      rewrite !contains_app; cbn [contains];
      rewrite ?contains_app; cbn [contains];
      rewrite ?contains_app; cbn [contains];
      rewrite ?orb_true_r; reflexivity.
Qed.

(** The normalized form of a reference without ['@'] splits at its last
    [':'], and [split_reference] does just that. *)
Lemma normalized_split url normalized :
  contains "@" url = false ->
  _parse_container_url url = Ok normalized ->
  exists repo tag,
    normalized = (repo ++ ":" ++ tag)%string /\
    contains ":" tag = false /\
    rsplit1 ":" normalized = [repo; tag] /\
    split_reference normalized = Ok (repo, tag).
Proof.
  intros Hat Hparse.
  pose proof (parse_lacks_at _ Hat Hparse) as Hno.
  pose proof (parse_has_colon _ Hparse) as Hcolon.
  destruct (cut_last ":" normalized) as [[repo tag]|] eqn:E.
  - exists repo, tag. repeat split.
    + now apply cut_last_app.
    + eapply cut_last_right; eauto.
    + unfold rsplit1. now rewrite E.
    + unfold split_reference, rsplit1. rewrite Hno, E. reflexivity.
  - apply cut_last_None in E. congruence.
Qed.

End ReferenceFacts.

Section ReferenceClaims.

Import PyStr Oras.

(** C2 (failing input).  [registry:2], the reference of the registry image
    of Docker Hub, has no normalized form: its only segment starts with
    [registry] and is taken for the server, no segment remains for the
    image, and [parts[0]] raises [IndexError]. *)
Theorem parse_container_url_registry_image :
  _parse_container_url "registry:2" = Raise IndexError.
Proof. reflexivity. Qed.

(** The same happens to every reference without [/] whose name has a dot
    or starts with [registry]. *)
Lemma parse_container_url_server_only url image_part tag :
  (if contains ":" url then unpack2 (rsplit1 ":" url) else Ok (url, "latest"))
  = Ok (image_part, tag) ->
  contains "/" image_part = false ->
  contains "." image_part || startswith "registry" image_part = true ->
  _parse_container_url url = Raise IndexError.
Proof.
  intros Htag Hslash Hserver. unfold _parse_container_url.
  rewrite Htag. cbn [obind].
  assert (Hsplit : split "/" image_part = [image_part]).
  { clear - Hslash. induction image_part as [|a s IH]; [reflexivity|].
    simpl in *. apply orb_false_iff in Hslash. destruct Hslash as [Ha Hs].
    rewrite Ha, (IH Hs). reflexivity. }
  rewrite Hsplit. cbn [first obind]. rewrite Hserver. reflexivity.
Qed.

(** C10.  Inside [add_container_oci] the normalized reference never
    contains ['@']: a reference with ['@'] makes the command exit with
    status 1 before it is parsed, and parsing a reference without ['@']
    gives a string without ['@'].  The split of the normalized reference
    therefore never takes the branch for ['@']: it is the split at the last
    [':'], which exists. *)
Theorem normalized_reference_split_at_last_colon :
  forall (W : Type) (get_raw_data get_manifest : string -> prog W json)
         (dumps : json -> string) (sha256 : string -> string)
         (py_str : json -> string) (image_ref : string) (w : W),
    (contains "@" image_ref = true ->
     add_container_oci get_raw_data get_manifest dumps sha256 py_str image_ref w
     = (Raise (SystemExit 1), w)) /\
    (contains "@" image_ref = false ->
     forall normalized,
       _parse_container_url image_ref = Ok normalized ->
       contains "@" normalized = false /\
       exists repo tag,
         normalized = (repo ++ ":" ++ tag)%string /\
         contains ":" tag = false /\
         rsplit1 ":" normalized = [repo; tag] /\
         split_reference normalized = Ok (repo, tag)).
Proof.
  intros W get_raw_data get_manifest dumps sha256 py_str image_ref w. split.
  - intros Hat. unfold add_container_oci. rewrite Hat. reflexivity.
  - intros Hat normalized Hparse.
    split.
    + eapply parse_lacks_at; eauto.
    + eapply normalized_split; eauto.
Qed.

Lemma normalized_reference_split_at_last_colon_witness :
  contains "@" "ghcr.io/in-toto/archivista:0.9.0" = false /\
  _parse_container_url "ghcr.io/in-toto/archivista:0.9.0"
  = Ok "ghcr.io/in-toto/archivista:0.9.0" /\
  split_reference "ghcr.io/in-toto/archivista:0.9.0"
  = Ok ("ghcr.io/in-toto/archivista", "0.9.0").
Proof.
  split; [reflexivity|]. split; [reflexivity|].
  destruct (normalized_reference_split_at_last_colon
              (W := unit) (fun _ => ret JNull) (fun _ => ret JNull)
              (fun _ => EmptyString) (fun _ => EmptyString)
              (fun _ => EmptyString)
              "ghcr.io/in-toto/archivista:0.9.0" tt) as [_ H].
  destruct (H eq_refl "ghcr.io/in-toto/archivista:0.9.0" eq_refl)
    as (_ & repo & tag & _ & _ & Hsplit & Href).
  vm_compute in Hsplit. inversion Hsplit; subst repo tag. exact Href.
Defined.

End ReferenceClaims.

Section ReferenceNormalForm.

Import PyStr Oras.

(** Outside the failing inputs of C2 the code computes the stated normal
    form: the result is the normal form when a segment remains for the
    image, and [IndexError] when none does. *)
Lemma parse_container_url_normal_form url :
  _parse_container_url url
  = match stated_remaining url with
    | [] => Raise IndexError
    | _ => Ok (normal_form url)
    end.
Proof.
  assert (Hlast : forall (p : string) ps d, List.last (p :: ps) d = List.last ps p).
  { intros p ps. revert p. induction ps as [|q ps IH]; intros p d; [reflexivity|].
    change (List.last (p :: q :: ps) d) with (List.last (q :: ps) d).
    rewrite IH. symmetry. apply IH. }
  assert (Hparts : forall server parts tag,
             obind (if (1 <? List.length parts)%nat
                    then obind (last parts) (fun image =>
                           Ok (join "/" (removelast parts), image))
                    else obind (first parts) (fun image =>
                           Ok ((if String.eqb server docker_hub then "library"
                                else EmptyString), image)))
                   (fun '(path, image) =>
                      if truthy path
                      then Ok (server ++ "/" ++ path ++ "/" ++ image ++ ":" ++ tag)%string
                      else Ok (server ++ "/" ++ image ++ ":" ++ tag)%string)
             = match parts with
               | [] => Raise IndexError
               | _ =>
                   Ok match match parts with
                            | [_] => if String.eqb server docker_hub then "library"
                                     else EmptyString
                            | _ => join "/" (removelast parts)
                            end with
                      | EmptyString =>
                          (server ++ "/" ++ List.last parts EmptyString ++ ":"
                           ++ tag)%string
                      | path =>
                          (server ++ "/" ++ path ++ "/" ++ List.last parts EmptyString
                           ++ ":" ++ tag)%string
                      end
               end).
  { intros server parts tag. destruct parts as [|q [|q' qs]].
    - reflexivity.
    - cbn. destruct (String.eqb server docker_hub); reflexivity.
    - change (1 <? List.length (q :: q' :: qs))%nat with true. cbv iota.
      cbn [last obind]. rewrite (Hlast q (q' :: qs) EmptyString).
      destruct (join "/" (removelast (q :: q' :: qs))); reflexivity. }
  unfold _parse_container_url, normal_form, stated_path, stated_image,
    stated_server, stated_remaining, stated_segments, stated_tag,
    before_last, after_last, rsplit1.
  destruct (contains ":" url) eqn:Hc.
  - destruct (cut_last ":" url) as [[l r]|] eqn:E.
    2:{ apply cut_last_None in E. congruence. }
    cbn [unpack2 obind].
    pose proof (split_nonempty "/" l) as Hne.
    destruct (split "/" l) as [|p0 ps]; [congruence|]. cbn [first obind].
    fold (names_server p0).
    destruct (names_server p0); cbn [tl]; rewrite Hparts;
      [destruct ps as [|? [|? ?]] | destruct ps]; reflexivity.
  - cbn [obind].
    pose proof (split_nonempty "/" url) as Hne.
    destruct (split "/" url) as [|p0 ps]; [congruence|]. cbn [first obind].
    fold (names_server p0).
    destruct (names_server p0); cbn [tl]; rewrite Hparts;
      [destruct ps as [|? [|? ?]] | destruct ps]; reflexivity.
Qed.

End ReferenceNormalForm.

(** ** Artifacts of an OCI index *)

Section DigestFacts.

Import PyStr Oras.

Lemma hex_digit_not_colon n : Ascii.eqb (hex_digit n) ":" = false.
Proof.
  destruct n as [|p]; [reflexivity|].
  do 5 (try (destruct p as [p|p|]; try reflexivity)).
Qed.

Lemma hex_lacks_colon data : contains ":" (hex data) = false.
Proof.
  induction data as [|a rest IH]; [reflexivity|].
  cbn [hex contains]. now rewrite !hex_digit_not_colon, IH.
Qed.

Lemma split_whole c s : contains c s = false -> split c s = [s].
Proof.
  induction s as [|a s IH]; [reflexivity|].
  simpl. intros H. apply orb_false_iff in H. destruct H as [Ha Hs].
  now rewrite Ha, (IH Hs).
Qed.

(** A digest [sha256:<hex>] splits into its algorithm and its value. *)
Lemma split_sha256 data :
  split ":" ("sha256:" ++ hex data)%string = ["sha256"; hex data].
Proof.
  cbn -[hex]. now rewrite (split_whole _ _ (hex_lacks_colon data)).
Qed.

Lemma add_to_rstuf_sha256 path size data items :
  _add_to_rstuf path size ("sha256:" ++ hex data)%string
                (JObj [("artifacts", JArr items)])
  = Ok (JObj [("artifacts",
               JArr (items ++ [artifact path size "sha256" (hex data)]))]).
Proof.
  unfold _add_to_rstuf. rewrite split_sha256. reflexivity.
Qed.

End DigestFacts.

Section IndexArtifacts.

Import PyStr Oras.
Local Open Scope prog_scope.

Variable W : Type.
Variable get_raw_data : string -> prog W json.
Variable get_manifest : string -> prog W json.
Variable dumps : json -> string.
Variable sha256 : string -> string.
Variable py_str : json -> string.




(** The other way round: the command returns that payload whenever the
    reference is parsed, the index is fetched, every element of its array
    has a digest and every manifest is fetched. *)
Lemma each_manifest_returns image_ref base manifests :
  forall digests bodies items w w',
    Forall2 (fun m d => Py.subscript m "digest" = Ok d) manifests digests ->
    fetch_all get_manifest
      (map (fun d => _get_uri_for_digest image_ref (format py_str d)) digests) w
    = (Ok bodies, w') ->
    each_manifest get_manifest dumps sha256 py_str image_ref base manifests
                  (JObj [("artifacts", JArr items)]) w
    = (Ok (JObj [("artifacts",
                  JArr (items ++ map (manifest_artifact dumps sha256 py_str base)
                                     (combine digests bodies)))]), w').
Proof.
  induction manifests as [|m ms IH]; intros digests bodies items w w' Hd Hf.
  - inversion Hd; subst. apply ret_Ok in Hf. destruct Hf as [-> ->].
    cbn. now rewrite app_nil_r.
  - inversion Hd as [|? d ? ds Hm Hms]; subst. cbn [map fetch_all] in Hf.
    apply bind_Ok in Hf. destruct Hf as (body & w1 & Hbody & Hf).
    apply bind_Ok in Hf. destruct Hf as (bs & w2 & Hbs & Hf).
    apply ret_Ok in Hf. destruct Hf as [-> ->].
    cbn [each_manifest]. unfold bind at 1, lift at 1. rewrite Hm.
    unfold bind at 1. rewrite Hbody.
    unfold _calculate_size_and_hash, _sanitize_dockerhub_path.
    unfold bind at 1, lift at 1. rewrite add_to_rstuf_sha256.
    erewrite IH by eassumption. cbn [combine map].
    rewrite <- app_assoc. reflexivity.
Qed.

Lemma index_artifacts_returned image_ref normalized repo tag base raw_data
    manifests digests bodies (w w1 w' : W) :
  contains "@" image_ref = false ->
  _parse_container_url image_ref = Ok normalized ->
  rsplit1 ":" normalized = [repo; tag] ->
  path_base repo = Ok base ->
  get_raw_data normalized w = (Ok raw_data, w1) ->
  Py.subscript raw_data "mediaType" = Ok (JStr index_media_type) ->
  Py.get_default raw_data "manifests" (JArr []) = Ok (JArr manifests) ->
  Forall2 (fun m d => Py.subscript m "digest" = Ok d) manifests digests ->
  fetch_all get_manifest
    (map (fun d => _get_uri_for_digest normalized (format py_str d)) digests) w1
  = (Ok bodies, w') ->
  add_container_oci get_raw_data get_manifest dumps sha256 py_str image_ref w
  = (Ok (JObj [("artifacts",
                JArr (artifact_of dumps sha256 (base ++ ":" ++ tag)%string raw_data
                      :: map (manifest_artifact dumps sha256 py_str base)
                             (combine digests bodies)))]), w').
Proof.
  intros Hat Hparse Hsplit Hbase Hraw Hmedia Hget Hdigests Hbodies.
  unfold add_container_oci. rewrite Hat.
  unfold bind at 1, lift at 1. rewrite Hparse.
  destruct (normalized_split _ Hat Hparse) as (repo' & tag' & _ & _ & Hsplit' & Href).
  rewrite Hsplit in Hsplit'. inversion Hsplit'; subst repo' tag'.
  unfold bind at 1, lift at 1. rewrite Href.
  unfold bind at 1, lift at 1. rewrite Hbase.
  unfold bind at 1, try_except. rewrite Hraw.
  unfold _calculate_size_and_hash, _sanitize_dockerhub_path.
  unfold bind at 1, lift at 1. rewrite Hmedia.
  cbn [Py.eq_str]. rewrite String.eqb_refl.
  unfold bind at 1, lift at 1. rewrite add_to_rstuf_sha256.
  unfold bind at 1, lift at 1. rewrite Hget.
  unfold bind at 1, lift at 1. cbn [Py.iter].
  erewrite each_manifest_returns by eassumption. reflexivity.
Qed.

End IndexArtifacts.

Section IndexArtifactsExample.

Import PyStr Oras.


End IndexArtifactsExample.

(** ** The payload of [artifact add] for a local file *)

Section FilePayload.

Import PyStr.

Lemma take_drop n s : (take n s ++ drop n s)%string = s.
Proof.
  revert s. induction n as [|n IH]; intros s; [reflexivity|].
  destruct s as [|a s]; [reflexivity|]. simpl. now rewrite IH.
Qed.

Lemma take_empty n s : take (S n) s = EmptyString -> s = EmptyString.
Proof.
  destruct s; [reflexivity | discriminate].
Qed.

Lemma split_two_pieces c s l r :
  cut_last c s = Some (l, r) -> (2 <= List.length (split c s))%nat.
Proof.
  revert l r. induction s as [|a s IH]; simpl; intros l r H; [discriminate|].
  destruct (Ascii.eqb a c).
  - pose proof (split_nonempty c s). destruct (split c s); simpl; [congruence | lia].
  - destruct (cut_last c s) as [[l' r']|]; [|discriminate].
    specialize (IH _ _ eq_refl). destruct (split c s); simpl in *; lia.
Qed.

Lemma split_last_piece c s l r :
  cut_last c s = Some (l, r) -> exists ps, split c s = ps ++ [r].
Proof.
  revert l r. induction s as [|a s IH]; simpl; intros l r H; [discriminate|].
  destruct (cut_last c s) as [[l' r']|] eqn:E.
  - inversion H; subst. destruct (IH _ _ eq_refl) as (ps & Hps).
    pose proof (split_two_pieces _ _ E) as Hlen.
    rewrite Hps in *. destruct (Ascii.eqb a c).
    + exists (EmptyString :: ps). reflexivity.
    + destruct ps as [|p ps]; simpl in *; [lia|].
      exists (String a p :: ps). reflexivity.
  - destruct (Ascii.eqb a c) eqn:Ea; [|discriminate].
    inversion H; subst. apply cut_last_None in E.
    rewrite (split_whole _ _ E). exists [EmptyString]. reflexivity.
Qed.

Lemma last_split c s : last (split c s) = Ok (after_last c s).
Proof.
  unfold after_last. destruct (cut_last c s) as [[l r]|] eqn:E.
  - destruct (split_last_piece _ _ E) as (ps & ->).
    destruct ps as [|p ps]; [reflexivity|].
    cbn [app last]. f_equal. apply last_last.
  - apply cut_last_None in E. rewrite (split_whole _ _ E). reflexivity.
Qed.

End FilePayload.

Section FilePayloadClaim.

Import PyStr.

Variable fs : string -> option string.
Variable hasher : Type.
Variable blake2b : nat -> hasher.
Variable update : hasher -> string -> hasher.
Variable hexdigest : hasher -> string.

(** The contract of [hashlib]: feeding a hasher piece by piece is feeding
    it the concatenation of the pieces. *)
Hypothesis update_app :
  forall h a b, update (update h a) b = update h (a ++ b)%string.
Hypothesis update_empty : forall h, update h EmptyString = h.

Lemma update_chunks_whole size h data :
  (0 < size)%nat ->
  Cli.update_chunks update size h data = update h data.
Proof.
  intros Hsize.
  funelim (Cli.update_chunks update size h data).
  - destruct size as [|n]; [lia|].
    pose proof (take_empty _ _ e) as Hempty. rewrite Hempty.
    now rewrite update_empty.
  - rewrite H by assumption. rewrite update_app, <- E, take_drop. reflexivity.
Qed.

Lemma payload_from_filepath filepath path contents :
  fs filepath = Some contents ->
  Cli.create_artifact_add_payload_from_filepath fs blake2b update hexdigest
    filepath path
  = Ok (file_payload blake2b update hexdigest filepath path contents).
Proof.
  intros Hfile.
  unfold Cli.create_artifact_add_payload_from_filepath, Cli.getsize,
    Cli.calculate_blake2b_256.
  rewrite Hfile. cbn [obind]. rewrite last_split. cbn [obind].
  rewrite update_chunks_whole by (simpl; lia).
  unfold file_payload. destruct path as [[|a p]|]; reflexivity.
Qed.

Variable W : Type.
Variable get_raw_data : string -> prog W json.
Variable get_manifest : string -> prog W json.
Variable dumps : json -> string.
Variable sha256 : string -> string.
Variable py_str : json -> string.
Variable api : json -> prog W string.

(** C5.  For an existing local file submitted without [--oci-image], the
    payload built, and the only payload sent to the API, has exactly one
    artifact: its length is the size of the file, its hashes map
    [blake2b-256] to the BLAKE2b digest, of digest size 32, of the whole
    contents, although the file is hashed in chunks of 8 kB, and its path
    is the base name of the file, after the path given by the user
    stripped of its trailing slashes when there is one. *)
Theorem artifact_add_payload_of_file :
  forall (settings_server api_server : option string) (artifact : string)
         (path : option string) (contents : string) (st : Add.State W),
    fs artifact = Some contents ->
    (settings_server <> None \/
     exists s, api_server = Some s /\ truthy s = true) ->
    Cli.create_artifact_add_payload_from_filepath fs blake2b update hexdigest
      artifact path
    = Ok (file_payload blake2b update hexdigest artifact path contents) /\
    Add.sent (snd (Add.add fs blake2b update hexdigest get_raw_data get_manifest
                     dumps sha256 py_str api settings_server artifact false
                     path api_server st))
    = Add.sent st ++ [file_payload blake2b update hexdigest artifact path contents].
Proof.
  intros settings_server api_server artifact path contents st Hfile Hserver.
  pose proof (payload_from_filepath path Hfile) as Hpayload.
  split; [assumption|].
  unfold Add.add.
  assert (Hsome : exists srv,
             match api_server with
             | Some s => if truthy s then Some s else settings_server
             | None => settings_server
             end = Some srv).
  { destruct Hserver as [Hs | (s & -> & Hs)].
    - destruct settings_server as [srv|]; [|congruence].
      destruct api_server as [s|]; [destruct (truthy s)|]; eauto.
    - rewrite Hs. eauto. }
  destruct Hsome as (srv & ->).
  unfold Cli.isfile. rewrite Hfile. cbn [negb andb].
  unfold bind, lift. rewrite Hpayload. unfold Add.send_payload.
  destruct (api (file_payload blake2b update hexdigest artifact path contents)
                (Add.world st)).
  reflexivity.
Qed.

End FilePayloadClaim.

Section FilePayloadExample.

Import PyStr.

Lemma example_update_app h a b :
  example_update (example_update h a) b = example_update h (a ++ b)%string.
Proof.
  unfold example_update. induction h as [|c h IH]; simpl; [reflexivity|].
  now rewrite IH.
Qed.

Lemma example_update_empty h : example_update h EmptyString = h.
Proof.
  unfold example_update. induction h as [|c h IH]; simpl; [reflexivity|].
  now rewrite IH.
Qed.

Lemma artifact_add_payload_of_file_witness :
  example_fs "dist/tool-1.0.tar" = Some (example_bytes example_size) /\
  Add.sent (snd (Add.add example_fs (fun _ => EmptyString) example_update
                   example_hexdigest (fun _ => ret JNull) (fun _ => ret JNull)
                   (fun _ => EmptyString) (fun _ => EmptyString)
                   (fun _ => EmptyString) example_api
                   (Some "https://api.rstuf.example.com") "dist/tool-1.0.tar"
                   false (Some "releases//") None (Add.mkState tt [])))
  = [JObj [("artifacts",
            JArr [JObj [("info",
                         JObj [("length", JInt 10000);
                               ("hashes", JObj [("blake2b-256", JStr "61616161")]);
                               ("custom", JNull)]);
                        ("path", JStr "releases/tool-1.0.tar")]]);
           ("add_task_id_to_custom", JBool false);
           ("publish_artifacts", JBool true)]].
Proof.
  split; [reflexivity|].
  destruct (@artifact_add_payload_of_file
              example_fs string (fun _ => EmptyString) example_update
              example_hexdigest example_update_app example_update_empty
              unit (fun _ => ret JNull) (fun _ => ret JNull)
              (fun _ => EmptyString) (fun _ => EmptyString)
              (fun _ => EmptyString) example_api
              (Some "https://api.rstuf.example.com") None "dist/tool-1.0.tar"
              (Some "releases//") (example_bytes example_size) (Add.mkState tt [])
              eq_refl
              (or_introl (fun H : Some "https://api.rstuf.example.com" = None =>
                            eq_ind (Some "https://api.rstuf.example.com")
                              (fun o => match o with Some _ => True | None => False end)
                              I None H)))
    as [_ Hsent].
  rewrite Hsent. vm_compute. reflexivity.
Defined.

End FilePayloadExample.

(** ** The fetcher *)

Section FetcherClaims.

Import PyStr Fetcher.

Variable W : Type.
Variable urlparse_scheme : string -> outcome string.
Variable requests_get : string -> prog W Response.
Variable get_raw_data : string -> prog W json.
Variable dumps : json -> string.

Lemma http_except_download e :
  is_RequestException e = true \/ e = DownloadHTTPError ->
  download_error (http_except e).
Proof.
  intros [H | ->]; unfold http_except, download_error.
  - rewrite H. auto.
  - auto.
Qed.

Lemma oci_except_download e :
  is_Exception e = true -> download_error (oci_except e).
Proof.
  intros H. unfold oci_except, download_error.
  destruct (is_DownloadHTTPError e) eqn:Hd.
  - destruct e; try discriminate. auto.
  - rewrite H. auto.
Qed.

(** C4, amended.  For a URL that [urlparse] accepts, when [requests] raises
    nothing but [requests.RequestException] and the registry client nothing
    but subclasses of [Exception], [_fetch] ends normally or with
    [DownloadHTTPError] or [DownloadError]: a status other than 200 gives
    [DownloadHTTPError]; a URI that is not HTTP(S) and has neither [':'] nor
    ['@'] gives [DownloadError].  What is yielded is the content as it was
    fetched, whatever it is: the chunks of the body without the empty ones,
    or the serialized document of the registry. *)
Theorem fetch_raises_download_errors :
  forall (url scheme : string) (self : RSTUFFetcher W),
    urlparse_scheme url = Ok scheme ->
    (forall e w', requests_get url (world self) = (Raise e, w') ->
                  is_RequestException e = true) ->
    (forall r w' e, requests_get url (world self) = (Ok r, w') ->
                    broken r = Some e -> is_RequestException e = true) ->
    (forall e w', get_raw_data url (world self) = (Raise e, w') ->
                  is_Exception e = true) ->
    let fetched :=
      fst (_fetch urlparse_scheme requests_get get_raw_data dumps url self) in
    (forall e, raised fetched = Some e -> download_error e) /\
    (is_http scheme = true ->
     forall r w', requests_get url (world self) = (Ok r, w') ->
       (status_code r <> 200%Z ->
        fetched = mkFetched [] (Some DownloadHTTPError)) /\
       (status_code r = 200%Z ->
        yielded fetched = filter truthy (iter_content r) /\
        (broken r = None -> raised fetched = None))) /\
    (is_http scheme = false ->
     (contains ":" url = false -> contains "@" url = false ->
      fetched = mkFetched [] (Some DownloadError)) /\
     (contains ":" url = true \/ contains "@" url = true ->
      forall raw_data w', get_raw_data url (world self) = (Ok raw_data, w') ->
        fetched = mkFetched [dumps raw_data] None)).
Proof.
  intros url scheme self Hparse Hget Hbroken Hraw fetched.
  subst fetched. unfold _fetch. rewrite Hparse. fold (is_http scheme).
  destruct (is_http scheme) eqn:Hhttp.
  - split; [|split; [intros _ | discriminate]].
    + destruct (requests_get url (world self)) as [[r|e] w1] eqn:Hreq.
      * destruct (Z.eqb (status_code r) 200); cbn [negb fst raised].
        -- destruct (broken r) as [e0|] eqn:Hb; [|discriminate].
           intros e He. inversion He; subst.
           apply http_except_download. left. eapply Hbroken; eauto.
        -- intros e He. inversion He; subst.
           apply http_except_download. auto.
      * cbn [fst raised]. intros e0 He. inversion He; subst.
        apply http_except_download. left. eapply Hget; eauto.
    + intros r w' Hreq. rewrite Hreq.
      destruct (Z.eqb (status_code r) 200) eqn:Hstatus; cbn [negb fst].
      * apply Z.eqb_eq in Hstatus. split; [congruence|].
        intros _. split; [reflexivity|]. cbn [raised]. intros ->. reflexivity.
      * apply Z.eqb_neq in Hstatus. split; [reflexivity | congruence].
  - split; [|split; [discriminate | intros _; split]].
    + cbv zeta. cbn [world].
      destruct (negb (contains ":" url) && negb (contains "@" url)).
      * cbn [fst raised]. intros e He. inversion He; subst.
        right. reflexivity.
      * destruct (get_raw_data url (world self)) as [[raw|e] w1] eqn:Hr;
          cbn [fst raised]; [discriminate|].
        intros e0 He. inversion He; subst.
        apply oci_except_download. eapply Hraw; eauto.
    + intros -> ->. reflexivity.
    + intros Hsep raw_data w' Hr. cbv zeta. cbn [world]. rewrite Hr.
      destruct Hsep as [-> | ->]; cbn [negb andb]; rewrite ?andb_false_r;
        reflexivity.
Qed.

End FetcherClaims.

Section FetcherExamples.

Import PyStr Fetcher.

(** C4 (counterexample).  [urlparse] rejects a URL whose network location
    has an opening bracket without the closing one; it is called outside
    every [try], and its [ValueError] leaves [_fetch]. *)
Lemma fetch_lets_ValueError_escape :
  raised (fst (_fetch urlsplit_scheme example_requests_get example_registry
                 example_serialize "https://[tuf.example.com/1.root.json"
                 (mkFetcher tt false)))
  = Some ValueError /\
  ~ only_download_errors_escape urlsplit_scheme example_requests_get
      example_registry example_serialize.
Proof.
  split; [reflexivity|].
  intros H.
  specialize (H "https://[tuf.example.com/1.root.json" (mkFetcher tt false)
                ValueError eq_refl).
  destruct H as [H | H]; discriminate.
Qed.

(** On the HTTP(S) path an exception of [requests] that is not a
    [RequestException] leaves [_fetch] as it is, where the OCI path turns
    every [Exception] into a [DownloadError]. *)
Lemma fetch_http_lets_other_exceptions_escape :
  raised (fst (_fetch urlsplit_scheme
                 (fun _ w => (Raise (OtherException "LocationParseError"), w))
                 example_registry example_serialize
                 "https://tuf.example.com/1.root.json" (mkFetcher tt false)))
  = Some (OtherException "LocationParseError") /\
  raised (fst (_fetch urlsplit_scheme example_requests_get
                 (fun _ w => (Raise (OtherException "LocationParseError"), w))
                 example_serialize
                 "ghcr.io/acme/tool:1.0" (mkFetcher tt false)))
  = Some DownloadError.
Proof. split; reflexivity. Qed.

Lemma fetch_raises_download_errors_witness :
  urlsplit_scheme "https://tuf.example.com/1.root.json" = Ok "https" /\
  _fetch urlsplit_scheme example_requests_get example_registry
         example_serialize "https://tuf.example.com/1.root.json"
         (mkFetcher tt false)
  = (mkFetched ["signed"; "metadata"] None, mkFetcher tt false).
Proof.
  split; [reflexivity|].
  assert (Hget : forall e w',
             example_requests_get "https://tuf.example.com/1.root.json"
               (world (mkFetcher tt false)) = (Raise e, w') ->
             is_RequestException e = true)
    by (intros e w' H; discriminate H).
  assert (Hbroken : forall r w' e,
             example_requests_get "https://tuf.example.com/1.root.json"
               (world (mkFetcher tt false)) = (Ok r, w') ->
             broken r = Some e -> is_RequestException e = true)
    by (intros r w' e H Hb; inversion H; subst r; discriminate Hb).
  assert (Hraw : forall e w',
             example_registry "https://tuf.example.com/1.root.json"
               (world (mkFetcher tt false)) = (Raise e, w') ->
             is_Exception e = true)
    by (intros e w' H; discriminate H).
  destruct (@fetch_raises_download_errors unit urlsplit_scheme
              example_requests_get example_registry example_serialize
              "https://tuf.example.com/1.root.json" "https" (mkFetcher tt false)
              eq_refl Hget Hbroken Hraw)
    as (_ & Hhttp & _).
  destruct (Hhttp eq_refl _ _ eq_refl) as [_ Hok].
  destruct (Hok eq_refl) as [Hyield Hraised].
  specialize (Hraised eq_refl).
  destruct (_fetch urlsplit_scheme example_requests_get example_registry
              example_serialize "https://tuf.example.com/1.root.json"
              (mkFetcher tt false)) as [[ys r] f] eqn:E.
  cbn [fst yielded raised] in Hyield, Hraised. subst ys r.
  vm_compute in E. inversion E; subst f. reflexivity.
Defined.

End FetcherExamples.

(** ** The bootstrap request and the status poll *)

Section BootstrapClaims.

Import Ceremony.







End BootstrapClaims.

Section BootstrapStateClaims.

Import Ceremony.







End BootstrapStateClaims.

Section BootstrapStateExample.

Import Ceremony.


End BootstrapStateExample.

(** ** The [metadata new] command *)

Section NewClaims.

Variable Delegations : Type.
Variable Delegations_to_dict : Delegations -> json.
Variable W : Type.
Variable _configure_delegations : prog W Delegations.

(** C9.  With [--out], and a server configured or [--dry-run] set, the
    command ends with an error, [UnboundLocalError]: [delegations] is read
    for the output before it is assigned.  The state of the world is
    unchanged: nothing is written to the output file and the delegations
    are never asked for. *)
Theorem new_with_out_fails_before_writing :
  forall (SERVER : option string) (out : string) (dry_run : bool)
         (st : New.State W),
    SERVER <> None \/ dry_run = true ->
    New.new Delegations_to_dict _configure_delegations SERVER (Some out) dry_run st
    = (Raise UnboundLocalError, st).
Proof.
  intros SERVER out dry_run st Hrun. unfold New.new.
  assert (Hguard : match SERVER with None => true | Some _ => false end
                   && negb dry_run = false).
  { destruct Hrun as [H | ->].
    - destruct SERVER; [reflexivity | congruence].
    - apply andb_false_r. }
  rewrite Hguard. reflexivity.
Qed.

End NewClaims.

Lemma new_with_out_fails_before_writing_witness :
  New.written
    (snd (New.new (fun d : unit => JNull) (fun w : unit => (Ok tt, w))
            None (Some "new-targets.json") true (New.mkState tt [])))
  = [].
Proof.
  rewrite (@new_with_out_fails_before_writing unit (fun d : unit => JNull) unit
             (fun w : unit => (Ok tt, w)) None "new-targets.json" true
             (New.mkState tt []) (or_intror eq_refl)).
  reflexivity.
Defined.

(** ** The ceremony *)

Section CeremonyFacts.

Import PyStr Ceremony.
Local Open Scope prog_scope.

Lemma evolves_refl st : evolves st st [].
Proof.
  constructor; [reflexivity | auto | now rewrite app_nil_r | lia | lia].
Qed.

Lemma evolves_trans a b c e1 e2 :
  evolves a b e1 -> evolves b c e2 -> evolves a c (e1 ++ e2).
Proof.
  intros [N1 D1 T1 X1 C1] [N2 D2 T2 X2 C2]. constructor.
  - congruence.
  - auto.
  - rewrite T2, T1. now rewrite app_assoc.
  - lia.
  - lia.
Qed.

Lemma evolves_eq a b e e' : evolves a b e -> e = e' -> evolves a b e'.
Proof.
  intros H <-. exact H.
Qed.

Lemma evolves_quiet st st' :
  SETTINGS st' = SETTINGS st -> trace st' = trace st ->
  (List.length (texts st') <= List.length (texts st))%nat ->
  (List.length (confirms st') <= List.length (confirms st))%nat ->
  evolves st st' [].
Proof.
  intros HS HT HX HC. constructor.
  - unfold names_of. now rewrite HS.
  - unfold is_default. now rewrite HS.
  - now rewrite HT, app_nil_r.
  - exact HX.
  - exact HC.
Qed.

Lemma log_Ok e st u st' :
  log e st = (Ok u, st') -> evolves st st' [e].
Proof.
  unfold log. intros H. inversion H; subst.
  constructor; cbn [texts confirms]; auto.
Qed.

Lemma IntPrompt_ask_Ok st z st' :
  IntPrompt_ask st = (Ok z, st') -> evolves st st' [].
Proof.
  unfold IntPrompt_ask. destruct (ints st); intros H; inversion H; subst.
  apply evolves_quiet; cbn [texts confirms]; auto.
Qed.

Lemma Confirm_ask_Ok st b st' :
  Confirm_ask st = (Ok b, st') -> evolves st st' [].
Proof.
  unfold Confirm_ask. destruct (confirms st) eqn:E; intros H; inversion H; subst.
  apply evolves_quiet; cbn [texts confirms]; rewrite ?E; cbn [List.length];
    auto.
Qed.

Lemma ask_text_Ok at_end st s st' :
  ask_text at_end st = (Ok s, st') -> evolves st st' [].
Proof.
  unfold ask_text. destruct (texts st) eqn:E; intros H; inversion H; subst.
  apply evolves_quiet; cbn [texts confirms]; rewrite ?E; cbn [List.length];
    auto.
Qed.

Lemma request_server_Ok st r st' :
  request_server st = (Ok r, st') -> evolves st st' [].
Proof.
  unfold request_server. destruct (server st) as [|[r0|e] rest];
    intros H; inversion H; subst.
  apply evolves_quiet; cbn [texts confirms]; auto.
Qed.

Lemma get_SETTINGS_Ok st s st' :
  get_SETTINGS st = (Ok s, st') -> s = SETTINGS st /\ st' = st.
Proof.
  unfold get_SETTINGS. intros H. inversion H. auto.
Qed.

Lemma get_role_Ok rolename st data st' :
  get_role rolename st = (Ok data, st') ->
  item (roles (SETTINGS st)) rolename = Ok data /\ st' = st.
Proof.
  unfold get_role. intros H.
  apply bind_Ok in H. destruct H as (s & s1 & Hs & H).
  apply get_SETTINGS_Ok in Hs. destruct Hs as [-> ->].
  apply lift_Ok in H. assumption.
Qed.

Lemma role_names_Ok st names st' :
  role_names st = (Ok names, st') -> names = names_of st /\ st' = st.
Proof.
  unfold role_names. intros H.
  apply bind_Ok in H. destruct H as (s & s1 & Hs & H).
  apply get_SETTINGS_Ok in Hs. destruct Hs as [-> ->].
  apply ret_Ok in H. assumption.
Qed.

Lemma update_item_names {A} k (f : A -> A) d :
  map fst (update_item k f d) = map fst d.
Proof.
  induction d as [|[k' v] d IH]; [reflexivity|].
  simpl. destruct (String.eqb k k'); simpl; [reflexivity | now rewrite IH].
Qed.

Lemma item_update_item {A} k (f : A -> A) d k' :
  item (update_item k f d) k'
  = match item d k' with
    | Ok v => Ok (if String.eqb k' k then f v else v)
    | Raise e => Raise e
    end.
Proof.
  induction d as [|[k0 v] d IH]; [reflexivity|].
  simpl. destruct (String.eqb k k0) eqn:Hk; simpl.
  - apply String.eqb_eq in Hk. subst k0.
    destruct (String.eqb k' k) eqn:Hk'; [reflexivity|].
    destruct (item d k'); reflexivity.
  - destruct (String.eqb k' k0) eqn:Hk'.
    + apply String.eqb_eq in Hk'. subst k0.
      rewrite String.eqb_sym, Hk. reflexivity.
    + apply IH.
Qed.

(** An assignment to an attribute other than [offline_keys]. *)
Lemma modify_role_Ok rolename f st u st' :
  (forall data, offline_keys (f data) = offline_keys data) ->
  modify_role rolename f st = (Ok u, st') ->
  evolves st st' [].
Proof.
  intros Hf. unfold modify_role, bind, get_SETTINGS, set_SETTINGS.
  intros H. inversion H; subst. constructor.
  - unfold names_of. cbn [SETTINGS roles]. apply update_item_names.
  - intros r Hr data d Hitem Hd. cbn [SETTINGS roles] in Hitem.
    rewrite item_update_item in Hitem.
    destruct (item (roles (SETTINGS st)) r) as [v|e] eqn:Hv; [|discriminate].
    inversion Hitem; subst.
    destruct (String.eqb r rolename); [rewrite Hf|]; eapply Hr; eauto.
  - cbn [trace]. now rewrite app_nil_r.
  - cbn [texts]. lia.
  - cbn [confirms]. lia.
Qed.

(** The assignment of the default to [offline_keys]. *)
Lemma modify_role_offline_Ok rolename d st u st' :
  item default_settings rolename = Ok d ->
  modify_role rolename (with_offline_keys (RoleSettings.offline_keys d)) st
  = (Ok u, st') ->
  evolves st st' [] /\ is_default rolename st'.
Proof.
  intros Hd. unfold modify_role, bind, get_SETTINGS, set_SETTINGS.
  intros H. inversion H; subst. split; [constructor|].
  - unfold names_of. cbn [SETTINGS roles]. apply update_item_names.
  - intros r Hr data d' Hitem Hd'. cbn [SETTINGS roles] in Hitem.
    rewrite item_update_item in Hitem.
    destruct (item (roles (SETTINGS st)) r) as [v|e] eqn:Hv; [|discriminate].
    inversion Hitem; subst.
    destruct (String.eqb r rolename) eqn:E.
    + apply String.eqb_eq in E. subst r. cbn [offline_keys with_offline_keys].
      congruence.
    + eapply Hr; eauto.
  - cbn [trace]. now rewrite app_nil_r.
  - cbn [texts]. lia.
  - cbn [confirms]. lia.
  - intros data d' Hitem Hd'. cbn [SETTINGS roles] in Hitem.
    rewrite item_update_item in Hitem.
    destruct (item (roles (SETTINGS st)) rolename) as [v|e]; [|discriminate].
    inversion Hitem; subst. rewrite String.eqb_refl.
    cbn [offline_keys with_offline_keys]. congruence.
Qed.

Lemma set_service_Ok st s service u st' :
  s = SETTINGS st ->
  set_SETTINGS (mkPayloadSettings (roles s) service) st = (Ok u, st') ->
  evolves st st' [].
Proof.
  intros ->. unfold set_SETTINGS. intros H. inversion H; subst.
  constructor;
    [reflexivity | auto | cbn [trace]; now rewrite app_nil_r
    | cbn [texts]; lia | cbn [confirms]; lia].
Qed.

End CeremonyFacts.

Ltac unbind H :=
  let a := fresh "a" in
  let s := fresh "s" in
  let Hstep := fresh "Hstep" in
  apply bind_Ok in H; destruct H as (a & s & Hstep & H).

(** Turns the run of a primitive into what it does to the state. *)
Ltac fact H :=
  lazymatch type of H with
  | Ceremony.log _ _ = _ => apply log_Ok in H
  | Ceremony.IntPrompt_ask _ = _ => apply IntPrompt_ask_Ok in H
  | Ceremony.Confirm_ask _ = _ => apply Confirm_ask_Ok in H
  | Ceremony.click_prompt _ = _ => apply ask_text_Ok in H
  | Ceremony.Prompt_ask _ = _ => apply ask_text_Ok in H
  | Ceremony.request_server _ = _ => apply request_server_Ok in H
  | Ceremony.get_role _ _ = _ => apply get_role_Ok in H; destruct H as [H ->]
  | Ceremony.get_SETTINGS _ = _ => apply get_SETTINGS_Ok in H; destruct H as [H ->]
  | Ceremony.role_names _ = _ => apply role_names_Ok in H; destruct H as [H ->]
  | lift _ _ = _ => apply lift_Ok in H; destruct H as [H ->]
  | ret _ _ = _ => apply ret_Ok in H; destruct H as [H ->]
  | Ceremony.modify_role _ _ _ = _ =>
      apply modify_role_Ok in H; [|intros []; reflexivity]
  end.

(** Chains the steps in the context from one state to another. *)
Ltac chain :=
  first [ eassumption
        | apply evolves_refl
        | eapply evolves_trans; [eassumption | chain] ].

Ltac chained :=
  eapply evolves_eq; [chain | cbn [app]; rewrite ?app_nil_r; reflexivity].

Section CeremonySteps.

Import PyStr Ceremony.
Local Open Scope prog_scope.

Variable Metadata : Type.
Variable env : Env Metadata.

Lemma configure_role_Ok rolename st u st' :
  _configure_role rolename st = (Ok u, st') ->
  evolves st st' [Configure rolename] /\ is_default rolename st'.
Proof.
  unfold _configure_role. intros H.
  unbind H. fact Hstep.
  unbind H. fact Hstep0.
  unbind H. fact Hstep1.
  unbind H. apply (modify_role_Ok) in Hstep2; [|intros []; reflexivity].
  unbind H. eapply modify_role_offline_Ok in Hstep3; [|exact Hstep1].
  destruct Hstep3 as [Hstep3 Hdefault].
  unbind H. fact Hstep4.
  unbind H. fact Hstep5.
  unbind H. fact Hstep6.
  unbind H. fact Hstep7.
  unbind H.
  assert (Hthreshold : evolves s6 s7 []).
  { destruct (1 <? _)%Z in Hstep8.
    - unbind Hstep8. fact Hstep9. fact Hstep8.
      eapply (evolves_trans Hstep9 Hstep8).
    - fact Hstep8. assumption. }
  clear Hstep8.
  assert (Hrest : evolves s7 st' []).
  { destruct (String.eqb rolename (value TARGETS)).
    - unbind H. fact Hstep8.
      unbind H. fact Hstep9.
      unbind H. fact Hstep10.
      unbind H. fact Hstep11.
      unbind H. fact Hstep12.
      eapply set_service_Ok in H; [|eassumption].
      chained.
    - fact H. apply evolves_refl. }
  split.
  - chained.
  - eapply ev_default; [|exact Hdefault].
    chained.
Qed.

Lemma configure_keys_loop_Ok rounds :
  forall rolename key_count st u st',
    configure_keys_loop env rounds rolename key_count st = (Ok u, st') ->
    evolves st st' [].
Proof.
  induction rounds as [|rounds IH]; intros rolename key_count st u st' H;
    cbn [configure_keys_loop] in H; [discriminate|].
  unbind H. fact Hstep.
  destruct (_ <? _)%Z in H; [|fact H; apply evolves_refl].
  unbind H. fact Hstep0.
  unbind H. fact Hstep1.
  unbind H. fact Hstep2. destruct a2 as [key error].
  destruct error as [msg|].
  - unbind H. fact Hstep3.
    destruct a2; [|discriminate].
    apply IH in H.
    chained.
  - unbind H.
    assert (s1 = s0) as ->.
    { destruct (negb (Py.is_None key)).
      - unbind Hstep3. fact Hstep4. fact Hstep3. reflexivity.
      - fact Hstep3. reflexivity. }
    clear Hstep3.
    destruct a2.
    + apply IH in H.
      chained.
    + unbind H. fact Hstep3.
      unbind H. fact Hstep4.
      apply IH in H.
      chained.
Qed.

Lemma configure_keys_Ok rolename st u st' :
  _configure_keys env rolename st = (Ok u, st') ->
  evolves st st' [LoadKeys rolename].
Proof.
  unfold _configure_keys. intros H.
  unbind H. fact Hstep. apply configure_keys_loop_Ok in H.
  exact (evolves_trans Hstep H).
Qed.

Lemma confirm_loop_Ok rounds :
  forall rolename st u st',
    confirm_loop env rounds rolename st = (Ok u, st') ->
    exists evs, evolves st st' evs /\ confirmation rolename evs.
Proof.
  induction rounds as [|rounds IH]; intros rolename st u st' H;
    cbn [confirm_loop] in H; [discriminate|].
  unbind H. fact Hstep.
  unbind H. fact Hstep0.
  unbind H. fact Hstep1.
  unbind H. fact Hstep2.
  destruct a1; cbn [negb] in H.
  - fact H. exists [Confirm rolename true]. split; [|constructor].
    chained.
  - unbind H. apply configure_role_Ok in Hstep3. destruct Hstep3 as [Hstep3 _].
    unbind H. apply configure_keys_Ok in Hstep4.
    apply IH in H. destruct H as (evs & H & Hevs).
    exists (Confirm rolename false :: Configure rolename :: LoadKeys rolename :: evs).
    split; [|now constructor].
    chained.
Qed.

(** *** The bounds on the rounds of the loops

    A round of the loop of [_configure_keys] reads a text and a round of the
    confirmation loop reads a confirmation, so the numbers of rounds the
    model allows are never what ends a loop: with more rounds allowed the
    loops do the same. *)

Lemma bind_ext {S A B} (m : prog S A) (f g : A -> prog S B) st :
  (forall a s', m st = (Ok a, s') -> f a s' = g a s') ->
  bind m f st = bind m g st.
Proof.
  intros H. unfold bind. destruct (m st) as [[a|e] s']; [|reflexivity].
  now apply H.
Qed.

Lemma ask_text_shorter at_end st t st' :
  ask_text at_end st = (Ok t, st') ->
  S (List.length (texts st')) = List.length (texts st).
Proof.
  unfold ask_text. destruct (texts st) eqn:E; intros H; inversion H; subst.
  reflexivity.
Qed.

Lemma Confirm_ask_shorter st b st' :
  Confirm_ask st = (Ok b, st') ->
  S (List.length (confirms st')) = List.length (confirms st).
Proof.
  unfold Confirm_ask. destruct (confirms st) eqn:E; intros H; inversion H; subst.
  reflexivity.
Qed.

Lemma configure_keys_loop_rounds n :
  forall m rolename key_count st,
    (List.length (texts st) < n)%nat ->
    (List.length (texts st) < m)%nat ->
    configure_keys_loop env n rolename key_count st
    = configure_keys_loop env m rolename key_count st.
Proof.
  induction n as [|n IH]; intros m rolename key_count st Hn Hm; [lia|].
  destruct m as [|m]; [lia|].
  cbn [configure_keys_loop].
  apply bind_ext. intros role s0 H0. fact H0.
  destruct (_ <? _)%Z; [|reflexivity].
  apply bind_ext. intros filepath s1 H1.
  pose proof (ask_text_shorter _ _ H1) as L1.
  apply bind_ext. intros password s2 H2.
  pose proof (ask_text_shorter _ _ H2) as L2.
  apply bind_ext. intros [key error] s3 H3. fact H3.
  destruct error as [msg|].
  - apply bind_ext. intros try_again s4 H4.
    apply Confirm_ask_Ok in H4. pose proof (ev_texts H4) as L4.
    destruct try_again; [|reflexivity]. apply IH; lia.
  - apply bind_ext. intros duplicated s4 H4.
    assert (s4 = s2) as ->.
    { destruct (negb (Py.is_None key)).
      - unbind H4. fact Hstep. fact H4. reflexivity.
      - fact H4. reflexivity. }
    destruct duplicated; [apply IH; lia|].
    apply bind_ext. intros filename s5 H5. fact H5.
    apply bind_ext. intros u s6 H6. fact H6. pose proof (ev_texts H6) as L6.
    apply IH; lia.
Qed.

Lemma confirm_loop_rounds n :
  forall m rolename st,
    (List.length (confirms st) < n)%nat ->
    (List.length (confirms st) < m)%nat ->
    confirm_loop env n rolename st = confirm_loop env m rolename st.
Proof.
  induction n as [|n IH]; intros m rolename st Hn Hm; [lia|].
  destruct m as [|m]; [lia|].
  cbn [confirm_loop].
  apply bind_ext. intros role s0 H0. fact H0.
  apply bind_ext. intros u s1 H1. fact H1.
  apply bind_ext. intros confirm_config s2 H2.
  pose proof (Confirm_ask_shorter _ H2) as L2.
  apply bind_ext. intros u' s3 H3. fact H3. pose proof (ev_confirms H3) as L3.
  destruct confirm_config; cbn [negb]; [reflexivity|].
  apply bind_ext. intros u1 s4 H4.
  apply configure_role_Ok in H4. destruct H4 as [H4 _].
  pose proof (ev_confirms H4) as L4.
  apply bind_ext. intros u2 s5 H5.
  apply configure_keys_Ok in H5. pose proof (ev_confirms H5) as L5.
  apply IH; lia.
Qed.

Lemma each_configure_role_Ok names :
  forall st u st',
    for_each names _configure_role st = (Ok u, st') ->
    evolves st st' (map Configure names) /\
    forall r, In r names -> is_default r st'.
Proof.
  induction names as [|r names IH]; intros st u st' H; cbn [for_each] in H.
  - fact H. split; [apply evolves_refl | intros r []].
  - unbind H. apply configure_role_Ok in Hstep. destruct Hstep as [Hstep Hr].
    apply IH in H. destruct H as [H Hnames]. split.
    + exact (evolves_trans Hstep H).
    + intros r' [<- | Hin]; [|auto]. eapply ev_default; eauto.
Qed.

Lemma each_configure_keys_Ok names :
  forall st u st',
    for_each names (_configure_keys env) st = (Ok u, st') ->
    evolves st st' (map LoadKeys names).
Proof.
  induction names as [|r names IH]; intros st u st' H; cbn [for_each] in H.
  - fact H. apply evolves_refl.
  - unbind H. apply configure_keys_Ok in Hstep. apply IH in H.
    exact (evolves_trans Hstep H).
Qed.

Lemma each_confirm_role_Ok names :
  forall st u st',
    for_each names (confirm_role env) st = (Ok u, st') ->
    exists evs, evolves st st' evs /\ confirmations names evs.
Proof.
  induction names as [|r names IH]; intros st u st' H; cbn [for_each] in H.
  - fact H. exists []. split; [apply evolves_refl | constructor].
  - unbind H. unfold confirm_role in Hstep. apply confirm_loop_Ok in Hstep.
    destruct Hstep as (evs1 & Hstep & Hevs1).
    apply IH in H. destruct H as (evs2 & H & Hevs2).
    exists (evs1 ++ evs2). split; [|now constructor].
    exact (evolves_trans Hstep H).
Qed.

End CeremonySteps.

Section CeremonyPayload.

Import PyStr Ceremony.
Local Open Scope prog_scope.

Variable Metadata : Type.
Variable env : Env Metadata.

Lemma build_payload_Ok metadata st payload st' :
  names_of st = five_names ->
  (forall r, In r five_names -> is_default r st) ->
  build_payload env metadata st = (Ok payload, st') ->
  trace st' = trace st /\
  names_of st' = five_names /\
  Py.subscript payload "metadata"
  = Ok (JObj (map (fun kv => (fst kv, Metadata_to_dict env (snd kv))) metadata)) /\
  (forall r, In r OFFLINE_KEYS -> payload_keys payload r = Ok (JObj [])) /\
  (forall r data,
      In r five_names -> ~ In r OFFLINE_KEYS ->
      item (roles (SETTINGS st)) r = Ok data ->
      payload_keys payload r = Ok (JObj (keys data))).
Proof.
  intros Hnames Hdefault H.
  destruct st as [[rs service] ints confirms texts server trace].
  unfold names_of in Hnames. cbn [SETTINGS roles] in Hnames.
  destruct rs as [|[n1 d1] [|[n2 d2] [|[n3 d3] [|[n4 d4] [|[n5 d5] [|? ?]]]]]];
    try discriminate.
  cbn in Hnames. inversion Hnames; subst n1 n2 n3 n4 n5. clear Hnames.
  pose proof (Hdefault "root" (or_introl eq_refl) d1 _ eq_refl eq_refl) as H1.
  pose proof (Hdefault "targets" (or_intror (or_introl eq_refl)) d2 _
                eq_refl eq_refl) as H2.
  pose proof (Hdefault "snapshot"
                (or_intror (or_intror (or_introl eq_refl))) d3 _ eq_refl eq_refl) as H3.
  pose proof (Hdefault "timestamp"
                (or_intror (or_intror (or_intror (or_introl eq_refl))))
                d4 _ eq_refl eq_refl) as H4.
  pose proof (Hdefault "bins"
                (or_intror (or_intror (or_intror (or_intror (or_introl eq_refl)))))
                d5 _ eq_refl eq_refl) as H5.
  clear Hdefault.
  destruct d1, d2, d3, d4, d5. cbn in H1, H2, H3, H4, H5. subst.
  vm_compute in H. inversion H; subst payload st'. clear H.
  split; [reflexivity|]. split; [reflexivity|]. split; [reflexivity|]. split.
  - intros r [<- | [<- | []]]; reflexivity.
  - intros r data Hin Hnot Hitem.
    destruct Hin as [<- | [<- | [<- | [<- | [<- | []]]]]];
      try (exfalso; apply Hnot; cbn; tauto);
      cbn in Hitem; inversion Hitem; subst data; reflexivity.
Qed.

Lemma ceremony_steps_Ok save st payload st' :
  names_of st = five_names ->
  ceremony_steps env save st = (Ok payload, st') ->
  exists evs settings metadata,
    confirmations five_names evs /\
    map fst settings = five_names /\
    trace st'
    = trace st ++ map Configure five_names ++ map LoadKeys five_names
      ++ evs ++ [InitializeMetadata settings save] /\
    names_of st' = five_names /\
    initialize_metadata env settings save = Ok metadata /\
    Py.subscript payload "metadata"
    = Ok (JObj (map (fun kv => (fst kv, Metadata_to_dict env (snd kv))) metadata)) /\
    (forall r, In r OFFLINE_KEYS -> payload_keys payload r = Ok (JObj [])) /\
    (forall r data,
        In r five_names -> ~ In r OFFLINE_KEYS ->
        item settings r = Ok data ->
        payload_keys payload r = Ok (JObj (keys data))) /\
    (forall r data d,
        In r five_names ->
        item settings r = Ok data ->
        item default_settings r = Ok d ->
        offline_keys data = RoleSettings.offline_keys d).
Proof.
  intros Hnames H. unfold ceremony_steps in H.
  unbind H. apply Confirm_ask_Ok in Hstep.
  unbind H. apply Confirm_ask_Ok in Hstep0.
  destruct (negb _) in H; [discriminate|].
  unbind H. apply role_names_Ok in Hstep1. destruct Hstep1 as [-> ->].
  unbind H. apply each_configure_role_Ok in Hstep1.
  destruct Hstep1 as [Hconfigure Hdefault].
  unbind H. apply Confirm_ask_Ok in Hstep1.
  destruct (negb _) in H; [discriminate|].
  unbind H. apply role_names_Ok in Hstep2. destruct Hstep2 as [-> ->].
  unbind H. apply each_configure_keys_Ok in Hstep2.
  unbind H. apply role_names_Ok in Hstep3. destruct Hstep3 as [-> ->].
  unbind H. apply each_confirm_role_Ok in Hstep3.
  destruct Hstep3 as (evs & Hconfirm & Hevs).
  unbind H. apply get_SETTINGS_Ok in Hstep3. destruct Hstep3 as [-> ->].
  unbind H.
  assert (S5 : SETTINGS s5 = SETTINGS s4)
    by (unfold log in Hstep3; inversion Hstep3; reflexivity).
  apply log_Ok in Hstep3.
  unbind H. apply lift_Ok in Hstep4. destruct Hstep4 as [Hinit ->].
  (* the names of the roles never change *)
  assert (N0 : names_of s0 = five_names)
    by (rewrite (ev_names Hstep0), (ev_names Hstep); exact Hnames).
  assert (N1 : names_of s1 = five_names)
    by (rewrite (ev_names Hconfigure); exact N0).
  assert (N2 : names_of s2 = five_names)
    by (rewrite (ev_names Hstep1); exact N1).
  assert (N3 : names_of s3 = five_names)
    by (rewrite (ev_names Hstep2); exact N2).
  assert (N4 : names_of s4 = five_names)
    by (rewrite (ev_names Hconfirm); exact N3).
  assert (N5 : names_of s5 = five_names)
    by (rewrite (ev_names Hstep3); exact N4).
  rewrite N0 in Hconfigure, Hdefault. rewrite N2 in Hstep2. rewrite N3 in Hevs.
  assert (D5 : forall r, In r five_names -> is_default r s5).
  { intros r Hr. apply (ev_default Hstep3), (ev_default Hconfirm),
      (ev_default Hstep2), (ev_default Hstep1). auto. }
  destruct (build_payload_Ok _ N5 D5 H) as (Htrace & Hnames' & Hmeta & Hoff & Hon).
  exists evs, (roles (SETTINGS s4)), a6.
  split; [assumption|]. split; [exact N4|]. split.
  - rewrite Htrace.
    assert (E : evolves st s5
                  (map Configure five_names ++ map LoadKeys five_names ++ evs
                   ++ [InitializeMetadata (roles (SETTINGS s4)) save])).
    { chained. }
    exact (ev_trace E).
  - split; [assumption|]. split; [assumption|]. split; [assumption|].
    split; [assumption|]. rewrite <- S5. split; [assumption|].
    intros r data d Hr Hitem Hd. exact (D5 r Hr data d Hitem Hd).
Qed.

Lemma check_server_Ok st token st' :
  _check_server env st = (Ok token, st') -> evolves st st' [].
Proof.
  unfold _check_server. intros H.
  destruct (SERVER env) as [server|]; [|discriminate].
  destruct (TOKEN env) as [token'|]; [|discriminate].
  destruct (_ && _) in H; [|discriminate].
  unbind H. fact Hstep.
  destruct (negb _) in H; [discriminate|].
  unbind H. fact Hstep0.
  destruct (Py.is_True _) in H; [discriminate|].
  unbind H. fact Hstep1.
  unbind H. fact Hstep2.
  destruct (_ && _) in H; [discriminate|].
  fact H. assumption.
Qed.

Lemma bootstrap_Ok json_payload st task_id st' :
  _bootstrap json_payload st = (Ok task_id, st') ->
  evolves st st' [Post json_payload].
Proof.
  unfold _bootstrap. intros H.
  unbind H. fact Hstep.
  unbind H. fact Hstep0.
  fact H. chained.
Qed.

Lemma ceremony_run bootstrap file save st u st' :
  names_of st = five_names ->
  ceremony env bootstrap file false save st = (Ok u, st') ->
  exists evs settings metadata payload,
    confirmations five_names evs /\
    map fst settings = five_names /\
    trace st' = trace st ++ run_events save file bootstrap evs settings payload /\
    names_of st' = five_names /\
    initialize_metadata env settings save = Ok metadata /\
    Py.subscript payload "metadata"
    = Ok (JObj (map (fun kv => (fst kv, Metadata_to_dict env (snd kv))) metadata)) /\
    (forall r, In r OFFLINE_KEYS -> payload_keys payload r = Ok (JObj [])) /\
    (forall r data,
        In r five_names -> ~ In r OFFLINE_KEYS ->
        item settings r = Ok data ->
        payload_keys payload r = Ok (JObj (keys data))) /\
    (forall r data d,
        In r five_names ->
        item settings r = Ok data ->
        item default_settings r = Ok d ->
        offline_keys data = RoleSettings.offline_keys d).
Proof.
  intros Hnames H. unfold ceremony in H.
  unbind H.
  assert (s = st) as ->.
  { destruct save; [fact Hstep | fact Hstep]; reflexivity. }
  clear Hstep.
  unbind H. cbn [andb] in Hstep. fact Hstep. clear Hstep.
  unbind H.
  assert (Hpre : evolves st s []).
  { destruct bootstrap.
    - unbind Hstep. apply check_server_Ok in Hstep0.
      unbind Hstep. fact Hstep1.
      unbind Hstep. fact Hstep2.
      destruct (Z.eqb _ 404) in Hstep; [discriminate|].
      destruct (negb _) in Hstep; [discriminate|].
      destruct (Py.is_True _) in Hstep; [discriminate|].
      fact Hstep. chained.
    - fact Hstep. apply evolves_refl. }
  clear Hstep.
  unbind H. fact H. cbn [negb] in Hstep.
  unbind Hstep.
  assert (N : names_of s = five_names)
    by (rewrite (ev_names Hpre); exact Hnames).
  destruct (@ceremony_steps_Ok save s a3 s1 N Hstep0)
    as (evs & settings & metadata & Hevs & Hsettings & Htrace & N' & Hinit
        & Hmeta & Hoff & Hon & Hflags).
  exists evs, settings, metadata, a3.
  split; [assumption|]. split; [assumption|].
  unbind Hstep.
  assert (Hwrite : evolves s1 s2 (if truthy file then [WriteFile file a3] else [])).
  { destruct (truthy file).
    - unbind Hstep1. fact Hstep2. fact Hstep1. assumption.
    - fact Hstep1. apply evolves_refl. }
  clear Hstep1.
  assert (Hpost : evolves s2 s0 (if bootstrap then [Post a3] else [])).
  { destruct bootstrap.
    - unbind Hstep. apply bootstrap_Ok in Hstep1. fact Hstep. assumption.
    - fact Hstep. apply evolves_refl. }
  clear Hstep.
  pose proof (evolves_trans Hwrite Hpost) as Hend.
  split; [|split].
  - rewrite (ev_trace Hend), Htrace, (ev_trace Hpre). unfold run_events.
    rewrite app_nil_r, <- !app_assoc. reflexivity.
  - rewrite (ev_names Hend). exact N'.
  - auto.
Qed.

End CeremonyPayload.

Section CeremonyClaims.

Import PyStr Ceremony.

Variable Metadata : Type.
Variable env : Env Metadata.




Lemma initial_names new_role st :
  SETTINGS st = SETTINGS_initial new_role -> names_of st = five_names.
Proof.
  unfold names_of. intros ->. reflexivity.
Qed.


(** C8.  In the payload of a completed run of the ceremony the roles with
    offline keys, [root] and [targets] and no other, have an empty mapping
    of keys, and the online roles, [snapshot], [timestamp] and [bins],
    have the keys they had when the metadata was initialized. *)
Theorem ceremony_payload_keys :
  forall (new_role : RolesKeysInput) (bootstrap : bool) (file : string)
         (save : bool) (st st' : State) (u : unit),
    SETTINGS st = SETTINGS_initial new_role ->
    ceremony env bootstrap file false save st = (Ok u, st') ->
    exists evs settings payload,
      trace st' = trace st ++ run_events save file bootstrap evs settings payload /\
      (forall r data,
          In r ["root"; "targets"] ->
          item settings r = Ok data ->
          offline_keys data = true /\
          payload_keys payload r = Ok (JObj [])) /\
      (forall r data,
          In r ["snapshot"; "timestamp"; "bins"] ->
          item settings r = Ok data ->
          offline_keys data = false /\
          payload_keys payload r = Ok (JObj (keys data))).
Proof.
  intros new_role bootstrap file save st st' u Hinitial Hrun.
  pose proof (initial_names _ Hinitial) as Hnames.
  destruct (@ceremony_run Metadata env bootstrap file save st u st' Hnames Hrun)
    as (evs & settings & metadata & payload & Hevs & Hsettings & Htrace
        & Hnames' & Hinit & Hmeta & Hoff & Hon & Hflags).
  exists evs, settings, payload. split; [exact Htrace|]. split.
  - intros r data Hr Hitem. split.
    + destruct Hr as [<- | [<- | []]];
        refine (Hflags _ data _ _ Hitem eq_refl); cbn; tauto.
    + apply Hoff. exact Hr.
  - intros r data Hr Hitem. split.
    + destruct Hr as [<- | [<- | [<- | []]]];
        refine (Hflags _ data _ _ Hitem eq_refl); cbn; tauto.
    + apply Hon; [| |exact Hitem].
      * destruct Hr as [<- | [<- | [<- | []]]]; cbn; tauto.
      * destruct Hr as [<- | [<- | [<- | []]]]; cbn;
          intros [H | [H | []]]; discriminate.
Qed.

End CeremonyClaims.

Section CeremonyExample.

Import Ceremony.

Lemma example_run_completes :
  ceremony example_env false "payload.json" false false example_run
  = (Ok tt, example_end).
Proof. vm_compute. reflexivity. Qed.


Lemma ceremony_payload_keys_witness :
  SETTINGS example_run = SETTINGS_initial (mkRolesKeysInput 1 1 1 [] true None) /\
  ceremony example_env false "payload.json" false false example_run
  = (Ok tt, example_end) /\
  exists evs settings payload,
    trace example_end
    = run_events false "payload.json" false evs settings payload /\
    (forall data, item settings "root" = Ok data ->
                  payload_keys payload "root" = Ok (JObj [])) /\
    (forall data, item settings "bins" = Ok data ->
                  payload_keys payload "bins" = Ok (JObj (keys data))).
Proof.
  split; [reflexivity|]. split; [exact example_run_completes|].
  destruct (@ceremony_payload_keys unit example_env
              (mkRolesKeysInput 1 1 1 [] true None) false "payload.json" false
              example_run example_end tt eq_refl example_run_completes)
    as (evs & settings & payload & Htrace & Hoff & Hon).
  exists evs, settings, payload. split; [exact Htrace|]. split.
  - intros data Hitem.
    exact (proj2 (Hoff "root" data (or_introl eq_refl) Hitem)).
  - intros data Hitem.
    exact (proj2 (Hon "bins" data (or_intror (or_intror (or_introl eq_refl)))
                      Hitem)).
Defined.

End CeremonyExample.

(** * Further properties *)

(** ** More on strings *)

Section MoreStringFacts.

Import PyStr.

(** The pieces of a split have no separator. *)
Lemma split_pieces c s : Forall (fun p => contains c p = false) (split c s).
Proof.
  induction s as [|a s IH]; simpl.
  - constructor; [reflexivity | constructor].
  - destruct (Ascii.eqb a c) eqn:Ea.
    + constructor; [reflexivity | assumption].
    + destruct (split c s) as [|p ps].
      * constructor; [simpl; now rewrite Ea | constructor].
      * inversion IH; subst.
        constructor; [simpl; rewrite Ea; assumption | assumption].
Qed.

Lemma split_app_sep c a b :
  split c (a ++ String c b)%string = split c a ++ split c b.
Proof.
  induction a as [|x a IH]; simpl.
  - now rewrite Ascii.eqb_refl.
  - rewrite IH. destruct (Ascii.eqb x c); [reflexivity|].
    pose proof (split_nonempty c a) as Hne.
    destruct (split c a) as [|p ps]; [congruence | reflexivity].
Qed.

Lemma cut_first_sep c a b :
  contains c a = false -> cut_first c (a ++ String c b)%string = Some (a, b).
Proof.
  induction a as [|x a IH]; simpl; intros H.
  - now rewrite Ascii.eqb_refl.
  - apply orb_false_iff in H. destruct H as [Hx Ha].
    now rewrite Hx, (IH Ha).
Qed.

Lemma cut_last_sep c a b :
  contains c b = false -> cut_last c (a ++ String c b)%string = Some (a, b).
Proof.
  intros Hb. apply cut_last_None in Hb.
  induction a as [|x a IH]; simpl.
  - now rewrite Hb, Ascii.eqb_refl.
  - now rewrite IH.
Qed.

Lemma contains_true_app c s :
  contains c s = true ->
  exists a b, s = (a ++ String c b)%string /\ contains c a = false.
Proof.
  induction s as [|x s IH]; simpl; [discriminate|].
  destruct (Ascii.eqb x c) eqn:Ex; simpl.
  - intros _. apply Ascii.eqb_eq in Ex. subst x. exists EmptyString, s. auto.
  - intros H. destruct (IH H) as (a & b & -> & Ha).
    exists (String x a), b. simpl. rewrite Ex. auto.
Qed.

Lemma append_assoc (a b c : string) :
  ((a ++ b) ++ c = a ++ (b ++ c))%string.
Proof.
  induction a as [|x a IH]; simpl; [reflexivity | now rewrite IH].
Qed.

Lemma length_append (a b : string) :
  String.length (a ++ b) = (String.length a + String.length b)%nat.
Proof.
  induction a as [|x a IH]; simpl; [reflexivity | now rewrite IH].
Qed.

Lemma append_cancel (a x y : string) : (a ++ x = a ++ y)%string -> x = y.
Proof.
  induction a as [|c a IH]; simpl; intros H; [assumption|].
  inversion H. auto.
Qed.

End MoreStringFacts.

Ltac strings :=
  repeat first [rewrite append_assoc | progress cbn [String.append]].

(** ** More on container references *)

Section Normalization.

Import PyStr Oras.

Lemma split_join c parts :
  parts <> [] ->
  Forall (fun p => contains c p = false) parts ->
  split c (join (String c EmptyString) parts) = parts.
Proof.
  intros Hne Hall. induction Hall as [|p ps Hp Hps IH]; [congruence|].
  destruct ps as [|q qs].
  - cbn [join]. now apply split_whole.
  - change (join (String c EmptyString) (p :: q :: qs))
      with (p ++ String c (join (String c EmptyString) (q :: qs)))%string.
    rewrite split_app_sep.
    rewrite (split_whole _ _ Hp), IH by discriminate. reflexivity.
Qed.

Lemma last_default {A} (p : A) ps d : List.last (p :: ps) d = List.last ps p.
Proof.
  revert p d. induction ps as [|q ps IH]; intros p d; [reflexivity|].
  change (List.last (p :: q :: ps) d) with (List.last (q :: ps) d).
  rewrite IH. symmetry. apply IH.
Qed.

(** The end of [_parse_container_url], from the server and the segments
    that remain. *)
Lemma assemble_parts server parts tag :
  obind (if (1 <? List.length parts)%nat
         then obind (last parts) (fun image =>
                Ok (join "/" (removelast parts), image))
         else obind (first parts) (fun image =>
                Ok ((if String.eqb server docker_hub then "library"
                     else EmptyString), image)))
        (fun '(path, image) =>
           if truthy path
           then Ok (server ++ "/" ++ path ++ "/" ++ image ++ ":" ++ tag)%string
           else Ok (server ++ "/" ++ image ++ ":" ++ tag)%string)
  = match parts with
    | [] => Raise IndexError
    | _ => Ok (assemble server parts tag)
    end.
Proof.
  unfold assemble. destruct parts as [|q [|q' qs]].
  - reflexivity.
  - cbn. destruct (String.eqb server docker_hub); reflexivity.
  - change (1 <? List.length (q :: q' :: qs))%nat with true. cbv iota.
    cbn [last obind]. rewrite (last_default q (q' :: qs) EmptyString).
    destruct (join "/" (removelast (q :: q' :: qs))); reflexivity.
Qed.

Lemma normal_form_assemble url :
  normal_form url
  = assemble (stated_server url) (stated_remaining url) (stated_tag url).
Proof.
  unfold normal_form, assemble, stated_path, stated_image.
  destruct (stated_remaining url) as [|p [|q qs]]; reflexivity.
Qed.

(** Parsing a reference that is glued from a server, segments and a tag. *)
Lemma parse_glue server parts tag :
  names_server server = true ->
  contains "/" server = false ->
  parts <> [] ->
  Forall (fun p => contains "/" p = false) parts ->
  contains ":" tag = false ->
  _parse_container_url (glue server parts tag) = Ok (assemble server parts tag).
Proof.
  intros Hserver Hslash Hne Hparts Htag.
  unfold _parse_container_url, glue.
  assert (Hshape : (server ++ "/" ++ join "/" parts ++ ":" ++ tag)%string
                   = ((server ++ String "/" (join "/" parts)) ++ String ":" tag)%string).
  { symmetry. rewrite append_assoc. reflexivity. }
  rewrite Hshape.
  assert (Hcolon : contains ":" ((server ++ String "/" (join "/" parts))
                                 ++ String ":" tag)%string = true).
  { rewrite contains_app. cbn [contains]. rewrite Ascii.eqb_refl.
    cbn [orb]. apply orb_true_r. }
  rewrite Hcolon. unfold rsplit1. rewrite cut_last_sep by exact Htag.
  cbn [unpack2 obind].
  rewrite split_app_sep. rewrite split_whole by exact Hslash.
  rewrite split_join by assumption.
  cbn [app first obind]. fold (names_server server). rewrite Hserver.
  cbn [tl]. rewrite assemble_parts.
  destruct parts; [congruence | reflexivity].
Qed.

Lemma join_removelast_last (p q : string) qs :
  (join "/" (removelast (p :: q :: qs)) ++ "/"
   ++ List.last (p :: q :: qs) EmptyString)%string
  = join "/" (p :: q :: qs).
Proof.
  revert p q. induction qs as [|r qs IH]; intros p q; [reflexivity|].
  change (removelast (p :: q :: r :: qs)) with (p :: q :: removelast (r :: qs)).
  change (join "/" (p :: q :: removelast (r :: qs)))
    with (p ++ String "/" (join "/" (q :: removelast (r :: qs))))%string.
  change (q :: removelast (r :: qs)) with (removelast (q :: r :: qs)).
  change (List.last (p :: q :: r :: qs) EmptyString)
    with (List.last (q :: r :: qs) EmptyString).
  change (join "/" (p :: q :: r :: qs))
    with (p ++ String "/" (join "/" (q :: r :: qs)))%string.
  rewrite append_assoc. f_equal. cbn [String.append]. f_equal. apply IH.
Qed.

(** What [assemble] builds is glued from the settled segments. *)
Lemma assemble_glue server parts tag :
  parts <> [] ->
  assemble server parts tag = glue server (settle server parts) tag.
Proof.
  intros Hne. unfold assemble, glue, settle.
  destruct parts as [|p [|q qs]]; [congruence| |].
  - destruct (String.eqb server docker_hub); reflexivity.
  - destruct (join "/" (removelast (p :: q :: qs))) as [|a path] eqn:Hpath.
    + reflexivity.
    + rewrite <- (join_removelast_last p q qs), Hpath.
      cbn [String.append]. rewrite !append_assoc. reflexivity.
Qed.

End Normalization.

Section ReferenceShape.

Import PyStr Oras.

Lemma stated_server_named url : names_server (stated_server url) = true.
Proof.
  unfold stated_server. destruct (stated_segments url) as [|s rest]; [reflexivity|].
  destruct (names_server s) eqn:E; [exact E | reflexivity].
Qed.

Lemma stated_server_lacks_slash url : contains "/" (stated_server url) = false.
Proof.
  unfold stated_server. pose proof (split_pieces "/" (if contains ":" url then before_last ":" url else url)) as H.
  fold (stated_segments url) in H.
  destruct (stated_segments url) as [|s rest]; [reflexivity|].
  inversion H; subst. destruct (names_server s); [assumption | reflexivity].
Qed.

Lemma stated_remaining_lack_slash url :
  Forall (fun p => contains "/" p = false) (stated_remaining url).
Proof.
  unfold stated_remaining. pose proof (split_pieces "/" (if contains ":" url then before_last ":" url else url)) as H.
  fold (stated_segments url) in H.
  destruct (stated_segments url) as [|s rest]; [constructor|].
  destruct (names_server s); [now inversion H | assumption].
Qed.

Lemma stated_tag_lacks_colon url : contains ":" (stated_tag url) = false.
Proof.
  unfold stated_tag, after_last. destruct (contains ":" url) eqn:E; [|reflexivity].
  destruct (cut_last ":" url) as [[l r]|] eqn:C.
  - eapply cut_last_right; eauto.
  - apply cut_last_None in C. congruence.
Qed.

Lemma normal_form_base url :
  normal_form url
  = ((stated_server url ++ "/" ++ stated_base url) ++ ":" ++ stated_tag url)%string.
Proof.
  unfold normal_form, stated_base. destruct (stated_path url); strings; reflexivity.
Qed.

Lemma parse_repository url normalized :
  _parse_container_url url = Ok normalized ->
  normalized
  = ((stated_server url ++ "/" ++ stated_base url) ++ ":" ++ stated_tag url)%string.
Proof.
  intros H. rewrite parse_container_url_normal_form in H.
  destruct (stated_remaining url); [discriminate|].
  inversion H. apply normal_form_base.
Qed.

Lemma split_repository url normalized :
  contains "@" url = false ->
  _parse_container_url url = Ok normalized ->
  split_reference normalized
  = Ok ((stated_server url ++ "/" ++ stated_base url)%string, stated_tag url).
Proof.
  intros Hat H. pose proof (parse_lacks_at _ Hat H) as Hno.
  pose proof (parse_repository _ H) as Hshape.
  unfold split_reference. rewrite Hno, Hshape. unfold rsplit1.
  change (":" ++ stated_tag url)%string with (String ":" (stated_tag url)).
  rewrite cut_last_sep by apply stated_tag_lacks_colon. reflexivity.
Qed.

Lemma path_base_repository url :
  path_base (stated_server url ++ "/" ++ stated_base url)%string
  = Ok (stated_base url).
Proof.
  unfold path_base.
  change ("/" ++ stated_base url)%string with (String "/" (stated_base url)).
  rewrite split_app_sep.
  rewrite split_whole by apply stated_server_lacks_slash.
  pose proof (split_nonempty "/" (stated_base url)) as Hne.
  destruct (split "/" (stated_base url)) as [|p ps]; [congruence|].
  cbn [app List.length Nat.ltb Nat.leb]. unfold split1.
  rewrite cut_first_sep by apply stated_server_lacks_slash. reflexivity.
Qed.

(** X1.  The paths of the artifacts leave out the registry: the normalized
    reference of a reference without ['@'] is [server/base:tag], where the
    server has no ['/'] and the tag no [':']; it is split into the
    repository [server/base] and the tag, and the base of the artifact
    paths is [base], the repository without the server. *)
Theorem artifact_paths_leave_out_the_registry :
  forall url normalized,
    contains "@" url = false ->
    _parse_container_url url = Ok normalized ->
    normalized
    = ((stated_server url ++ "/" ++ stated_base url) ++ ":" ++ stated_tag url)%string /\
    contains "/" (stated_server url) = false /\
    contains ":" (stated_tag url) = false /\
    split_reference normalized
    = Ok ((stated_server url ++ "/" ++ stated_base url)%string, stated_tag url) /\
    path_base (stated_server url ++ "/" ++ stated_base url)%string
    = Ok (stated_base url).
Proof.
  intros url normalized Hat H.
  split; [now apply parse_repository|].
  split; [apply stated_server_lacks_slash|].
  split; [apply stated_tag_lacks_colon|].
  split; [now apply split_repository | apply path_base_repository].
Qed.

Lemma artifact_paths_leave_out_the_registry_witness :
  split_reference "ghcr.io/in-toto/archivista:0.9.0"
  = Ok ("ghcr.io/in-toto/archivista", "0.9.0") /\
  path_base "ghcr.io/in-toto/archivista" = Ok "in-toto/archivista".
Proof.
  destruct (@artifact_paths_leave_out_the_registry
              "ghcr.io/in-toto/archivista:0.9.0"
              "ghcr.io/in-toto/archivista:0.9.0" eq_refl eq_refl)
    as (_ & _ & _ & Hsplit & Hbase).
  split; [exact Hsplit | exact Hbase].
Defined.

End ReferenceShape.

Section ManifestReferences.

Import PyStr Oras.

Lemma before_at_or_colon_cut host rest :
  contains ":" host = false ->
  contains "@" host = false ->
  before_at_or_colon (host ++ String ":" rest) = host.
Proof.
  induction host as [|a host IH]; simpl; intros Hc Ha; [reflexivity|].
  apply orb_false_iff in Hc. destruct Hc as [Hc1 Hc2].
  apply orb_false_iff in Ha. destruct Ha as [Ha1 Ha2].
  rewrite Ha1, Hc1. cbn [orb]. now rewrite IH.
Qed.

(** X2.  The manifests of an index are asked for at the repository: for a
    reference without ['@'] whose repository has no [':'], the reference
    [_get_uri_for_digest] builds from the normalized reference is
    [repository@digest]. *)
Theorem manifest_uri_of_digest :
  forall url normalized digest,
    contains "@" url = false ->
    _parse_container_url url = Ok normalized ->
    contains ":" (stated_server url ++ "/" ++ stated_base url) = false ->
    _get_uri_for_digest normalized digest
    = ((stated_server url ++ "/" ++ stated_base url) ++ "@" ++ digest)%string.
Proof.
  intros url normalized digest Hat H Hcolon.
  pose proof (parse_lacks_at _ Hat H) as Hno.
  pose proof (parse_repository _ H) as Hshape. rewrite Hshape in *.
  rewrite contains_app in Hno. apply orb_false_iff in Hno. destruct Hno as [Hno _].
  unfold _get_uri_for_digest.
  change (":" ++ stated_tag url)%string with (String ":" (stated_tag url)).
  rewrite before_at_or_colon_cut by assumption. reflexivity.
Qed.

Lemma manifest_uri_of_digest_witness :
  _get_uri_for_digest "ghcr.io/in-toto/archivista:0.9.0" "sha256:00ff"
  = "ghcr.io/in-toto/archivista@sha256:00ff".
Proof.
  exact (@manifest_uri_of_digest "ghcr.io/in-toto/archivista:0.9.0"
           "ghcr.io/in-toto/archivista:0.9.0" "sha256:00ff"
           eq_refl eq_refl eq_refl).
Defined.

(** X3.  When the server of the reference has a port, the reference
    [_get_uri_for_digest] builds is cut at the [':'] of the port: it is
    [host@digest], without the port, the path and the image. *)
Theorem manifest_uri_loses_path_after_port :
  forall url normalized digest,
    contains "@" url = false ->
    _parse_container_url url = Ok normalized ->
    contains ":" (stated_server url) = true ->
    exists host port,
      stated_server url = (host ++ ":" ++ port)%string /\
      contains ":" host = false /\
      _get_uri_for_digest normalized digest = (host ++ "@" ++ digest)%string.
Proof.
  intros url normalized digest Hat H Hport.
  pose proof (parse_lacks_at _ Hat H) as Hno.
  pose proof (parse_repository _ H) as Hshape. rewrite Hshape in *.
  destruct (contains_true_app _ _ Hport) as (host & port & Hserver & Hhost).
  exists host, port. split; [exact Hserver|]. split; [exact Hhost|].
  rewrite Hserver in *.
  rewrite !contains_app in Hno. apply orb_false_iff in Hno. destruct Hno as [Hno _].
  apply orb_false_iff in Hno. destruct Hno as [Hno _].
  apply orb_false_iff in Hno. destruct Hno as [Hno _].
  unfold _get_uri_for_digest. strings.
  rewrite before_at_or_colon_cut by assumption. reflexivity.
Qed.

Lemma manifest_uri_loses_path_after_port_witness :
  exists host port,
    "registry.local:5000" = (host ++ ":" ++ port)%string /\
    contains ":" host = false /\
    _get_uri_for_digest "registry.local:5000/app/web:1" "sha256:00ff"
    = (host ++ "@" ++ "sha256:00ff")%string.
Proof.
  exact (@manifest_uri_loses_path_after_port "registry.local:5000/app/web:1"
           "registry.local:5000/app/web:1" "sha256:00ff"
           eq_refl eq_refl eq_refl).
Defined.

End ManifestReferences.

Section ReferenceOutcomes.

Import PyStr Oras.

(** X4.  [_parse_container_url] fails on exactly one kind of reference, and
    with [IndexError] only: when the reference without its tag is a single
    segment that is taken for a server, because it has a dot or starts
    with [registry], so that no segment remains for the image. *)
Theorem parse_fails_exactly_without_image :
  forall url e,
    _parse_container_url url = Raise e <->
    e = IndexError /\
    exists segment,
      stated_segments url = [segment] /\ names_server segment = true.
Proof.
  intros url e. rewrite parse_container_url_normal_form.
  unfold stated_remaining.
  pose proof (split_nonempty "/" (if contains ":" url then before_last ":" url
                                  else url)) as Hne.
  fold (stated_segments url) in Hne.
  destruct (stated_segments url) as [|s rest]; [congruence|].
  destruct (names_server s) eqn:Hs.
  - destruct rest as [|r rest].
    + split.
      * intros H. inversion H. split; [reflexivity|]. exists s. auto.
      * intros [-> _]. reflexivity.
    + split; [discriminate|].
      intros [_ (segment & Hseg & _)]. discriminate.
  - split; [discriminate|].
    intros [_ (segment & Hseg & Hnamed)]. inversion Hseg; subst. congruence.
Qed.

(** X5.  A bare name is an official image of Docker Hub: for a name
    without ['/'], [':'] and dot that does not start with [registry], the
    reference [name:tag] is normalized to
    [registry-1.docker.io/library/name:tag], and [name] alone to the same
    with the tag [latest]. *)
Theorem docker_hub_default :
  forall name tag,
    contains "/" name = false ->
    contains ":" name = false ->
    names_server name = false ->
    contains ":" tag = false ->
    _parse_container_url (name ++ ":" ++ tag)
    = Ok ("registry-1.docker.io/library/" ++ name ++ ":" ++ tag)%string /\
    _parse_container_url name
    = Ok ("registry-1.docker.io/library/" ++ name ++ ":latest")%string.
Proof.
  intros name tag Hslash Hcolon Hserver Htag. unfold _parse_container_url.
  fold (names_server name) in *. split.
  - assert (Hhas : contains ":" (name ++ ":" ++ tag) = true).
    { rewrite contains_app. cbn. apply orb_true_r. }
    rewrite Hhas. unfold rsplit1.
    change (":" ++ tag)%string with (String ":" tag).
    rewrite cut_last_sep by exact Htag. cbn [unpack2 obind].
    rewrite split_whole by exact Hslash. cbn [first obind].
    fold (names_server name). rewrite Hserver. reflexivity.
  - rewrite Hcolon. cbn [obind].
    rewrite split_whole by exact Hslash. cbn [first obind].
    fold (names_server name). rewrite Hserver. reflexivity.
Qed.

Lemma docker_hub_default_witness :
  _parse_container_url "postgres:17"
  = Ok "registry-1.docker.io/library/postgres:17" /\
  _parse_container_url "postgres"
  = Ok "registry-1.docker.io/library/postgres:latest".
Proof.
  exact (@docker_hub_default "postgres" "17" eq_refl eq_refl eq_refl eq_refl).
Defined.

End ReferenceOutcomes.

Section NormalizationSettles.

Import PyStr Oras.

Lemma settle_nonempty server parts : parts <> [] -> settle server parts <> [].
Proof.
  intros Hne. unfold settle. destruct parts as [|p [|q qs]]; [congruence| |].
  - destruct (String.eqb server docker_hub); discriminate.
  - destruct (join "/" (removelast (p :: q :: qs))); discriminate.
Qed.

Lemma settle_lacks_slash server parts :
  Forall (fun p => contains "/" p = false) parts ->
  Forall (fun p => contains "/" p = false) (settle server parts).
Proof.
  intros H. unfold settle.
  destruct parts as [|p [|q qs]]; [cbn; repeat constructor| |].
  - destruct (String.eqb server docker_hub); [|assumption].
    constructor; [reflexivity | assumption].
  - destruct (join "/" (removelast (p :: q :: qs))); [|assumption].
    constructor; [|constructor].
    apply Forall_last; [reflexivity | assumption].
Qed.

(** Two segments or more with a path are left as they are. *)
Lemma settle_path server p q qs :
  join "/" (removelast (p :: q :: qs)) <> EmptyString ->
  settle server (p :: q :: qs) = p :: q :: qs.
Proof.
  intros H. unfold settle.
  destruct (join "/" (removelast (p :: q :: qs))); [congruence | reflexivity].
Qed.

Lemma settle_library p :
  settle docker_hub ["library"; p] = ["library"; p].
Proof. reflexivity. Qed.

(** What [settle] gives is settled, unless it is the single segment of an
    image of Docker Hub. *)
Lemma settle_settle server parts :
  parts <> [] ->
  settle server (settle server parts) = settle server parts \/
  (String.eqb server docker_hub = true /\
   match parts with [_] => False | _ => True end /\
   join "/" (removelast parts) = EmptyString /\
   settle server parts = [List.last parts EmptyString] /\
   settle server (settle server parts) = ["library"; List.last parts EmptyString]).
Proof.
  intros Hne. destruct parts as [|p [|q qs]]; [congruence| |].
  - left. unfold settle. destruct (String.eqb server docker_hub); reflexivity.
  - destruct (join "/" (removelast (p :: q :: qs))) as [|a path] eqn:Hpath.
    + assert (Hs : settle server (p :: q :: qs)
                   = [List.last (p :: q :: qs) EmptyString]).
      { unfold settle. rewrite Hpath. reflexivity. }
      rewrite Hs. destruct (String.eqb server docker_hub) eqn:E.
      * right. repeat (split; [solve [auto]|]).
        unfold settle. rewrite E. reflexivity.
      * left. unfold settle. rewrite E. reflexivity.
    + left. rewrite !settle_path; try reflexivity; rewrite Hpath; discriminate.
Qed.

Lemma settle_thrice server parts :
  parts <> [] ->
  settle server (settle server (settle server parts))
  = settle server (settle server parts).
Proof.
  intros Hne. destruct (settle_settle server Hne) as [H | (E & _ & _ & _ & H)].
  - now rewrite H.
  - rewrite H. unfold settle. reflexivity.
Qed.

(** Parsing what [glue] builds from settled segments. *)
Lemma parse_settled server parts tag :
  names_server server = true ->
  contains "/" server = false ->
  parts <> [] ->
  Forall (fun p => contains "/" p = false) parts ->
  contains ":" tag = false ->
  _parse_container_url (glue server (settle server parts) tag)
  = Ok (glue server (settle server (settle server parts)) tag).
Proof.
  intros Hserver Hslash Hne Hparts Htag.
  rewrite parse_glue; auto using settle_nonempty, settle_lacks_slash.
  rewrite assemble_glue by auto using settle_nonempty. reflexivity.
Qed.

(** X6.  Normalizing settles: the normalized reference of any reference
    is itself parsed without an error, and what this gives is its own
    normalized reference.  The normalized reference is already its own
    normalized reference exactly when it has a path or its server is not
    Docker Hub: an image of Docker Hub that was written with an empty
    path gets the path [library] the second time. *)
Theorem normalization_settles :
  forall url normalized,
    _parse_container_url url = Ok normalized ->
    exists again,
      _parse_container_url normalized = Ok again /\
      _parse_container_url again = Ok again /\
      (again = normalized <->
       stated_path url <> EmptyString \/ stated_server url <> docker_hub).
Proof.
  intros url normalized H.
  rewrite parse_container_url_normal_form in H.
  pose proof (stated_server_named url) as Hserver.
  pose proof (stated_server_lacks_slash url) as Hslash.
  pose proof (stated_remaining_lack_slash url) as Hparts.
  pose proof (stated_tag_lacks_colon url) as Htag.
  assert (Hne : stated_remaining url <> []).
  { destruct (stated_remaining url); [discriminate | discriminate]. }
  assert (Hn : normalized
               = glue (stated_server url)
                      (settle (stated_server url) (stated_remaining url))
                      (stated_tag url)).
  { destruct (stated_remaining url) eqn:E; [discriminate|]. inversion H.
    rewrite normal_form_assemble, E. apply assemble_glue. discriminate. }
  exists (glue (stated_server url)
               (settle (stated_server url)
                       (settle (stated_server url) (stated_remaining url)))
               (stated_tag url)).
  split; [rewrite Hn; now apply parse_settled|].
  split.
  { rewrite parse_glue; auto using settle_nonempty, settle_lacks_slash.
    rewrite assemble_glue by auto using settle_nonempty.
    now rewrite settle_thrice. }
  rewrite Hn. unfold stated_path.
  destruct (settle_settle (stated_server url) Hne)
    as [Hfix | (Ehub & Hmany & Hpath & Hone & Htwo)].
  - rewrite Hfix. split; [intros _ | reflexivity].
    destruct (stated_remaining url) as [|p [|q qs]] eqn:E; [congruence| |].
    + destruct (String.eqb (stated_server url) docker_hub) eqn:Eh.
      * left. discriminate.
      * right. intros Heq. rewrite Heq, String.eqb_refl in Eh. discriminate.
    + destruct (join "/" (removelast (p :: q :: qs))) as [|a path] eqn:Hpath.
      * right. intros Heq. unfold settle in Hfix. rewrite Hpath in Hfix.
        rewrite Heq in Hfix. cbn in Hfix. discriminate.
      * left. discriminate.
  - rewrite Htwo, Hone. apply String.eqb_eq in Ehub. split.
    + intros Heq. exfalso. unfold glue in Heq.
      apply append_cancel in Heq. cbn [String.append join] in Heq.
      inversion Heq as [Hlen]. apply (f_equal String.length) in Hlen.
      cbn [String.length String.append] in Hlen.
      rewrite !length_append in Hlen. cbn [String.length] in Hlen. lia.
    + intros [Hp | Hs]; [|congruence].
      destruct (stated_remaining url) as [|p [|q qs]]; [congruence | contradiction |].
      congruence.
Qed.

Lemma normalization_settles_witness :
  exists again,
    _parse_container_url "registry-1.docker.io/img:latest" = Ok again /\
    _parse_container_url again = Ok again /\
    (again = "registry-1.docker.io/img:latest" <->
     stated_path "/img" <> EmptyString \/ stated_server "/img" <> docker_hub).
Proof.
  exact (@normalization_settles "/img" "registry-1.docker.io/img:latest" eq_refl).
Defined.

End NormalizationSettles.

(** ** More on the artifacts of a container image *)

Section ContainerArtifacts.

Import PyStr Oras.
Local Open Scope prog_scope.

Variable W : Type.
Variable get_raw_data : string -> prog W json.
Variable get_manifest : string -> prog W json.
Variable dumps : json -> string.
Variable sha256 : string -> string.
Variable py_str : json -> string.

(** The command up to the request for the document of the reference. *)
Lemma add_container_oci_request image_ref normalized (w : W) :
  contains "@" image_ref = false ->
  _parse_container_url image_ref = Ok normalized ->
  add_container_oci get_raw_data get_manifest dumps sha256 py_str image_ref w
  = (raw_data <~ try_except (get_raw_data normalized) is_Exception
                   (fun _ => raise (SystemExit 1)) ;;
     let '(size, digest) := _calculate_size_and_hash sha256 (dumps raw_data) in
     let payload := JObj [("artifacts", JArr [])] in
     media_type <~ lift (Py.subscript raw_data "mediaType") ;;
     if Py.eq_str media_type index_media_type then
       payload <~ lift (_add_to_rstuf
                          (stated_base image_ref ++ ":" ++ stated_tag image_ref)
                          size digest payload) ;;
       manifests <~ lift (Py.get_default raw_data "manifests" (JArr [])) ;;
       manifests <~ lift (Py.iter manifests) ;;
       each_manifest get_manifest dumps sha256 py_str normalized
                     (stated_base image_ref) manifests payload
     else
       payload <~ lift (_add_to_rstuf
                          (stated_base image_ref ++ ":" ++ stated_tag image_ref)
                          size digest payload) ;;
       lift (_add_to_rstuf (stated_base image_ref ++ "@" ++ digest)
                           size digest payload)) w.
Proof.
  intros Hat Hparse. unfold add_container_oci. rewrite Hat.
  unfold bind at 1, lift at 1. rewrite Hparse.
  unfold bind at 1, lift at 1. rewrite (split_repository _ Hat Hparse).
  unfold bind at 1, lift at 1. rewrite path_base_repository.
  reflexivity.
Qed.

(** X7.  For a document that is not an OCI index, the payload has exactly
    two artifacts, both with the length and the SHA-256 digest of the
    serialized document: one at [<base>:<tag>] and one at
    [<base>@sha256:<digest>].  The registry is asked for the document and
    for nothing else. *)
Theorem single_manifest_artifacts :
  forall image_ref normalized raw_data media_type (w w1 : W),
    contains "@" image_ref = false ->
    _parse_container_url image_ref = Ok normalized ->
    get_raw_data normalized w = (Ok raw_data, w1) ->
    Py.subscript raw_data "mediaType" = Ok media_type ->
    Py.eq_str media_type index_media_type = false ->
    add_container_oci get_raw_data get_manifest dumps sha256 py_str image_ref w
    = (Ok (JObj [("artifacts",
                  JArr [artifact_of dumps sha256
                          (stated_base image_ref ++ ":" ++ stated_tag image_ref)
                          raw_data;
                        artifact_of dumps sha256
                          (stated_base image_ref ++ "@sha256:"
                           ++ hex (sha256 (dumps raw_data)))
                          raw_data])]), w1).
Proof.
  intros image_ref normalized raw_data media_type w w1 Hat Hparse Hraw Hmedia Hnot.
  rewrite (@add_container_oci_request image_ref normalized w Hat Hparse).
  unfold bind at 1, try_except. rewrite Hraw.
  unfold _calculate_size_and_hash.
  unfold bind at 1, lift at 1. rewrite Hmedia, Hnot.
  unfold bind at 1, lift at 1. rewrite add_to_rstuf_sha256.
  unfold lift. rewrite add_to_rstuf_sha256. reflexivity.
Qed.

(** X8.  When the request for the document fails, the command exits with
    status 1 whatever the exception, a [SystemExit] apart, which goes
    through; nothing else is asked of the registry. *)
Theorem registry_failure_exits :
  forall image_ref normalized e (w w1 : W),
    contains "@" image_ref = false ->
    _parse_container_url image_ref = Ok normalized ->
    get_raw_data normalized w = (Raise e, w1) ->
    add_container_oci get_raw_data get_manifest dumps sha256 py_str image_ref w
    = (Raise (if is_Exception e then SystemExit 1 else e), w1).
Proof.
  intros image_ref normalized e w w1 Hat Hparse Hraw.
  rewrite (@add_container_oci_request image_ref normalized w Hat Hparse).
  unfold bind at 1, try_except. rewrite Hraw.
  destruct (is_Exception e); reflexivity.
Qed.

(** X9.  The media type has no default: a document without the key
    [mediaType], or one that is not an object, ends the command with the
    error of the subscript, [KeyError] or [TypeError], and no payload. *)
Theorem document_without_media_type :
  forall image_ref normalized raw_data e (w w1 : W),
    contains "@" image_ref = false ->
    _parse_container_url image_ref = Ok normalized ->
    get_raw_data normalized w = (Ok raw_data, w1) ->
    Py.subscript raw_data "mediaType" = Raise e ->
    (e = KeyError \/ e = TypeError) /\
    add_container_oci get_raw_data get_manifest dumps sha256 py_str image_ref w
    = (Raise e, w1).
Proof.
  intros image_ref normalized raw_data e w w1 Hat Hparse Hraw Hmedia. split.
  - unfold Py.subscript in Hmedia.
    destruct raw_data as [| | | | |fields]; try (inversion Hmedia; auto; fail).
    destruct (Py.lookup "mediaType" fields); inversion Hmedia; auto.
  - rewrite (@add_container_oci_request image_ref normalized w Hat Hparse).
    unfold bind at 1, try_except. rewrite Hraw.
    unfold _calculate_size_and_hash.
    unfold bind at 1, lift at 1. rewrite Hmedia. reflexivity.
Qed.

End ContainerArtifacts.

Section ContainerArtifactsExamples.

Import PyStr Oras.

Lemma single_manifest_artifacts_witness :
  add_container_oci (example_registry_with (Ok example_manifest))
                    example_get_manifest example_dumps example_sha256
                    example_str "ghcr.io/acme/tool:1.0" 0%nat
  = (Ok (JObj [("artifacts",
                JArr [artifact "acme/tool:1.0" 5 "sha256" "696e646578";
                      artifact "acme/tool@sha256:696e646578" 5 "sha256"
                               "696e646578"])]), 1%nat).
Proof.
  exact (@single_manifest_artifacts nat
           (example_registry_with (Ok example_manifest)) example_get_manifest
           example_dumps example_sha256 example_str
           "ghcr.io/acme/tool:1.0" "ghcr.io/acme/tool:1.0" example_manifest
           (JStr "application/vnd.oci.image.manifest.v1+json") 0%nat 1%nat
           eq_refl eq_refl eq_refl eq_refl eq_refl).
Defined.

Lemma registry_failure_exits_witness :
  add_container_oci (example_registry_with (Raise (OtherException "ConnectionError")))
                    example_get_manifest example_dumps example_sha256
                    example_str "ghcr.io/acme/tool:1.0" 0%nat
  = (Raise (SystemExit 1), 1%nat).
Proof.
  exact (@registry_failure_exits nat
           (example_registry_with (Raise (OtherException "ConnectionError")))
           example_get_manifest example_dumps example_sha256 example_str
           "ghcr.io/acme/tool:1.0" "ghcr.io/acme/tool:1.0"
           (OtherException "ConnectionError") 0%nat 1%nat
           eq_refl eq_refl eq_refl).
Defined.

Lemma document_without_media_type_witness :
  add_container_oci
    (example_registry_with (Ok (JObj [("schemaVersion", JInt 2)])))
    example_get_manifest example_dumps example_sha256
    example_str "ghcr.io/acme/tool:1.0" 0%nat
  = (Raise KeyError, 1%nat).
Proof.
  exact (proj2 (@document_without_media_type nat
           (example_registry_with (Ok (JObj [("schemaVersion", JInt 2)])))
           example_get_manifest example_dumps example_sha256 example_str
           "ghcr.io/acme/tool:1.0" "ghcr.io/acme/tool:1.0"
           (JObj [("schemaVersion", JInt 2)]) KeyError 0%nat 1%nat
           eq_refl eq_refl eq_refl eq_refl)).
Defined.

End ContainerArtifactsExamples.

(** ** More on the digest of a local file *)

Section FileChunks.

Import PyStr.

Variable fs : string -> option string.
Variable hasher : Type.
Variable blake2b : nat -> hasher.
Variable update : hasher -> string -> hasher.
Variable hexdigest : hasher -> string.

Lemma take_length n s : String.length (take n s) = Nat.min n (String.length s).
Proof.
  revert s. induction n as [|n IH]; intros s; [reflexivity|].
  destruct s as [|a s]; [reflexivity|]. simpl. now rewrite IH.
Qed.

Lemma drop_length n s : String.length (drop n s) = (String.length s - n)%nat.
Proof.
  revert s. induction n as [|n IH]; intros s; simpl; [lia|].
  destruct s as [|a s]; [reflexivity|]. simpl. apply IH.
Qed.

(** The chunks [file.read(size)] delivers until the end of the file. *)
Lemma update_chunks_pieces size h data :
  (0 < size)%nat ->
  exists chunks,
    fold_right String.append EmptyString chunks = data /\
    Forall (fun chunk => 0 < String.length chunk <= size)%nat chunks /\
    Forall (fun chunk => String.length chunk = size) (removelast chunks) /\
    Cli.update_chunks update size h data = fold_left update chunks h.
Proof.
  intros Hsize.
  funelim (Cli.update_chunks update size h data).
  - exists []. destruct size as [|n]; [lia|].
    pose proof (take_empty _ _ e) as Hempty. rewrite Hempty.
    repeat split; constructor.
  - destruct (H Hsize) as (chunks & Hcat & Hlen & Hfull & Hfold).
    exists (String a chunk :: chunks).
    assert (Hchunk : String.length (String a chunk)
                     = Nat.min size (String.length unread)).
    { rewrite <- E. apply take_length. }
    split; [|split; [|split]].
    + cbn [fold_right]. rewrite Hcat, <- E. apply take_drop.
    + constructor; [|assumption]. rewrite Hchunk. cbn [String.length] in Hchunk. lia.
    + destruct chunks as [|c cs]; [constructor|].
      change (removelast (String a chunk :: c :: cs))
        with (String a chunk :: removelast (c :: cs)).
      constructor; [|assumption].
      rewrite Hchunk. apply Nat.min_l.
      apply (f_equal String.length) in Hcat. cbn [fold_right] in Hcat.
      rewrite length_append, drop_length in Hcat.
      inversion Hlen as [|? ? Hc _]; subst. lia.
    + cbn [fold_left]. exact Hfold.
Qed.

(** X10.  Whatever the hasher does with what it is fed, the digest of a
    file is the digest of a hasher of digest size 32 that was fed the
    bytes of the file, in order, in chunks that are never empty: each has
    8192 bytes but the last one, which has the bytes that are left. *)
Theorem file_is_hashed_in_chunks :
  forall filepath contents,
    fs filepath = Some contents ->
    exists chunks,
      fold_right String.append EmptyString chunks = contents /\
      Forall (fun chunk => 0 < String.length chunk <= 8 * 1024)%nat chunks /\
      Forall (fun chunk => String.length chunk = (8 * 1024)%nat) (removelast chunks) /\
      Cli.calculate_blake2b_256 fs blake2b update hexdigest filepath
      = Ok (hexdigest (fold_left update chunks (blake2b 32))).
Proof.
  intros filepath contents Hfile.
  assert (Hsize : (0 < 8 * 1024)%nat) by (apply Nat.mul_pos_pos; lia).
  destruct (update_chunks_pieces (blake2b 32) contents Hsize)
    as (chunks & Hcat & Hlen & Hfull & Hfold).
  exists chunks. unfold Cli.calculate_blake2b_256. rewrite Hfile, Hfold.
  auto.
Qed.

End FileChunks.

Section FileChunksExample.

Import PyStr.

Lemma file_is_hashed_in_chunks_witness :
  exists chunks,
    fold_right String.append EmptyString chunks = example_bytes example_size /\
    Forall (fun chunk => 0 < String.length chunk <= 8 * 1024)%nat chunks /\
    Forall (fun chunk => String.length chunk = (8 * 1024)%nat) (removelast chunks) /\
    Cli.calculate_blake2b_256 example_fs (fun _ => EmptyString) example_update
                              example_hexdigest "dist/tool-1.0.tar"
    = Ok (example_hexdigest (fold_left example_update chunks EmptyString)).
Proof.
  exact (@file_is_hashed_in_chunks example_fs string (fun _ => EmptyString)
           example_update example_hexdigest "dist/tool-1.0.tar"
           (example_bytes example_size) eq_refl).
Defined.

End FileChunksExample.

(** ** More on [artifact add] *)

Section AddCommand.

Import PyStr.

Variable fs : string -> option string.
Variable hasher : Type.
Variable blake2b : nat -> hasher.
Variable update : hasher -> string -> hasher.
Variable hexdigest : hasher -> string.
Variable W : Type.
Variable get_raw_data : string -> prog W json.
Variable get_manifest : string -> prog W json.
Variable dumps : json -> string.
Variable sha256 : string -> string.
Variable py_str : json -> string.
Variable api : json -> prog W string.

(** X11.  A run of [artifact add] sends at most one payload, and only one
    that was built without an error: either the run ends in an error and
    nothing was sent, or the payload was built, from the file when
    [--oci-image] is not set and the artifact is an existing file and
    from the registry otherwise, it is the one payload sent, and the
    outcome of the run is what the API made of it. *)
Theorem add_sends_only_what_was_built :
  forall (settings_server : option string) (artifact : string)
         (oci_image : bool) (path api_server : option string)
         (st : Add.State W),
    let run := Add.add fs blake2b update hexdigest get_raw_data get_manifest
                 dumps sha256 py_str api settings_server artifact oci_image
                 path api_server st in
    (exists e, fst run = Raise e /\ Add.sent (snd run) = Add.sent st) \/
    (exists payload w,
       (if negb oci_image && Cli.isfile fs artifact
        then (Cli.create_artifact_add_payload_from_filepath
                fs blake2b update hexdigest artifact path, Add.world st)
        else Oras.add_container_oci get_raw_data get_manifest dumps sha256
               py_str artifact (Add.world st))
       = (Ok payload, w) /\
       Add.sent (snd run) = Add.sent st ++ [payload] /\
       api payload w = (fst run, Add.world (snd run))).
Proof.
  intros settings_server artifact oci_image path api_server st. cbv zeta.
  unfold Add.add.
  destruct (match api_server with
            | Some s => if truthy s then Some s else settings_server
            | None => settings_server
            end) as [server|]; [|left; exists ClickException; auto].
  unfold bind. destruct (negb oci_image && Cli.isfile fs artifact).
  - unfold lift.
    destruct (Cli.create_artifact_add_payload_from_filepath
                fs blake2b update hexdigest artifact path) as [payload|e].
    + right. exists payload, (Add.world st). unfold Add.send_payload.
      cbn [Add.world Add.sent].
      destruct (api payload (Add.world st)) as [o w]. auto.
    + left. exists e. auto.
  - unfold Add.in_world.
    destruct (Oras.add_container_oci get_raw_data get_manifest dumps sha256
                py_str artifact (Add.world st)) as [[payload|e] w].
    + right. exists payload, w. unfold Add.send_payload.
      cbn [Add.world Add.sent].
      destruct (api payload w) as [o w']. auto.
    + left. exists e. auto.
Qed.

End AddCommand.

(** ** More on the fetcher *)

Section FetcherTransports.

Import PyStr Fetcher.

Variable W : Type.
Variable urlparse_scheme : string -> outcome string.
Variable requests_get : string -> prog W Response.
Variable get_raw_data : string -> prog W json.
Variable dumps : json -> string.

Lemma concat_filter_truthy chunks :
  fold_right String.append EmptyString (filter truthy chunks)
  = fold_right String.append EmptyString chunks.
Proof.
  induction chunks as [|c chunks IH]; [reflexivity|].
  destruct c as [|a c]; cbn [filter truthy fold_right]; [exact IH|].
  now rewrite IH.
Qed.

Lemma filter_truthy_nonempty chunks :
  Forall (fun chunk => chunk <> EmptyString) (filter truthy chunks).
Proof.
  induction chunks as [|c chunks IH]; [constructor|].
  destruct c as [|a c]; cbn [filter truthy]; [exact IH|].
  constructor; [discriminate | exact IH].
Qed.

(** X12.  What the fetcher yields for an HTTP or HTTPS URL answered with
    status 200 is the body of the answer: the chunks of the body in order
    without the empty ones, so that their concatenation is the body.  The
    fetch ends in an error only if the transfer breaks, and the fetcher
    is not marked as a registry fetcher. *)
Theorem fetch_http_yields_the_content :
  forall url scheme response (self : RSTUFFetcher W) w,
    urlparse_scheme url = Ok scheme ->
    is_http scheme = true ->
    requests_get url (world self) = (Ok response, w) ->
    status_code response = 200%Z ->
    let fetched :=
      _fetch urlparse_scheme requests_get get_raw_data dumps url self in
    fold_right String.append EmptyString (yielded (fst fetched))
    = fold_right String.append EmptyString (iter_content response) /\
    Forall (fun chunk => chunk <> EmptyString) (yielded (fst fetched)) /\
    raised (fst fetched) = option_map (@http_except) (broken response) /\
    snd fetched = mkFetcher w (oci_registry self).
Proof.
  intros url scheme response self w Hscheme Hhttp Hget Hstatus. cbv zeta.
  unfold _fetch. rewrite Hscheme. unfold is_http in Hhttp. rewrite Hhttp, Hget.
  rewrite Hstatus. cbn [Z.eqb negb fst snd yielded raised].
  split; [apply concat_filter_truthy|].
  split; [apply filter_truthy_nonempty|]. auto.
Qed.

(** X13.  An HTTP or HTTPS URL is fetched with [requests] alone: the
    registry client and the serializer play no part in the fetch, and the
    attribute [oci_registry] of the fetcher is left as it was. *)
Theorem fetch_http_leaves_the_registry_alone :
  forall url scheme (self : RSTUFFetcher W)
         (other_registry : string -> prog W json) (other_dumps : json -> string),
    urlparse_scheme url = Ok scheme ->
    is_http scheme = true ->
    _fetch urlparse_scheme requests_get get_raw_data dumps url self
    = _fetch urlparse_scheme requests_get other_registry other_dumps url self /\
    oci_registry
      (snd (_fetch urlparse_scheme requests_get get_raw_data dumps url self))
    = oci_registry self.
Proof.
  intros url scheme self other_registry other_dumps Hscheme Hhttp.
  unfold _fetch. rewrite Hscheme. unfold is_http in Hhttp. rewrite Hhttp.
  split; [reflexivity|].
  destruct (requests_get url (world self)) as [[response|e] w]; [|reflexivity].
  destruct (negb (Z.eqb (status_code response) 200)); reflexivity.
Qed.

(** X14.  Any other URL is fetched from the registry alone: [requests]
    plays no part, and the fetcher is marked as a registry fetcher
    whether the fetch succeeds or not.  Such a fetch yields at most one
    chunk, the serialized document of the registry, and then ends
    without an error. *)
Theorem fetch_oci_marks_the_fetcher :
  forall url scheme (self : RSTUFFetcher W)
         (other_requests : string -> prog W Response),
    urlparse_scheme url = Ok scheme ->
    is_http scheme = false ->
    let fetched :=
      _fetch urlparse_scheme requests_get get_raw_data dumps url self in
    fetched = _fetch urlparse_scheme other_requests get_raw_data dumps url self /\
    oci_registry (snd fetched) = true /\
    (yielded (fst fetched) = [] \/
     exists raw_data w,
       get_raw_data url (world self) = (Ok raw_data, w) /\
       yielded (fst fetched) = [dumps raw_data] /\
       raised (fst fetched) = None).
Proof.
  intros url scheme self other_requests Hscheme Hhttp. cbv zeta.
  unfold _fetch. rewrite Hscheme. unfold is_http in Hhttp. rewrite Hhttp.
  split; [reflexivity|].
  destruct (negb (contains ":" url) && negb (contains "@" url)).
  - split; [reflexivity | left; reflexivity].
  - cbn [world].
    destruct (get_raw_data url (world self)) as [[raw_data|e] w].
    + split; [reflexivity|]. right. exists raw_data, w. auto.
    + split; [reflexivity | left; reflexivity].
Qed.

End FetcherTransports.

Section FetcherTransportsExamples.

Import PyStr Fetcher.

Lemma fetch_http_yields_the_content_witness :
  let fetched :=
    _fetch urlsplit_scheme example_requests_get example_registry
           example_serialize "https://tuf.example.com/1.root.json"
           (mkFetcher tt false) in
  fold_right String.append EmptyString (yielded (fst fetched))
  = "signedmetadata" /\
  Forall (fun chunk => chunk <> EmptyString) (yielded (fst fetched)) /\
  raised (fst fetched) = None /\
  snd fetched = mkFetcher tt false.
Proof.
  exact (@fetch_http_yields_the_content unit urlsplit_scheme
           example_requests_get example_registry example_serialize
           "https://tuf.example.com/1.root.json" "https"
           (mkResponse 200 ["signed"; EmptyString; "metadata"] None)
           (mkFetcher tt false) tt eq_refl eq_refl eq_refl eq_refl).
Defined.

Lemma fetch_http_leaves_the_registry_alone_witness :
  oci_registry
    (snd (_fetch urlsplit_scheme example_requests_get example_registry
            example_serialize "https://tuf.example.com/1.root.json"
            (mkFetcher tt false)))
  = false.
Proof.
  exact (proj2 (@fetch_http_leaves_the_registry_alone unit urlsplit_scheme
                  example_requests_get example_registry example_serialize
                  "https://tuf.example.com/1.root.json" "https"
                  (mkFetcher tt false) example_registry example_serialize
                  eq_refl eq_refl)).
Defined.

Lemma fetch_oci_marks_the_fetcher_witness :
  oci_registry
    (snd (_fetch urlsplit_scheme example_requests_get example_registry
            example_serialize "ghcr.io/acme/tool:1.0" (mkFetcher tt false)))
  = true.
Proof.
  exact (proj1 (proj2 (@fetch_oci_marks_the_fetcher unit urlsplit_scheme
                  example_requests_get example_registry example_serialize
                  "ghcr.io/acme/tool:1.0" EmptyString
                  (mkFetcher tt false) example_requests_get
                  eq_refl eq_refl))).
Defined.

End FetcherTransportsExamples.

(** ** More on [metadata new] *)

Section NewCommand.

Variable Delegations : Type.
Variable Delegations_to_dict : Delegations -> json.
Variable W : Type.
Variable _configure_delegations : prog W Delegations.

(** X15.  However it is called, [metadata new] writes nothing: with
    [--out] it ends before the dump, and without [--out] there is no
    dump.  The delegations are asked for only without [--out], and only
    when a server is configured or [--dry-run] is set. *)
Theorem new_never_writes :
  forall (SERVER out : option string) (dry_run : bool) (st : New.State W),
    let run := New.new Delegations_to_dict _configure_delegations SERVER out
                 dry_run st in
    New.written (snd run) = New.written st /\
    (New.world (snd run) <> New.world st ->
     out = None /\ (SERVER <> None \/ dry_run = true) /\
     (fst run, New.world (snd run)) = _configure_delegations (New.world st)).
Proof.
  intros SERVER out dry_run st. cbv zeta. unfold New.new.
  destruct (match SERVER with None => true | Some _ => false end && negb dry_run)
    eqn:Hguard.
  - split; [reflexivity|]. intros H. now contradiction H.
  - destruct out as [out|].
    + split; [reflexivity|]. intros H. now contradiction H.
    + unfold bind, ret, New.in_world.
      destruct (_configure_delegations (New.world st)) as [[d|e] w];
        cbn [fst snd New.written New.world];
        (split; [reflexivity|]); intros _;
        (split; [reflexivity|]); (split; [|reflexivity]);
        (destruct SERVER; [left; discriminate|]);
        (destruct dry_run; [right; reflexivity | discriminate]).
Qed.

End NewCommand.

Section PendingRoles.

Import Pending.

Variable W : Type.
Variable request_server : prog W Ceremony.Response.

Lemma parse_pending_data_Ok resp roles :
  _parse_pending_data resp = Ok roles <->
  exists data,
    Py.subscript resp "data" = Ok data /\
    Py.subscript data "metadata" = Ok roles /\
    len_is_zero roles = Ok false.
Proof.
  unfold _parse_pending_data, Py.get, Py.get_default, Py.subscript. split.
  - destruct resp as [| | | | |fields]; try discriminate.
    destruct (Py.lookup "data" fields) as [data|]; [|discriminate].
    cbn [obind]. destruct data as [| | | | |inner]; try discriminate.
    cbn [Py.is_None]. destruct (Py.lookup "metadata" inner) as [m|] eqn:Hm.
    + cbn [obind]. destruct (len_is_zero m) as [[|]|e] eqn:Hlen;
        cbn [obind]; try discriminate.
      intros H. inversion H; subst m.
      exists (JObj inner). rewrite Hm. auto.
    + cbn. discriminate.
  - intros (data & Hdata & Hmeta & Hlen).
    destruct resp as [| | | | |fields]; try discriminate.
    destruct (Py.lookup "data" fields) as [data'|]; [|discriminate].
    inversion Hdata; subst data'. cbn [obind].
    destruct data as [| | | | |inner]; try discriminate.
    cbn [Py.is_None]. destruct (Py.lookup "metadata" inner) as [m|]; [|discriminate].
    inversion Hmeta; subst m. cbn [obind]. rewrite Hlen. reflexivity.
Qed.

(** X16.  [_get_pending_roles] returns roles in one case only: the server
    answers with status 200 and an object whose [data] holds under
    [metadata] a value that is not empty, and this value is what is
    returned.  An answer with another status, without [data], without
    [metadata] or with nothing in it is an error. *)
Theorem pending_roles_returned :
  forall (w w' : W) (roles : json),
    _get_pending_roles request_server w = (Ok roles, w') <->
    exists response data,
      request_server w = (Ok response, w') /\
      Ceremony.status_code response = 200%Z /\
      Py.lookup "data" (Ceremony.body response) = Some data /\
      Py.subscript data "metadata" = Ok roles /\
      len_is_zero roles = Ok false.
Proof.
  intros w w' roles. unfold _get_pending_roles, bind. split.
  - destruct (request_server w) as [[response|e] w1]; [|discriminate].
    destruct (Z.eqb (Ceremony.status_code response) 200) eqn:Hstatus;
      cbn [negb]; [|discriminate].
    unfold lift. intros H. injection H as Hparse Hw. subst w1.
    apply parse_pending_data_Ok in Hparse.
    destruct Hparse as (data & Hdata & Hmeta & Hlen).
    exists response, data. apply Z.eqb_eq in Hstatus.
    cbn [Py.subscript] in Hdata.
    destruct (Py.lookup "data" (Ceremony.body response)) as [data'|];
      [|discriminate].
    inversion Hdata; subst data'. auto.
  - intros (response & data & Hrequest & Hstatus & Hdata & Hmeta & Hlen).
    rewrite Hrequest, Hstatus. change (negb (200 =? 200)%Z) with false.
    cbv iota. unfold lift. f_equal.
    apply parse_pending_data_Ok. exists data. cbn [Py.subscript].
    rewrite Hdata. auto.
Qed.

End PendingRoles.

(** ** More on the ceremony *)

Section CeremonySettings.

Import PyStr Ceremony.
Local Open Scope prog_scope.

Lemma endswith_slash url :
  endswith "/" (if negb (endswith "/" url) then (url ++ "/")%string else url) = true.
Proof.
  destruct (endswith "/" url) eqn:E; cbn [negb]; [exact E|].
  clear E. induction url as [|a url IH]; [reflexivity|].
  cbn [String.append endswith].
  destruct (url ++ "/")%string eqn:E; [destruct url; discriminate | exact IH].
Qed.

Lemma reworks_same r st st' :
  SETTINGS st' = SETTINGS st -> reworks r (fun role => role) st st'.
Proof.
  intros H r'. rewrite H. destruct (item (roles (SETTINGS st)) r'); [|reflexivity].
  now destruct (String.eqb r' r).
Qed.

Lemma reworks_trans r f g a b c :
  reworks r f a b -> reworks r g b c -> reworks r (fun role => g (f role)) a c.
Proof.
  intros H1 H2 r'. rewrite H2, H1.
  destruct (item (roles (SETTINGS a)) r'); [|reflexivity].
  now destruct (String.eqb r' r).
Qed.

Lemma reworks_ext r f g a b :
  (forall role, f role = g role) -> reworks r f a b -> reworks r g a b.
Proof.
  intros Hfg H r'. rewrite H.
  destruct (item (roles (SETTINGS a)) r'); [|reflexivity].
  destruct (String.eqb r' r); [now rewrite Hfg | reflexivity].
Qed.

Lemma log_settings e st u st' :
  log e st = (Ok u, st') -> SETTINGS st' = SETTINGS st.
Proof. unfold log. intros H. now inversion H. Qed.

Lemma IntPrompt_ask_settings st z st' :
  IntPrompt_ask st = (Ok z, st') -> SETTINGS st' = SETTINGS st.
Proof.
  unfold IntPrompt_ask. destruct (ints st); intros H; now inversion H.
Qed.

Lemma Confirm_ask_settings st b st' :
  Confirm_ask st = (Ok b, st') -> SETTINGS st' = SETTINGS st.
Proof.
  unfold Confirm_ask. destruct (confirms st); intros H; now inversion H.
Qed.

Lemma ask_text_settings at_end st s st' :
  ask_text at_end st = (Ok s, st') -> SETTINGS st' = SETTINGS st.
Proof.
  unfold ask_text. destruct (texts st); intros H; now inversion H.
Qed.

Lemma request_server_settings st r st' :
  request_server st = (Ok r, st') -> SETTINGS st' = SETTINGS st.
Proof.
  unfold request_server. destruct (server st) as [|[r0|e] rest];
    intros H; now inversion H.
Qed.

Lemma modify_role_settings rolename f st u st' :
  modify_role rolename f st = (Ok u, st') ->
  reworks rolename f st st' /\
  service (SETTINGS st') = service (SETTINGS st).
Proof.
  unfold modify_role, bind, get_SETTINGS, set_SETTINGS. intros H.
  inversion H; subst. split; [|reflexivity].
  intros r'. cbn [SETTINGS roles]. apply item_update_item.
Qed.

End CeremonySettings.

(** Turns the run of a primitive into what it does to [SETTINGS]. *)
Ltac keeps H :=
  lazymatch type of H with
  | Ceremony.log _ _ = _ => apply log_settings in H
  | Ceremony.IntPrompt_ask _ = _ => apply IntPrompt_ask_settings in H
  | Ceremony.Confirm_ask _ = _ => apply Confirm_ask_settings in H
  | Ceremony.click_prompt _ = _ => apply ask_text_settings in H
  | Ceremony.Prompt_ask _ = _ => apply ask_text_settings in H
  | Ceremony.request_server _ = _ => apply request_server_settings in H
  | Ceremony.get_role _ _ = _ => apply get_role_Ok in H; destruct H as [H ->]
  | Ceremony.get_SETTINGS _ = _ => apply get_SETTINGS_Ok in H; destruct H as [H ->]
  | Ceremony.role_names _ = _ => apply role_names_Ok in H; destruct H as [H ->]
  | lift _ _ = _ => apply lift_Ok in H; destruct H as [H ->]
  | ret _ _ = _ => apply ret_Ok in H; destruct H as [H ->]
  | Ceremony.modify_role _ _ _ = _ => apply modify_role_settings in H
  end.

Section DuplicatedKeys.

Import PyStr Ceremony.

Lemma eq_None key : Py.is_None key = false -> Py.eq key JNull = false.
Proof. destruct key; cbn; congruence. Qed.

Lemma any_key_loaded key (entries : list (string * json)) :
  Forall loaded (map snd entries) ->
  any_key_with "key" key entries
  = Ok (existsb (fun entry => Py.eq key (entry_key entry)) (map snd entries)).
Proof.
  induction entries as [|[n entry] entries IH]; intros Hall; [reflexivity|].
  cbn [map snd] in Hall. inversion Hall as [|? ? Hentry Hrest]; subst.
  destruct Hentry as (f & p & k & ->).
  cbn [any_key_with existsb map snd]. unfold entry_key at 1.
  cbn [Py.get Py.get_default Py.lookup String.eqb Ascii.eqb Bool.eqb obind
       Py.truthy].
  rewrite andb_true_r. destruct (Py.eq key k); [reflexivity|].
  cbn [orb]. apply IH. exact Hrest.
Qed.

Lemma any_path_loaded key (entries : list (string * json)) :
  Forall loaded (map snd entries) ->
  Py.is_None key = false ->
  any_key_with "path" key entries = Ok false.
Proof.
  intros Hall Hkey.
  induction entries as [|[n entry] entries IH]; [reflexivity|].
  cbn [map snd] in Hall. inversion Hall as [|? ? Hentry Hrest]; subst.
  destruct Hentry as (f & p & k & ->).
  cbn [any_key_with].
  cbn [Py.get Py.get_default Py.lookup String.eqb Ascii.eqb Bool.eqb obind].
  rewrite (eq_None _ Hkey). cbn [andb]. apply IH. exact Hrest.
Qed.

Lemma key_is_duplicated_held roles key :
  all_loaded roles ->
  Py.is_None key = false ->
  _key_is_duplicated roles key = Ok (held roles key).
Proof.
  unfold all_loaded, held. intros Hall Hkey.
  induction roles as [|[r role] roles IH]; [reflexivity|].
  cbn [all_entries flat_map snd] in *. apply Forall_app in Hall.
  destruct Hall as [Hrole Hrest]. rewrite existsb_app.
  cbn [_key_is_duplicated].
  rewrite (@any_key_loaded key (keys role) Hrole). cbn [obind].
  destruct (existsb _ (map snd (keys role))); [reflexivity|].
  rewrite (@any_path_loaded key (keys role) Hrole Hkey). cbn [obind orb].
  apply IH. exact Hrest.
Qed.

(** X17.  On the entries the ceremony stores, and for a key that is not
    [None], [_key_is_duplicated] never fails, and its answer is [True]
    exactly when some role holds an entry with an equal key: the second
    test of the function, on the path of the entries, never ends the
    search, as the stored entries have no path. *)
Theorem key_is_duplicated_when_held :
  forall (roles : list (string * RolesKeysInput)) (key : json),
    all_loaded roles ->
    Py.is_None key = false ->
    exists answer,
      _key_is_duplicated roles key = Ok answer /\
      (answer = true <->
       exists entry,
         In entry (all_entries roles) /\ Py.eq key (entry_key entry) = true).
Proof.
  intros roles key Hall Hkey. exists (held roles key).
  split; [now apply key_is_duplicated_held|].
  unfold held. apply existsb_exists.
Qed.

End DuplicatedKeys.

Section DuplicatedKeysExample.

Import PyStr Ceremony.

Lemma example_roles_loaded : all_loaded example_roles.
Proof.
  repeat constructor. exists "root1", "pw", (JObj [("keyid", JStr "k1")]).
  reflexivity.
Qed.

Lemma key_is_duplicated_when_held_witness :
  exists answer,
    _key_is_duplicated example_roles (JObj [("keyid", JStr "k1")]) = Ok answer /\
    (answer = true <->
     exists entry,
       In entry (all_entries example_roles) /\
       Py.eq (JObj [("keyid", JStr "k1")]) (entry_key entry) = true).
Proof.
  exact (@key_is_duplicated_when_held example_roles
           (JObj [("keyid", JStr "k1")]) example_roles_loaded eq_refl).
Defined.

End DuplicatedKeysExample.

Section KeyEntries.

Import PyStr Ceremony.

Lemma different_sym a b : different a b -> different b a.
Proof. unfold different. tauto. Qed.

Lemma pairs_remove {A} (R : A -> A -> Prop) p x q :
  ForallOrdPairs R (p ++ x :: q) -> ForallOrdPairs R (p ++ q).
Proof.
  induction p as [|a p IH]; cbn; intros H;
    inversion H as [|? ? Hall Hrest]; subst; [assumption|].
  constructor; [|auto].
  apply Forall_app in Hall. destruct Hall as [Hp Hq].
  inversion Hq; subst. apply Forall_app. auto.
Qed.

Lemma pairs_insert {A} (R : A -> A -> Prop) p k q :
  (forall a b, R a b -> R b a) ->
  ForallOrdPairs R (p ++ q) -> Forall (R k) (p ++ q) ->
  ForallOrdPairs R (p ++ k :: q).
Proof.
  intros Hsym. induction p as [|a p IH]; cbn; intros H Hk.
  - constructor; assumption.
  - inversion H as [|? ? Hall Hrest]; subst.
    inversion Hk as [|? ? Hka Hkrest]; subst.
    constructor; [|auto].
    apply Forall_app in Hall. destruct Hall as [Hp Hq].
    apply Forall_app. split; [assumption|]. constructor; auto.
Qed.

Lemma no_key_twice_remove p block q :
  no_key_twice (p ++ block ++ q) -> no_key_twice (p ++ q).
Proof.
  unfold no_key_twice. induction block as [|x block IH]; [trivial|].
  intros H. apply IH. cbn [app] in H. rewrite map_app in H. cbn [map] in H.
  apply pairs_remove in H. now rewrite map_app.
Qed.

Lemma no_key_twice_insert p entry q :
  no_key_twice (p ++ q) ->
  Forall (fun other => different (entry_key entry) (entry_key other)) (p ++ q) ->
  no_key_twice (p ++ entry :: q).
Proof.
  unfold no_key_twice. intros H Hall. rewrite map_app in *. cbn [map].
  apply pairs_insert; [apply different_sym | exact H|].
  rewrite <- map_app. apply Forall_map. exact Hall.
Qed.

Lemma all_entries_app rs1 rs2 :
  all_entries (rs1 ++ rs2) = all_entries rs1 ++ all_entries rs2.
Proof. apply flat_map_app. Qed.

Lemma all_entries_cons r role rs :
  all_entries ((r, role) :: rs) = map snd (keys role) ++ all_entries rs.
Proof. reflexivity. Qed.

(** What an assignment to a role does to the list of roles. *)
Lemma update_item_split {A} r (rs : list (string * A)) :
  (forall f, update_item r f rs = rs) \/
  exists rs1 v rs2,
    rs = rs1 ++ (r, v) :: rs2 /\
    forall f, update_item r f rs = rs1 ++ (r, f v) :: rs2.
Proof.
  induction rs as [|[k v] rs IH]; [left; reflexivity|].
  cbn [update_item]. destruct (String.eqb r k) eqn:E.
  - right. apply String.eqb_eq in E. subst k. exists [], v, rs.
    split; reflexivity.
  - destruct IH as [IH | (rs1 & v' & rs2 & -> & IH)].
    + left. intros f. now rewrite IH.
    + right. exists ((k, v) :: rs1), v', rs2. split; [reflexivity|].
      intros f. now rewrite IH.
Qed.

(** What [d[k] = v] does to the list of entries. *)
Lemma set_item_split n v (ks : list (string * json)) :
  Py.set_item n v ks = ks ++ [(n, v)] \/
  exists k1 v0 k2,
    ks = k1 ++ (n, v0) :: k2 /\ Py.set_item n v ks = k1 ++ (n, v) :: k2.
Proof.
  induction ks as [|[k v0] ks IH]; [left; reflexivity|].
  cbn [Py.set_item]. destruct (String.eqb n k) eqn:E.
  - right. apply String.eqb_eq in E. subst k. exists [], v0, ks.
    split; reflexivity.
  - destruct IH as [-> | (k1 & v1 & k2 & -> & ->)].
    + left. reflexivity.
    + right. exists ((k, v0) :: k1), v1, k2. split; reflexivity.
Qed.

Lemma distinct_keys_same r f rs :
  (forall role, keys (f role) = keys role) ->
  distinct_keys rs -> distinct_keys (update_item r f rs).
Proof.
  intros Hf H. destruct (update_item_split r rs) as [-> | (rs1 & v & rs2 & -> & ->)];
    [exact H|].
  unfold distinct_keys, all_loaded in *.
  rewrite all_entries_app, all_entries_cons in *.
  now rewrite Hf.
Qed.

Lemma distinct_keys_clear r f rs :
  (forall role, keys (f role) = []) ->
  distinct_keys rs -> distinct_keys (update_item r f rs).
Proof.
  intros Hf [Hall Hpairs].
  destruct (update_item_split r rs) as [-> | (rs1 & v & rs2 & -> & ->)];
    [split; assumption|].
  unfold distinct_keys, all_loaded in *.
  rewrite all_entries_app, all_entries_cons in *.
  rewrite Hf. cbn [map app]. split.
  - apply Forall_app in Hall. destruct Hall as [H1 H2].
    apply Forall_app in H2. destruct H2 as [_ H2]. apply Forall_app. auto.
  - eapply no_key_twice_remove. exact Hpairs.
Qed.

Lemma held_different rs key :
  Py.is_None key = true \/ held rs key = false ->
  Forall (fun other => different key (entry_key other)) (all_entries rs).
Proof.
  unfold held. intros H. apply Forall_forall. intros other Hin.
  destruct H as [H | H]; [left; exact H|].
  right. right. left.
  destruct (Py.eq key (entry_key other)) eqn:E; [|reflexivity].
  assert (Hex : existsb (fun entry => Py.eq key (entry_key entry))
                        (all_entries rs) = true).
  { apply existsb_exists. exists other. auto. }
  congruence.
Qed.

Lemma distinct_keys_insert r n filename password key rs :
  Py.is_None key = true \/ held rs key = false ->
  distinct_keys rs ->
  distinct_keys
    (update_item r
       (fun role =>
          with_keys (Py.set_item n (JObj [("filename", JStr filename);
                                          ("password", JStr password);
                                          ("key", key)])
                                 (keys role)) role) rs).
Proof.
  intros Hkey [Hall Hpairs]. apply held_different in Hkey.
  destruct (update_item_split r rs) as [-> | (rs1 & v & rs2 & -> & ->)];
    [split; assumption|].
  unfold distinct_keys, all_loaded in *.
  rewrite all_entries_app, all_entries_cons in *.
  destruct v as [e m t ks o h]. cbn [keys with_keys] in *.
  assert (Hloaded : loaded (JObj [("filename", JStr filename);
                                  ("password", JStr password); ("key", key)]))
    by (exists filename, password, key; reflexivity).
  destruct (set_item_split n (JObj [("filename", JStr filename);
                                    ("password", JStr password); ("key", key)]) ks)
    as [-> | (k1 & v0 & k2 & -> & ->)].
  - rewrite map_app. cbn [map snd].
    replace (all_entries rs1 ++ (map snd ks ++ [JObj [("filename", JStr filename);
                                                       ("password", JStr password);
                                                       ("key", key)]])
             ++ all_entries rs2)
      with ((all_entries rs1 ++ map snd ks)
            ++ JObj [("filename", JStr filename); ("password", JStr password);
                     ("key", key)] :: all_entries rs2)
      by (now rewrite <- !app_assoc).
    rewrite app_assoc in Hall, Hpairs, Hkey. split.
    + apply Forall_app in Hall. destruct Hall as [H1 H2].
      apply Forall_app. split; [assumption|]. constructor; assumption.
    + apply no_key_twice_insert; assumption.
  - rewrite !map_app in *. cbn [map snd] in *.
    assert (E : forall x,
               all_entries rs1 ++ (map snd k1 ++ x :: map snd k2) ++ all_entries rs2
               = (all_entries rs1 ++ map snd k1)
                 ++ x :: (map snd k2 ++ all_entries rs2)).
    { intros x. rewrite <- !app_assoc. reflexivity. }
    rewrite E in *. split.
    + apply Forall_app in Hall. destruct Hall as [H1 H2]. inversion H2; subst.
      apply Forall_app. split; [assumption|]. constructor; assumption.
    + apply no_key_twice_insert.
      * unfold no_key_twice in *. rewrite map_app in *. cbn [map] in Hpairs.
        eapply pairs_remove. exact Hpairs.
      * apply Forall_app in Hkey. destruct Hkey as [H1 H2]. inversion H2; subst.
        apply Forall_app. auto.
Qed.

Lemma item_of_In {A} (d : list (string * A)) k v :
  NoDup (map fst d) -> In (k, v) d -> item d k = Ok v.
Proof.
  induction d as [|[k' v'] d IH]; cbn; intros Hnd Hin; [destruct Hin|].
  inversion Hnd as [|? ? Hnot Hrest]; subst.
  destruct Hin as [Heq | Hin].
  - inversion Heq; subst. now rewrite String.eqb_refl.
  - destruct (String.eqb k k') eqn:E.
    + apply String.eqb_eq in E. subst k'. exfalso. apply Hnot.
      apply in_map_iff. exists (k, v). auto.
    + auto.
Qed.

Lemma keyless_distinct rs :
  NoDup (map fst rs) ->
  (forall r role, item rs r = Ok role -> keyless role) ->
  distinct_keys rs.
Proof.
  intros Hnd Hall.
  assert (Hnone : all_entries rs = []).
  { assert (Hin : forall r role, In (r, role) rs -> keys role = []).
    { intros r role Hin. apply (Hall r). now apply item_of_In. }
    clear Hall Hnd. induction rs as [|[r role] rs IH]; [reflexivity|].
    rewrite all_entries_cons, (Hin r role (or_introl eq_refl)).
    cbn [map app]. apply IH. intros r' role' H. eapply Hin. right. exact H. }
  unfold distinct_keys, all_loaded, no_key_twice. rewrite Hnone.
  split; constructor.
Qed.

Local Open Scope prog_scope.

Lemma modify_role_roles rolename f st u st' :
  modify_role rolename f st = (Ok u, st') ->
  roles (SETTINGS st') = update_item rolename f (roles (SETTINGS st)).
Proof.
  unfold modify_role, bind, get_SETTINGS, set_SETTINGS. intros H.
  now inversion H.
Qed.

Lemma distinct_settings st st' :
  SETTINGS st' = SETTINGS st ->
  distinct_keys (roles (SETTINGS st)) -> distinct_keys (roles (SETTINGS st')).
Proof. now intros ->. Qed.

Lemma modify_same_distinct rolename f st u st' :
  modify_role rolename f st = (Ok u, st') ->
  (forall role, keys (f role) = keys role) ->
  distinct_keys (roles (SETTINGS st)) -> distinct_keys (roles (SETTINGS st')).
Proof.
  intros H Hf D. rewrite (modify_role_roles H).
  now apply distinct_keys_same.
Qed.

Lemma modify_clear_distinct rolename f st u st' :
  modify_role rolename f st = (Ok u, st') ->
  (forall role, keys (f role) = []) ->
  distinct_keys (roles (SETTINGS st)) -> distinct_keys (roles (SETTINGS st')).
Proof.
  intros H Hf D. rewrite (modify_role_roles H).
  now apply distinct_keys_clear.
Qed.

Lemma modify_insert_distinct rolename n filename password key st u st' :
  modify_role rolename
    (fun role =>
       with_keys (Py.set_item n (JObj [("filename", JStr filename);
                                       ("password", JStr password);
                                       ("key", key)])
                              (keys role)) role) st = (Ok u, st') ->
  Py.is_None key = true \/ held (roles (SETTINGS st)) key = false ->
  distinct_keys (roles (SETTINGS st)) -> distinct_keys (roles (SETTINGS st')).
Proof.
  intros H Hkey D. rewrite (modify_role_roles H).
  now apply distinct_keys_insert.
Qed.

End KeyEntries.

(** Takes the fact [D] that the keys are distinct over a step that returns. *)
Ltac onward H D :=
  lazymatch type of H with
  | Ceremony.modify_role _ (Ceremony.with_keys []) _ = _ =>
      apply (modify_clear_distinct H) in D; [|intros []; reflexivity]
  | Ceremony.modify_role _ _ _ = _ =>
      apply (modify_same_distinct H) in D; [|intros []; reflexivity]
  | Ceremony.get_role _ _ = _ => keeps H
  | Ceremony.get_SETTINGS _ = _ => keeps H
  | Ceremony.role_names _ = _ => keeps H
  | lift _ _ = _ => keeps H
  | ret _ _ = _ => keeps H
  | _ => keeps H; apply (@distinct_settings _ _ H) in D
  end.

(** Chains what the steps in the context do to the roles. *)
Ltac reworked :=
  first [ eassumption
        | apply reworks_same; eassumption
        | eapply reworks_trans;
          [first [eassumption | apply reworks_same; eassumption] | reworked] ].

Ltac conjuncts :=
  repeat match goal with
         | H : reworks _ _ _ _ /\ _ |- _ => destruct H
         end.

(** The first step of a run, however it ends. *)
Tactic Notation "run" hyp(H) "as" ident(a) ident(e) ident(s) ident(Ha) :=
  match type of H with
  | bind ?m ?f ?st = _ =>
      change (bind m f st)
        with (match m st with
              | (Ok x, s') => f x s'
              | (Raise x, s') => (Raise x, s')
              end) in H;
      destruct (m st) as [[a|e] s] eqn:Ha
  end.

(** The first step of a run that returns, with names for its result, the
    state it leaves and the fact that it returns. *)
Tactic Notation "step" hyp(H) "as" ident(a) ident(s) ident(Hs) :=
  apply bind_Ok in H; destruct H as (a & s & Hs & H).

Section CeremonyRoles.

Import PyStr Ceremony.
Local Open Scope prog_scope.

Variable Metadata : Type.
Variable env : Env Metadata.

Lemma configure_role_settings rolename st u st' :
  _configure_role rolename st = (Ok u, st') ->
  exists f,
    reworks rolename f st st' /\
    (forall role, keys (f role) = [] /\
                  (num_of_keys (f role) <= 1 -> threshold (f role) = 1)%Z) /\
    (if String.eqb rolename (value TARGETS) then slashed st'
     else service (SETTINGS st') = service (SETTINGS st)).
Proof.
  unfold _configure_role. intros H.
  unbind H. keeps Hstep.
  unbind H. keeps Hstep0.
  unbind H. keeps Hstep1.
  unbind H. keeps Hstep2.
  unbind H. keeps Hstep3.
  unbind H. keeps Hstep4.
  unbind H. keeps Hstep5.
  unbind H. keeps Hstep6.
  unbind H. keeps Hstep7.
  unbind H.
  assert (Hthreshold :
            exists t, (reworks rolename (with_threshold t) s6 s7 /\
                       service (SETTINGS s7) = service (SETTINGS s6)) /\
                      (a6 <= 1 -> t = 1)%Z).
  { destruct (Z.ltb_spec 1 a6) as [E|E].
    - unbind Hstep8. keeps Hstep9. keeps Hstep8. destruct Hstep8 as [R V].
      eexists. split; [split|].
      + eapply reworks_ext; [|reworked]. reflexivity.
      + congruence.
      + lia.
    - keeps Hstep8. exists 1%Z. auto. }
  clear Hstep8. destruct Hthreshold as (t & Hth & Ht).
  destruct (String.eqb rolename (value TARGETS)).
  - unbind H. keeps Hstep8.
    unbind H. keeps Hstep9.
    unbind H. keeps Hstep10.
    unbind H. keeps Hstep11.
    unbind H. keeps Hstep12.
    unfold set_SETTINGS in H. inversion H; subst st'. clear H.
    conjuncts. subst a13.
    assert (R : exists f, reworks rolename f st s11 /\
                          forall role, keys (f role) = [] /\
                            (num_of_keys (f role) <= 1 -> threshold (f role) = 1)%Z).
    { eexists. split; [reworked|]. intros [e n th k o h]. cbn. auto. }
    destruct R as (f & R & Hf). exists f. split; [|split].
    + intros r'. cbn [SETTINGS roles]. apply R.
    + exact Hf.
    + unfold slashed. cbn [SETTINGS service targets_base_url].
      apply endswith_slash.
  - keeps H. conjuncts. eexists. split; [|split].
    + reworked.
    + intros [e n th k o h]. cbn. auto.
    + congruence.
Qed.

Lemma reworks_from r f s st st' :
  SETTINGS s = SETTINGS st -> reworks r f s st' -> reworks r f st st'.
Proof.
  intros HS H r'. rewrite H, HS. reflexivity.
Qed.

Lemma set_item_length k v (d : list (string * json)) :
  List.length (Py.set_item k v d) = List.length d \/
  List.length (Py.set_item k v d) = S (List.length d).
Proof.
  induction d as [|[k' v'] d IH]; [right; reflexivity|].
  cbn [Py.set_item]. destruct (String.eqb k k'); [left; reflexivity|].
  cbn [List.length]. destruct IH as [-> | ->]; auto.
Qed.

Lemma configure_keys_loop_settings rounds :
  forall rolename key_count st u st',
    configure_keys_loop env rounds rolename key_count st = (Ok u, st') ->
    service (SETTINGS st') = service (SETTINGS st) /\
    exists role ks,
      item (roles (SETTINGS st)) rolename = Ok role /\
      reworks rolename (with_keys ks) st st' /\
      Z.of_nat (List.length ks)
      = Z.max (Z.of_nat (List.length (keys role))) (num_of_keys role).
Proof.
  induction rounds as [|rounds IH]; intros rolename key_count st u st' H;
    cbn [configure_keys_loop] in H; [discriminate|].
  unbind H. keeps Hstep. rename a into role.
  destruct (Z.ltb_spec (Z.of_nat (List.length (keys role))) (num_of_keys role))
    as [Hfew | Hfull].
  - unbind H. keeps Hstep0.
    unbind H. keeps Hstep1.
    unbind H. keeps Hstep2. destruct a1 as [key error].
    destruct error as [msg|].
    + unbind H. keeps Hstep3.
      destruct a1; [|discriminate].
      match type of H with
      | configure_keys_loop _ _ _ _ ?s = _ =>
          assert (HS : SETTINGS s = SETTINGS st) by congruence
      end.
      apply IH in H. destruct H as (Hservice & role' & ks & Hrole & R & Hlen).
      rewrite HS in Hservice, Hrole. split; [exact Hservice|].
      exists role', ks. split; [exact Hrole|]. split; [|exact Hlen].
      eapply reworks_from; [exact HS | exact R].
    + unbind H.
      assert (s1 = s0) as ->.
      { destruct (negb (Py.is_None key)).
        - unbind Hstep3. keeps Hstep4. keeps Hstep3. reflexivity.
        - keeps Hstep3. reflexivity. }
      clear Hstep3.
      assert (HS : SETTINGS s0 = SETTINGS st) by congruence.
      destruct a1.
      * apply IH in H. destruct H as (Hservice & role' & ks & Hrole & R & Hlen).
        rewrite HS in Hservice, Hrole. split; [exact Hservice|].
        exists role', ks. split; [exact Hrole|]. split; [|exact Hlen].
        eapply reworks_from; [exact HS | exact R].
      * unbind H. keeps Hstep3.
        unbind H. keeps Hstep4. destruct Hstep4 as [R1 V1].
        apply IH in H. destruct H as (Hservice & role' & ks & Hrole & R & Hlen).
        split; [congruence|].
        assert (Hnew : role'
                       = with_keys
                           (Py.set_item (rolename ++ "_" ++ of_Z key_count)%string
                              (JObj [("filename", JStr a1);
                                     ("password", JStr a0); ("key", key)])
                              (keys role)) role).
        { rewrite R1, HS, Hstep, String.eqb_refl in Hrole. now inversion Hrole. }
        exists role, ks. split; [exact Hstep|]. split.
        -- eapply reworks_from; [exact HS|].
           eapply reworks_ext; [|exact (reworks_trans R1 R)].
           intros []. reflexivity.
        -- rewrite Hlen, Hnew. cbn [keys with_keys num_of_keys].
           match goal with
           | |- context [Py.set_item ?k ?v ?d] =>
               destruct (set_item_length k v d) as [-> | ->]
           end; lia.
  - keeps H. split; [reflexivity|].
    exists role, (keys role). split; [exact Hstep|]. split; [|lia].
    intros r'. destruct (item (roles (SETTINGS st)) r') as [v|e] eqn:Hv;
      [|reflexivity].
    destruct (String.eqb r' rolename) eqn:E; [|reflexivity].
    apply String.eqb_eq in E. subst r'.
    rewrite Hstep in Hv. inversion Hv; subst v. now destruct role.
Qed.

Lemma configure_keys_settings rolename st u st' :
  _configure_keys env rolename st = (Ok u, st') ->
  service (SETTINGS st') = service (SETTINGS st) /\
  exists role ks,
    item (roles (SETTINGS st)) rolename = Ok role /\
    reworks rolename (with_keys ks) st st' /\
    Z.of_nat (List.length ks)
    = Z.max (Z.of_nat (List.length (keys role))) (num_of_keys role).
Proof.
  unfold _configure_keys. intros H.
  unbind H. keeps Hstep.
  apply configure_keys_loop_settings in H.
  destruct H as (Hservice & role & ks & Hrole & R & Hlen).
  rewrite Hstep in Hservice, Hrole. split; [exact Hservice|].
  exists role, ks. split; [exact Hrole|]. split; [|exact Hlen].
  eapply reworks_from; [exact Hstep | exact R].
Qed.

Lemma settled_configured role : settled role -> configured role.
Proof. intros [H1 H2]. split; auto. Qed.

Lemma reworks_other r f st st' (P : RolesKeysInput -> Prop) r' :
  reworks r f st st' -> String.eqb r' r = false ->
  at_role P r' st -> at_role P r' st'.
Proof.
  intros R E H role Hrole. rewrite R, E in Hrole.
  destruct (item (roles (SETTINGS st)) r') as [v|e] eqn:Hv; [|discriminate].
  inversion Hrole; subst. now apply H.
Qed.

Lemma reworks_at r f st st' (P : RolesKeysInput -> Prop) :
  reworks r f st st' ->
  (forall role, item (roles (SETTINGS st)) r = Ok role -> P (f role)) ->
  at_role P r st'.
Proof.
  intros R H role Hrole. rewrite R, String.eqb_refl in Hrole.
  destruct (item (roles (SETTINGS st)) r) as [v|e] eqn:Hv; [|discriminate].
  inversion Hrole; subst. now apply H.
Qed.

Lemma configure_role_invariants rolename st u st' :
  _configure_role rolename st = (Ok u, st') ->
  at_role configured rolename st' /\
  (forall (P : RolesKeysInput -> Prop) r',
      String.eqb r' rolename = false -> at_role P r' st -> at_role P r' st') /\
  (if String.eqb rolename (value TARGETS) then slashed st'
   else service (SETTINGS st') = service (SETTINGS st)).
Proof.
  intros H. apply configure_role_settings in H.
  destruct H as (f & R & Hf & Hservice). split; [|split].
  - eapply reworks_at; [exact R|]. intros role _.
    destruct (Hf role) as [Hkeys Hthreshold]. split; auto.
  - intros P r' E. eapply reworks_other; eassumption.
  - exact Hservice.
Qed.

Lemma configure_keys_invariants rolename st u st' :
  _configure_keys env rolename st = (Ok u, st') ->
  (at_role configured rolename st -> at_role settled rolename st') /\
  (forall (P : RolesKeysInput -> Prop) r',
      String.eqb r' rolename = false -> at_role P r' st -> at_role P r' st') /\
  service (SETTINGS st') = service (SETTINGS st).
Proof.
  intros H. apply configure_keys_settings in H.
  destruct H as (Hservice & role & ks & Hrole & R & Hlen). split; [|split].
  - intros Hconfigured. eapply reworks_at; [exact R|]. intros role' Hrole'.
    rewrite Hrole in Hrole'. inversion Hrole'; subst role'.
    destruct (Hconfigured role Hrole) as [Hkeys Hthreshold].
    destruct role as [e n t k o h]. unfold settled. cbn in *.
    split; [|exact Hthreshold].
    rewrite Hlen. destruct Hkeys as [-> | Hk]; cbn [List.length] in *; lia.
  - intros P r' E. eapply reworks_other; eassumption.
  - exact Hservice.
Qed.

Lemma slashed_service st st' :
  service (SETTINGS st') = service (SETTINGS st) -> slashed st -> slashed st'.
Proof. unfold slashed. now intros ->. Qed.

Lemma each_configure_role_configured names :
  forall st u st',
    for_each names _configure_role st = (Ok u, st') ->
    (forall r', In r' names \/ at_role configured r' st ->
                at_role configured r' st') /\
    (In (value TARGETS) names \/ slashed st -> slashed st').
Proof.
  induction names as [|r names IH]; intros st u st' H; cbn [for_each] in H.
  - keeps H. split; [intros r' [[] | Hr'] | intros [[] | Hs]]; assumption.
  - unbind H. apply configure_role_invariants in Hstep.
    destruct Hstep as (Hr & Hother & Hservice).
    apply IH in H. destruct H as [Hroles Hslash]. split.
    + intros r' Hr'. apply Hroles.
      destruct (String.eqb r' r) eqn:E.
      * apply String.eqb_eq in E. subst r'. now right.
      * destruct Hr' as [[-> | Hin] | Hc].
        -- rewrite String.eqb_refl in E. discriminate.
        -- now left.
        -- right. now apply Hother.
    + intros Ht. apply Hslash.
      destruct (String.eqb r (value TARGETS)) eqn:E; [now right|].
      destruct Ht as [[-> | Hin] | Hs].
      * rewrite String.eqb_refl in E. discriminate.
      * now left.
      * right. eapply slashed_service; eassumption.
Qed.

Lemma each_configure_keys_settled names :
  forall st u st',
    for_each names (_configure_keys env) st = (Ok u, st') ->
    (forall r', at_role configured r' st -> at_role configured r' st') /\
    (forall r', at_role settled r' st -> at_role settled r' st') /\
    (forall r', at_role configured r' st -> In r' names ->
                at_role settled r' st') /\
    service (SETTINGS st') = service (SETTINGS st).
Proof.
  induction names as [|r names IH]; intros st u st' H; cbn [for_each] in H.
  - keeps H. split; [auto|]. split; [auto|]. split; [|reflexivity].
    intros r' _ [].
  - unbind H. apply configure_keys_invariants in Hstep.
    destruct Hstep as (Hr & Hother & Hservice).
    apply IH in H. destruct H as (Hc & Hs & Hnames & Hservice').
    assert (Hc1 : forall r', at_role configured r' st -> at_role configured r' s).
    { intros r' Hr'. destruct (String.eqb r' r) eqn:E.
      - apply String.eqb_eq in E. subst r'.
        intros role Hrole. apply settled_configured. now apply Hr.
      - now apply Hother. }
    assert (Hs1 : forall r', at_role settled r' st -> at_role settled r' s).
    { intros r' Hr'. destruct (String.eqb r' r) eqn:E.
      - apply String.eqb_eq in E. subst r'. apply Hr.
        intros role Hrole. apply settled_configured. now apply Hr'.
      - now apply Hother. }
    split; [auto|]. split; [auto|]. split; [|congruence].
    intros r' Hr' [<- | Hin]; auto.
Qed.

Lemma confirm_loop_settled rounds :
  forall rolename st u st',
    confirm_loop env rounds rolename st = (Ok u, st') ->
    (forall r', at_role settled r' st -> at_role settled r' st') /\
    (slashed st -> slashed st').
Proof.
  induction rounds as [|rounds IH]; intros rolename st u st' H;
    cbn [confirm_loop] in H; [discriminate|].
  unbind H. keeps Hstep.
  unbind H. keeps Hstep0.
  unbind H. keeps Hstep1.
  unbind H. keeps Hstep2.
  assert (HS : SETTINGS s0 = SETTINGS st) by congruence.
  assert (Hsame : (forall r', at_role settled r' st -> at_role settled r' s0) /\
                  (slashed st -> slashed s0)).
  { unfold at_role, slashed. rewrite HS. auto. }
  destruct Hsame as [Hroles Hslash].
  destruct a1; cbn [negb] in H.
  - keeps H. auto.
  - unbind H. apply configure_role_invariants in Hstep3.
    destruct Hstep3 as (Hr & Hother & Hservice).
    unbind H.
    match goal with
    | Hkeys : _configure_keys _ _ _ = _ |- _ =>
        apply configure_keys_invariants in Hkeys;
        destruct Hkeys as (Hr' & Hother' & Hservice')
    end.
    apply IH in H. destruct H as [Hroles' Hslash']. split.
    + intros r' Hsettled. apply Hroles'.
      destruct (String.eqb r' rolename) eqn:E.
      * apply String.eqb_eq in E. subst r'. auto.
      * auto.
    + intros Hs. apply Hslash'. eapply slashed_service; [exact Hservice'|].
      destruct (String.eqb rolename (value TARGETS)); [assumption|].
      eapply slashed_service; [exact Hservice | auto].
Qed.

Lemma each_confirm_role_settled names :
  forall st u st',
    for_each names (confirm_role env) st = (Ok u, st') ->
    (forall r', at_role settled r' st -> at_role settled r' st') /\
    (slashed st -> slashed st').
Proof.
  induction names as [|r names IH]; intros st u st' H; cbn [for_each] in H.
  - keeps H. auto.
  - unbind H. unfold confirm_role in Hstep. apply confirm_loop_settled in Hstep.
    apply IH in H. destruct Hstep, H. auto.
Qed.

Lemma configure_role_distinct rolename st u st' :
  _configure_role rolename st = (Ok u, st') ->
  distinct_keys (roles (SETTINGS st)) -> distinct_keys (roles (SETTINGS st')).
Proof.
  unfold _configure_role. intros H D.
  step H as u1 s1 H1. onward H1 D.
  step H as u2 s2 H2. onward H2 D.
  step H as d s3 H3. onward H3 D.
  step H as u4 s4 H4. onward H4 D.
  step H as u5 s5 H5. onward H5 D.
  step H as expiration s6 H6. onward H6 D.
  step H as u7 s7 H7. onward H7 D.
  step H as n s8 H8. onward H8 D.
  step H as u9 s9 H9. onward H9 D.
  step H as u10 s10 H10.
  assert (D10 : distinct_keys (roles (SETTINGS s10))).
  { destruct (1 <? n)%Z.
    - step H10 as t s11 H11. onward H11 D. onward H10 D. exact D.
    - onward H10 D. exact D. }
  clear D H10.
  destruct (String.eqb rolename (value TARGETS)).
  - step H as show s11 H11. onward H11 D10.
    step H as bins s12 H12. onward H12 D10.
    step H as u13 s13 H13. onward H13 D10.
    step H as url s14 H14. onward H14 D10.
    step H as s s15 H15. onward H15 D10. subst s.
    unfold set_SETTINGS in H. inversion H; subst st'. exact D10.
  - onward H D10. exact D10.
Qed.

Lemma configure_role_keyless rolename st u st' :
  _configure_role rolename st = (Ok u, st') ->
  at_role keyless rolename st'.
Proof.
  intros H. apply configure_role_settings in H.
  destruct H as (f & R & Hf & _).
  eapply reworks_at; [exact R|]. intros role _. exact (proj1 (Hf role)).
Qed.

Lemma each_configure_role_keyless names :
  forall st u st',
    for_each names _configure_role st = (Ok u, st') ->
    forall r', In r' names \/ at_role keyless r' st -> at_role keyless r' st'.
Proof.
  induction names as [|r names IH]; intros st u st' H; cbn [for_each] in H.
  - keeps H. intros r' [[] | Hr']. assumption.
  - step H as u1 s1 H1. pose proof H1 as Hr.
    apply configure_role_keyless in Hr.
    apply configure_role_invariants in H1. destruct H1 as (_ & Hother & _).
    intros r' Hr'. apply (IH _ _ _ H).
    destruct (String.eqb r' r) eqn:E.
    + apply String.eqb_eq in E. subst r'. now right.
    + destruct Hr' as [[-> | Hin] | Hc].
      * rewrite String.eqb_refl in E. discriminate.
      * now left.
      * right. now apply Hother.
Qed.

Lemma configure_keys_loop_distinct rounds :
  forall rolename key_count st u st',
    configure_keys_loop env rounds rolename key_count st = (Ok u, st') ->
    distinct_keys (roles (SETTINGS st)) -> distinct_keys (roles (SETTINGS st')).
Proof.
  induction rounds as [|rounds IH]; intros rolename key_count st u st' H D;
    cbn [configure_keys_loop] in H; [discriminate|].
  step H as role s1 H1. onward H1 D.
  destruct (_ <? _)%Z in H; [|onward H D; exact D].
  step H as filepath s2 H2. onward H2 D.
  step H as password s3 H3. onward H3 D.
  step H as loaded_key s4 H4. onward H4 D. destruct loaded_key as [key error].
  destruct error as [msg|].
  - step H as try_again s5 H5. onward H5 D.
    destruct try_again; [|discriminate].
    exact (IH _ _ _ _ _ H D).
  - step H as duplicated s5 H5.
    assert (Hkey : s5 = s3 /\
                   (duplicated = false ->
                    Py.is_None key = true \/
                    held (roles (SETTINGS s3)) key = false)).
    { destruct (Py.is_None key) eqn:Hnone; cbn [negb] in H5.
      - keeps H5. auto.
      - step H5 as s s6 H6. keeps H6. subst s. keeps H5. split; [reflexivity|].
        intros ->. right.
        rewrite (@key_is_duplicated_held _ _ (proj1 D) Hnone) in H5.
        now inversion H5. }
    destruct Hkey as [-> Hkey]. clear H5.
    destruct duplicated; [exact (IH _ _ _ _ _ H D)|].
    step H as filename s6 H6. onward H6 D.
    step H as u7 s7 H7.
    eapply modify_insert_distinct in D;
      [ | first [exact H7 | exact (Hkey eq_refl)] ..].
    exact (IH _ _ _ _ _ H D).
Qed.

Lemma configure_keys_distinct rolename st u st' :
  _configure_keys env rolename st = (Ok u, st') ->
  distinct_keys (roles (SETTINGS st)) -> distinct_keys (roles (SETTINGS st')).
Proof.
  unfold _configure_keys. intros H D.
  step H as u1 s1 H1. onward H1 D.
  eapply configure_keys_loop_distinct; eassumption.
Qed.

Lemma each_configure_keys_distinct names :
  forall st u st',
    for_each names (_configure_keys env) st = (Ok u, st') ->
    distinct_keys (roles (SETTINGS st)) -> distinct_keys (roles (SETTINGS st')).
Proof.
  induction names as [|r names IH]; intros st u st' H D; cbn [for_each] in H.
  - onward H D. exact D.
  - step H as u1 s1 H1. eapply configure_keys_distinct in D; [|exact H1].
    exact (IH _ _ _ H D).
Qed.

Lemma confirm_loop_distinct rounds :
  forall rolename st u st',
    confirm_loop env rounds rolename st = (Ok u, st') ->
    distinct_keys (roles (SETTINGS st)) -> distinct_keys (roles (SETTINGS st')).
Proof.
  induction rounds as [|rounds IH]; intros rolename st u st' H D;
    cbn [confirm_loop] in H; [discriminate|].
  step H as role s1 H1. onward H1 D.
  step H as u2 s2 H2. onward H2 D.
  step H as confirm_config s3 H3. onward H3 D.
  step H as u4 s4 H4. onward H4 D.
  destruct confirm_config; cbn [negb] in H.
  - onward H D. exact D.
  - step H as u5 s5 H5. eapply configure_role_distinct in D; [|exact H5].
    step H as u6 s6 H6. eapply configure_keys_distinct in D; [|exact H6].
    exact (IH _ _ _ _ H D).
Qed.

Lemma each_confirm_role_distinct names :
  forall st u st',
    for_each names (confirm_role env) st = (Ok u, st') ->
    distinct_keys (roles (SETTINGS st)) -> distinct_keys (roles (SETTINGS st')).
Proof.
  induction names as [|r names IH]; intros st u st' H D; cbn [for_each] in H.
  - onward H D. exact D.
  - step H as u1 s1 H1. unfold confirm_role in H1.
    eapply confirm_loop_distinct in D; [|exact H1].
    exact (IH _ _ _ H D).
Qed.

Lemma lookup_set_item_other k k' v (d : list (string * json)) :
  String.eqb k k' = false -> Py.lookup k (Py.set_item k' v d) = Py.lookup k d.
Proof.
  intros E. induction d as [|[k0 v0] d IH]; cbn.
  - now rewrite E.
  - destruct (String.eqb k' k0) eqn:E0; cbn.
    + destruct (String.eqb k k0) eqn:E1; [|reflexivity].
      apply String.eqb_eq in E0, E1. subst. rewrite String.eqb_refl in E.
      discriminate.
    + now rewrite IH.
Qed.

Lemma modify_role_trace rolename f st u st' :
  modify_role rolename f st = (Ok u, st') -> trace st' = trace st.
Proof.
  unfold modify_role, bind, get_SETTINGS, set_SETTINGS. intros H.
  now inversion H.
Qed.

Lemma payload_roles_service names :
  forall settings st settings' st',
    payload_roles names settings st = (Ok settings', st') ->
    Py.lookup "service" settings' = Py.lookup "service" settings /\
    trace st' = trace st.
Proof.
  induction names as [|r names IH]; intros settings st settings' st' H;
    cbn [payload_roles] in H.
  - keeps H. subst. auto.
  - step H as data s1 H1. keeps H1.
    step H as u2 s2 H2.
    assert (T2 : trace s2 = trace st).
    { destruct (offline_keys data).
      - now apply modify_role_trace in H2.
      - keeps H2. reflexivity. }
    clear H2.
    step H as data' s3 H3. keeps H3.
    step H as settings1 s4 H4.
    assert (Hset : Py.lookup "service" settings1 = Py.lookup "service" settings /\
                   s4 = s2).
    { destruct (negb (Py.mem "roles" settings)).
      - keeps H4. subst settings1. split; [|reflexivity].
        now apply lookup_set_item_other.
      - step H4 as rs s5 H5. keeps H5. destruct rs; try discriminate.
        keeps H4. subst settings1. split; [|reflexivity].
        now apply lookup_set_item_other. }
    destruct Hset as [Hset ->].
    apply IH in H. destruct H as [Hlookup Htrace]. split; congruence.
Qed.

Lemma build_payload_service metadata st payload st' :
  build_payload env metadata st = (Ok payload, st') ->
  payload_base_url payload
  = Ok (JStr (targets_base_url (service (SETTINGS st)))) /\
  trace st' = trace st.
Proof.
  unfold build_payload. intros H.
  step H as s s1 H1. keeps H1. subst s.
  step H as names s2 H2. keeps H2.
  step H as settings s3 H3. apply payload_roles_service in H3.
  destruct H3 as [Hlookup Htrace].
  keeps H. subst payload. split; [|exact Htrace].
  unfold payload_base_url. cbn [Py.subscript Py.lookup String.eqb Ascii.eqb
                                 Bool.eqb obind].
  rewrite Hlookup. reflexivity.
Qed.

Lemma item_In {A} (d : list (string * A)) k v :
  item d k = Ok v -> In k (map fst d).
Proof.
  induction d as [|[k' v'] d IH]; cbn; [discriminate|].
  destruct (String.eqb k k') eqn:E.
  - apply String.eqb_eq in E. auto.
  - auto.
Qed.

Lemma ceremony_steps_settled save st payload st' :
  names_of st = five_names ->
  ceremony_steps env save st = (Ok payload, st') ->
  exists before settings url,
    trace st' = before ++ [InitializeMetadata settings save] /\
    (forall r role, item settings r = Ok role -> settled role) /\
    distinct_keys settings /\
    payload_base_url payload = Ok (JStr url) /\
    endswith "/" url = true.
Proof.
  intros Hnames H. unfold ceremony_steps in H.
  step H as detailed s0 H0. pose proof H0 as E0. apply Confirm_ask_Ok in E0. keeps H0.
  step H as start s1 H1. pose proof H1 as E1. apply Confirm_ask_Ok in E1. keeps H1.
  destruct (negb _) in H; [discriminate|].
  step H as names s2 H2. keeps H2. subst names.
  step H as u3 s3 H3. pose proof H3 as E3.
  apply each_configure_role_Ok in E3. destruct E3 as [E3 _].
  assert (Hkeyless : forall r', In r' (names_of s1) \/ at_role keyless r' s1 ->
                                at_role keyless r' s3)
    by (eapply each_configure_role_keyless; exact H3).
  apply each_configure_role_configured in H3.
  destruct H3 as [Hconfigured Hslashed].
  step H as ready s4 H4. pose proof H4 as E4. apply Confirm_ask_Ok in E4. keeps H4.
  destruct (negb _) in H; [discriminate|].
  step H as names s5 H5. keeps H5. subst names.
  step H as u6 s6 H6. pose proof H6 as E6.
  apply each_configure_keys_Ok in E6.
  assert (D6 : distinct_keys (roles (SETTINGS s4)) ->
               distinct_keys (roles (SETTINGS s6)))
    by (eapply each_configure_keys_distinct; exact H6).
  apply each_configure_keys_settled in H6.
  destruct H6 as (_ & _ & Hsettled & Hservice).
  step H as names s7 H7. keeps H7. subst names.
  step H as u8 s8 H8. pose proof H8 as E8.
  apply each_confirm_role_Ok in E8. destruct E8 as (evs & E8 & _).
  assert (D8 : distinct_keys (roles (SETTINGS s6)) ->
               distinct_keys (roles (SETTINGS s8)))
    by (eapply each_confirm_role_distinct; exact H8).
  apply each_confirm_role_settled in H8.
  destruct H8 as [Hkept Hkept'].
  step H as s s9 H9. keeps H9. subst s.
  step H as u10 s10 H10.
  assert (T : trace s10
              = trace s8 ++ [InitializeMetadata (roles (SETTINGS s8)) save])
    by (unfold log in H10; now inversion H10).
  keeps H10.
  step H as metadata s11 H11. keeps H11.
  apply build_payload_service in H. destruct H as [Hurl Htrace].
  assert (N1 : names_of s1 = five_names)
    by (rewrite (ev_names E1), (ev_names E0); exact Hnames).
  assert (N3 : names_of s3 = five_names)
    by (rewrite (ev_names E3); exact N1).
  assert (N4 : names_of s4 = five_names)
    by (rewrite (ev_names E4); exact N3).
  assert (N6 : names_of s6 = five_names)
    by (rewrite (ev_names E6); exact N4).
  assert (N8 : names_of s8 = five_names)
    by (rewrite (ev_names E8); exact N6).
  exists (trace s8), (roles (SETTINGS s8)),
    (targets_base_url (service (SETTINGS s10))).
  split; [congruence|]. split; [|split; [|split; [exact Hurl|]]].
  - intros r role Hrole. pose proof (item_In _ _ Hrole) as Hin.
    fold (names_of s8) in Hin. rewrite N8 in Hin.
    refine (Hkept r _ role Hrole). apply Hsettled.
    + unfold at_role. rewrite H4. apply Hconfigured. left.
      rewrite N1. exact Hin.
    + rewrite N4. exact Hin.
  - apply D8, D6. rewrite H4. apply keyless_distinct.
    + fold (names_of s3). rewrite N3. unfold five_names.
      repeat constructor; cbn; intuition discriminate.
    + intros r role Hrole. pose proof (item_In _ _ Hrole) as Hin.
      fold (names_of s3) in Hin. rewrite N3 in Hin.
      refine (Hkeyless r _ role Hrole). left. rewrite N1. exact Hin.
  - fold (slashed s10). eapply slashed_service; [now rewrite H10|].
    apply Hkept'. eapply slashed_service; [exact Hservice|].
    eapply slashed_service; [now rewrite H4|].
    apply Hslashed. left. rewrite N1. cbn. tauto.
Qed.

Lemma ceremony_run_settled bootstrap file save st u st' :
  names_of st = five_names ->
  ceremony env bootstrap file false save st = (Ok u, st') ->
  exists evs settings payload url,
    trace st' = trace st ++ run_events save file bootstrap evs settings payload /\
    (forall r role, item settings r = Ok role -> settled role) /\
    distinct_keys settings /\
    payload_base_url payload = Ok (JStr url) /\
    endswith "/" url = true.
Proof.
  intros Hnames H. unfold ceremony in H.
  step H as u0 s0 H0.
  assert (s0 = st) as ->.
  { destruct save; [fact H0 | fact H0]; reflexivity. }
  clear H0.
  step H as u1 s1 H1. cbn [andb] in H1. fact H1. clear H1.
  step H as headers s2 H2.
  assert (Hpre : evolves st s2 []).
  { destruct bootstrap.
    - step H2 as token s3 H3. apply check_server_Ok in H3.
      step H2 as response s4 H4. fact H4.
      step H2 as answer s5 H5. fact H5.
      destruct (Z.eqb _ 404) in H2; [discriminate|].
      destruct (negb _) in H2; [discriminate|].
      destruct (Py.is_True _) in H2; [discriminate|].
      fact H2. chained.
    - fact H2. apply evolves_refl. }
  clear H2.
  step H as u3 s3 H3. fact H. cbn [negb] in H3.
  step H3 as payload s4 H4.
  assert (N : names_of s2 = five_names)
    by (rewrite (ev_names Hpre); exact Hnames).
  destruct (@ceremony_steps_Ok Metadata env save s2 payload s4 N H4)
    as (evs & settings & metadata & Hevs & Hsettings & Htrace & N' & Hinit & _).
  destruct (@ceremony_steps_settled save s2 payload s4 N H4)
    as (before & settings' & url & Htrace' & Hsettled & Hdistinct & Hurl
        & Hslash).
  assert (settings' = settings) as ->.
  { rewrite Htrace' in Htrace. rewrite !app_assoc in Htrace.
    apply app_inj_tail in Htrace. destruct Htrace as [_ Hlast].
    now inversion Hlast. }
  exists evs, settings, payload, url.
  split; [|auto].
  step H3 as u5 s5 H5.
  assert (Hwrite : evolves s4 s5
                     (if truthy file then [WriteFile file payload] else [])).
  { destruct (truthy file).
    - step H5 as u6 s6 H6. fact H6. fact H5. assumption.
    - fact H5. apply evolves_refl. }
  clear H5.
  assert (Hpost : evolves s5 s3 (if bootstrap then [Post payload] else [])).
  { destruct bootstrap.
    - step H3 as task s6 H6. apply bootstrap_Ok in H6. fact H3. assumption.
    - fact H3. apply evolves_refl. }
  clear H3.
  pose proof (evolves_trans Hwrite Hpost) as Hend.
  rewrite (ev_trace Hend), Htrace, (ev_trace Hpre). unfold run_events.
  rewrite app_nil_r, <- !app_assoc. reflexivity.
Qed.

(** X18.  In a completed run of the ceremony without upload,
    [initialize_metadata] receives every role with the keys it asked for:
    as many keys as the number of keys given for the role, none when the
    number is not positive, and the threshold 1 whenever at most one key
    was asked for. *)
Theorem ceremony_initializes_settled_roles :
  forall (new_role : RolesKeysInput) (bootstrap : bool) (file : string)
         (save : bool) (st st' : State) (u : unit),
    SETTINGS st = SETTINGS_initial new_role ->
    ceremony env bootstrap file false save st = (Ok u, st') ->
    exists evs settings payload,
      trace st' = trace st ++ run_events save file bootstrap evs settings payload /\
      forall r role,
        item settings r = Ok role ->
        Z.of_nat (List.length (keys role)) = Z.max 0 (num_of_keys role) /\
        (num_of_keys role <= 1 -> threshold role = 1)%Z.
Proof.
  intros new_role bootstrap file save st st' u Hinitial Hrun.
  pose proof (initial_names _ Hinitial) as Hnames.
  destruct (@ceremony_run_settled bootstrap file save st u st' Hnames Hrun)
    as (evs & settings & payload & url & Htrace & Hsettled & _).
  exists evs, settings, payload. split; [exact Htrace|].
  intros r role Hrole. exact (Hsettled r role Hrole).
Qed.

(** X19.  In the payload of a completed run of the ceremony without
    upload, the base URL of the targets ends with a slash: one is added to
    the answer of the user when it has none. *)
Theorem ceremony_base_url_ends_with_slash :
  forall (new_role : RolesKeysInput) (bootstrap : bool) (file : string)
         (save : bool) (st st' : State) (u : unit),
    SETTINGS st = SETTINGS_initial new_role ->
    ceremony env bootstrap file false save st = (Ok u, st') ->
    exists evs settings payload url,
      trace st' = trace st ++ run_events save file bootstrap evs settings payload /\
      payload_base_url payload = Ok (JStr url) /\
      endswith "/" url = true.
Proof.
  intros new_role bootstrap file save st st' u Hinitial Hrun.
  pose proof (initial_names _ Hinitial) as Hnames.
  destruct (@ceremony_run_settled bootstrap file save st u st' Hnames Hrun)
    as (evs & settings & payload & url & Htrace & _ & _ & Hurl & Hslash).
  exists evs, settings, payload, url. auto.
Qed.

(** X20.  In a completed run of the ceremony without upload, no key is
    taken twice: the entries of the keys that [initialize_metadata]
    receives, for all the roles together, are entries with a file name, a
    password and a key, as [_configure_keys] stores them, and no two of
    them hold keys that are equal, [None] apart. *)
Theorem ceremony_takes_no_key_twice :
  forall (new_role : RolesKeysInput) (bootstrap : bool) (file : string)
         (save : bool) (st st' : State) (u : unit),
    SETTINGS st = SETTINGS_initial new_role ->
    ceremony env bootstrap file false save st = (Ok u, st') ->
    exists evs settings payload,
      trace st' = trace st ++ run_events save file bootstrap evs settings payload /\
      Forall loaded (all_entries settings) /\
      ForallOrdPairs different (map entry_key (all_entries settings)).
Proof.
  intros new_role bootstrap file save st st' u Hinitial Hrun.
  pose proof (initial_names _ Hinitial) as Hnames.
  destruct (@ceremony_run_settled bootstrap file save st u st' Hnames Hrun)
    as (evs & settings & payload & url & Htrace & _ & [Hloaded Hpairs] & _).
  exists evs, settings, payload. split; [exact Htrace|]. split; assumption.
Qed.

(** X21.  When [_configure_role] returns, the role has no keys, the
    threshold 1 if at most one key was asked for, and the [offline_keys]
    of [default_settings]; the other roles are as they were, and so is
    the service, unless the role is [targets], whose base URL then ends
    with a slash. *)
Theorem configure_role_resets_the_role :
  forall (rolename : string) (st st' : State) (u : unit),
    _configure_role rolename st = (Ok u, st') ->
    (forall role,
        item (roles (SETTINGS st')) rolename = Ok role ->
        keys role = [] /\
        (num_of_keys role <= 1 -> threshold role = 1)%Z /\
        forall d, item default_settings rolename = Ok d ->
                  offline_keys role = RoleSettings.offline_keys d) /\
    (forall other,
        String.eqb other rolename = false ->
        item (roles (SETTINGS st')) other = item (roles (SETTINGS st)) other) /\
    (if String.eqb rolename (value TARGETS)
     then endswith "/" (targets_base_url (service (SETTINGS st'))) = true
     else service (SETTINGS st') = service (SETTINGS st)).
Proof.
  intros rolename st st' u H.
  pose proof H as Hdefault. apply configure_role_Ok in Hdefault.
  destruct Hdefault as [_ Hdefault].
  apply configure_role_settings in H.
  destruct H as (f & R & Hf & Hservice). split; [|split].
  - intros role Hrole. pose proof Hrole as Hrole'.
    rewrite R, String.eqb_refl in Hrole'.
    destruct (item (roles (SETTINGS st)) rolename) as [v|e]; [|discriminate].
    inversion Hrole'; subst role. destruct (Hf v) as [Hkeys Hthreshold].
    split; [exact Hkeys|]. split; [exact Hthreshold|].
    intros d Hd. exact (Hdefault _ d Hrole Hd).
  - intros other E. rewrite R, E.
    now destruct (item (roles (SETTINGS st)) other).
  - exact Hservice.
Qed.

(** X22.  When [_configure_keys] returns, the role has the number of keys
    asked for, or the keys it had if they were as many or more; nothing
    but the keys of this role has changed in [SETTINGS]. *)
Theorem configure_keys_loads_the_missing_keys :
  forall (rolename : string) (st st' : State) (u : unit),
    _configure_keys env rolename st = (Ok u, st') ->
    exists role ks,
      item (roles (SETTINGS st)) rolename = Ok role /\
      item (roles (SETTINGS st')) rolename = Ok (with_keys ks role) /\
      Z.of_nat (List.length ks)
      = Z.max (Z.of_nat (List.length (keys role))) (num_of_keys role) /\
      (forall other,
          String.eqb other rolename = false ->
          item (roles (SETTINGS st')) other = item (roles (SETTINGS st)) other) /\
      service (SETTINGS st') = service (SETTINGS st).
Proof.
  intros rolename st st' u H. apply configure_keys_settings in H.
  destruct H as (Hservice & role & ks & Hrole & R & Hlen).
  exists role, ks. split; [exact Hrole|]. split; [|split; [exact Hlen|split]].
  - now rewrite R, Hrole, String.eqb_refl.
  - intros other E. rewrite R, E.
    now destruct (item (roles (SETTINGS st)) other).
  - exact Hservice.
Qed.

End CeremonyRoles.

Section CeremonyRolesExamples.

Import PyStr Ceremony.

Lemma ceremony_initializes_settled_roles_witness :
  exists evs settings payload,
    trace example_end
    = run_events false "payload.json" false evs settings payload /\
    forall role,
      item settings "root" = Ok role ->
      Z.of_nat (List.length (keys role)) = Z.max 0 (num_of_keys role).
Proof.
  destruct (@ceremony_initializes_settled_roles unit example_env
              (mkRolesKeysInput 1 1 1 [] true None) false "payload.json" false
              example_run example_end tt eq_refl example_run_completes)
    as (evs & settings & payload & Htrace & Hsettled).
  exists evs, settings, payload. split; [exact Htrace|].
  intros role Hrole. exact (proj1 (Hsettled "root" role Hrole)).
Defined.

Lemma ceremony_base_url_ends_with_slash_witness :
  exists evs settings payload url,
    trace example_end
    = run_events false "payload.json" false evs settings payload /\
    payload_base_url payload = Ok (JStr url) /\
    endswith "/" url = true.
Proof.
  exact (@ceremony_base_url_ends_with_slash unit example_env
           (mkRolesKeysInput 1 1 1 [] true None) false "payload.json" false
           example_run example_end tt eq_refl example_run_completes).
Defined.

Lemma ceremony_takes_no_key_twice_witness :
  exists evs settings payload,
    trace example_end
    = run_events false "payload.json" false evs settings payload /\
    Forall loaded (all_entries settings) /\
    ForallOrdPairs different (map entry_key (all_entries settings)).
Proof.
  exact (@ceremony_takes_no_key_twice unit example_env
           (mkRolesKeysInput 1 1 1 [] true None) false "payload.json" false
           example_run example_end tt eq_refl example_run_completes).
Defined.

Lemma configure_role_resets_the_role_witness :
  exists st',
    _configure_role "bins" example_loading = (Ok tt, st') /\
    forall role,
      item (roles (SETTINGS st')) "bins" = Ok role -> keys role = [].
Proof.
  destruct (_configure_role "bins" example_loading) as [o st'] eqn:Hrun.
  assert (Ho : o = Ok tt).
  { pose proof Hrun as Hval. vm_compute in Hval. now inversion Hval. }
  subst o. exists st'. split; [reflexivity|].
  intros role Hrole.
  exact (proj1 (proj1 (@configure_role_resets_the_role "bins" example_loading
                         st' tt Hrun) role Hrole)).
Defined.

Lemma configure_keys_loads_the_missing_keys_witness :
  exists st' role ks,
    _configure_keys example_keys_env "bins" example_loading = (Ok tt, st') /\
    item (roles (SETTINGS example_loading)) "bins" = Ok role /\
    item (roles (SETTINGS st')) "bins" = Ok (with_keys ks role) /\
    Z.of_nat (List.length ks)
    = Z.max (Z.of_nat (List.length (keys role))) (num_of_keys role).
Proof.
  destruct (_configure_keys example_keys_env "bins" example_loading)
    as [o st'] eqn:Hrun.
  assert (Ho : o = Ok tt).
  { pose proof Hrun as Hval. vm_compute in Hval. now inversion Hval. }
  subst o. exists st'.
  destruct (@configure_keys_loads_the_missing_keys unit example_keys_env "bins"
              example_loading st' tt Hrun)
    as (role & ks & Hrole & Hrole' & Hlen & _).
  exists role, ks. split; [reflexivity|]. auto.
Defined.

End CeremonyRolesExamples.

Section CeremonyServer.

Import PyStr Ceremony.
Local Open Scope prog_scope.

Variable Metadata : Type.
Variable env : Env Metadata.

Lemma quiet_ret {A} (a : A) : quiet (ret a).
Proof. intros st o st' H. inversion H. auto. Qed.

Lemma quiet_raise {A} e : quiet (@raise State A e).
Proof. intros st o st' H. inversion H. auto. Qed.

Lemma quiet_lift {A} (o : outcome A) : quiet (lift o).
Proof. intros st o' st' H. inversion H. auto. Qed.

Lemma quiet_bind {A B} (m : prog State A) (f : A -> prog State B) :
  quiet m -> (forall a, quiet (f a)) -> quiet (bind m f).
Proof.
  intros Hm Hf st o st' H. unfold bind in H.
  destruct (m st) as [[a|e] s] eqn:E.
  - destruct (Hm _ _ _ E) as (S1 & I1 & C1 & X1 & T1).
    destruct (Hf a _ _ _ H) as (S2 & I2 & C2 & X2 & T2).
    repeat split; congruence.
  - inversion H; subst. exact (Hm _ _ _ E).
Qed.

Lemma quiet_request_server : quiet request_server.
Proof.
  intros st o st' H. unfold request_server in H.
  destruct (server st); inversion H; auto.
Qed.


Lemma quiet_check_server : quiet (_check_server env).
Proof.
  unfold _check_server.
  destruct (SERVER env); [|apply quiet_raise].
  destruct (TOKEN env); [|apply quiet_raise].
  destruct (_ && _); [|apply quiet_raise].
  apply quiet_bind; [apply quiet_lift | intros logged].
  destruct (negb _); [apply quiet_raise|].
  apply quiet_bind; [apply quiet_lift | intros expired].
  destruct (Py.is_True _); [apply quiet_raise|].
  apply quiet_bind; [apply quiet_request_server | intros response].
  apply quiet_bind; [apply quiet_lift | intros bootstrap].
  destruct (_ && _); [apply quiet_raise | apply quiet_ret].
Qed.



Lemma bootstrap_gate_quiet :
  quiet (headers <~ _check_server env ;;
         bs_response <~ request_server ;;
         bs_bootstrap <~ lift (Py.get (JObj (body bs_response)) "bootstrap") ;;
         if Z.eqb (status_code bs_response) 404 then raise ClickException
         else if negb (Z.eqb (status_code bs_response) 200)
              then raise ClickException
         else if Py.is_True bs_bootstrap then raise ClickException
         else ret (Some headers)).
Proof.
  apply quiet_bind; [apply quiet_check_server | intros headers].
  apply quiet_bind; [apply quiet_request_server | intros response].
  apply quiet_bind; [apply quiet_lift | intros bootstrap].
  destruct (Z.eqb _ 404); [apply quiet_raise|].
  destruct (negb _); [apply quiet_raise|].
  destruct (Py.is_True _); [apply quiet_raise | apply quiet_ret].
Qed.



End CeremonyServer.

Section CeremonyServerExample.

Import PyStr Ceremony.


End CeremonyServerExample.

Section CeremonyOutputs.

Import PyStr Ceremony.
Local Open Scope prog_scope.

Lemma silent_same {A} (m : prog State A) :
  (forall st o st', m st = (o, st') -> trace st' = trace st) -> silent m.
Proof.
  intros H st o st' Hrun. exists []. rewrite app_nil_r. eauto.
Qed.

Lemma silent_ret {A} (a : A) : silent (ret a).
Proof. apply silent_same. intros st o st' H. now inversion H. Qed.

Lemma silent_raise {A} e : silent (@raise State A e).
Proof. apply silent_same. intros st o st' H. now inversion H. Qed.

Lemma silent_lift {A} (o : outcome A) : silent (lift o).
Proof. apply silent_same. intros st o' st' H. now inversion H. Qed.

Lemma silent_bind {A B} (m : prog State A) (f : A -> prog State B) :
  silent m -> (forall a, silent (f a)) -> silent (bind m f).
Proof.
  intros Hm Hf st o st' H. unfold bind in H.
  destruct (m st) as [[a|e] s] eqn:E.
  - destruct (Hm _ _ _ E) as (evs1 & T1 & O1).
    destruct (Hf a _ _ _ H) as (evs2 & T2 & O2).
    exists (evs1 ++ evs2). rewrite T2, T1, app_assoc, existsb_app, O1, O2. auto.
  - inversion H; subst. exact (Hm _ _ _ E).
Qed.

Lemma silent_quiet {A} (m : prog State A) : quiet m -> silent m.
Proof.
  intros H. apply silent_same. intros st o st' Hrun.
  now destruct (H _ _ _ Hrun) as (_ & _ & _ & _ & T).
Qed.

Lemma silent_log e : is_output e = false -> silent (log e).
Proof.
  intros He st o st' H. unfold log in H. inversion H; subst.
  exists [e]. cbn. now rewrite He.
Qed.

Lemma silent_IntPrompt_ask : silent IntPrompt_ask.
Proof.
  apply silent_same. intros st o st' H. unfold IntPrompt_ask in H.
  destruct (ints st); now inversion H.
Qed.

Lemma silent_Confirm_ask : silent Confirm_ask.
Proof.
  apply silent_same. intros st o st' H. unfold Confirm_ask in H.
  destruct (confirms st); now inversion H.
Qed.

Lemma silent_ask_text at_end : silent (ask_text at_end).
Proof.
  apply silent_same. intros st o st' H. unfold ask_text in H.
  destruct (texts st); now inversion H.
Qed.

Lemma silent_get_SETTINGS : silent get_SETTINGS.
Proof. apply silent_same. intros st o st' H. now inversion H. Qed.

Lemma silent_set_SETTINGS s : silent (set_SETTINGS s).
Proof. apply silent_same. intros st o st' H. now inversion H. Qed.

Lemma silent_sized {A} (loop : nat -> prog State A) (size : State -> nat) :
  (forall n, silent (loop n)) -> silent (fun st => loop (size st) st).
Proof. intros H st o st' Hrun. exact (H _ _ _ _ Hrun). Qed.

Lemma silent_for_each {A} (xs : list A) (body : A -> prog State unit) :
  (forall x, silent (body x)) -> silent (for_each xs body).
Proof.
  intros H. induction xs as [|x xs IH]; cbn [for_each].
  - apply silent_ret.
  - apply silent_bind; [apply H | intros _; exact IH].
Qed.

Lemma silent_modify_role rolename f : silent (modify_role rolename f).
Proof.
  unfold modify_role.
  apply silent_bind; [apply silent_get_SETTINGS | intros s].
  apply silent_set_SETTINGS.
Qed.

Lemma silent_get_role rolename : silent (get_role rolename).
Proof.
  unfold get_role.
  apply silent_bind; [apply silent_get_SETTINGS | intros s].
  apply silent_lift.
Qed.

Lemma silent_role_names : silent role_names.
Proof.
  unfold role_names.
  apply silent_bind; [apply silent_get_SETTINGS | intros s].
  apply silent_ret.
Qed.

End CeremonyOutputs.

(** Shows that a run built from the steps of the ceremony is silent. *)
Ltac silence :=
  repeat first
    [ apply silent_ret
    | apply silent_raise
    | apply silent_lift
    | apply silent_IntPrompt_ask
    | apply silent_Confirm_ask
    | apply silent_ask_text
    | apply silent_get_SETTINGS
    | apply silent_set_SETTINGS
    | apply silent_modify_role
    | apply silent_get_role
    | apply silent_role_names
    | apply silent_log; reflexivity
    | assumption
    | match goal with
      | H : forall _, silent _ |- _ => apply H
      | H : forall _ _, silent _ |- _ => apply H
      end
    | apply silent_bind; [|intros ?]
    | match goal with
      | |- silent (if ?c then _ else _) => destruct c
      | |- silent (match ?x with _ => _ end) => destruct x
      | |- silent (let '(_, _) := ?x in _) => destruct x
      end ].

Section CeremonySilence.

Import PyStr Ceremony.
Local Open Scope prog_scope.

Variable Metadata : Type.
Variable env : Env Metadata.

Lemma silent_configure_role rolename : silent (_configure_role rolename).
Proof. unfold _configure_role, click_prompt. silence. Qed.

Lemma silent_load_key filepath password :
  silent (lift (_load_key env filepath password)).
Proof. apply silent_lift. Qed.

Lemma silent_configure_keys_loop rounds :
  forall rolename key_count,
    silent (configure_keys_loop env rounds rolename key_count).
Proof.
  induction rounds as [|rounds IH]; intros rolename key_count;
    cbn [configure_keys_loop]; [apply silent_raise|].
  unfold Prompt_ask, click_prompt. silence.
Qed.

Lemma silent_configure_keys rolename : silent (_configure_keys env rolename).
Proof.
  unfold _configure_keys. apply silent_bind; [silence | intros _].
  apply (silent_sized
           (fun n => configure_keys_loop env n rolename 1%Z)
           (fun st => S (List.length (texts st)))).
  intros n. apply silent_configure_keys_loop.
Qed.

Lemma silent_confirm_loop rounds :
  forall rolename, silent (confirm_loop env rounds rolename).
Proof.
  induction rounds as [|rounds IH]; intros rolename;
    cbn [confirm_loop]; [apply silent_raise|].
  pose proof silent_configure_role as Hrole.
  pose proof silent_configure_keys as Hkeys.
  silence.
Qed.

Lemma silent_confirm_role rolename : silent (confirm_role env rolename).
Proof.
  unfold confirm_role.
  apply (silent_sized (fun n => confirm_loop env n rolename)
                      (fun st => S (List.length (confirms st)))).
  intros n. apply silent_confirm_loop.
Qed.

Lemma silent_payload_roles names :
  forall settings, silent (payload_roles names settings).
Proof.
  induction names as [|r names IH]; intros settings; cbn [payload_roles].
  - apply silent_ret.
  - silence.
Qed.

Lemma silent_build_payload metadata : silent (build_payload env metadata).
Proof.
  unfold build_payload. pose proof silent_payload_roles as Hroles.
  silence.
Qed.

Lemma silent_ceremony_steps save : silent (ceremony_steps env save).
Proof.
  unfold ceremony_steps.
  pose proof silent_configure_role as Hrole.
  pose proof silent_configure_keys as Hkeys.
  pose proof silent_confirm_role as Hconfirm.
  pose proof silent_build_payload as Hpayload.
  pose proof (fun xs => @silent_for_each string xs _ Hrole) as Hroles.
  pose proof (fun xs => @silent_for_each string xs _ Hkeys) as Hloads.
  pose proof (fun xs => @silent_for_each string xs _ Hconfirm) as Hconfirms.
  silence.
Qed.

Lemma write_grows file (payload : json) st (o : outcome unit) st' :
  (if truthy file
   then lift (open_write env file) ;;; log (WriteFile file payload)
   else ret tt) st = (o, st') ->
  exists evs, trace st' = trace st ++ evs.
Proof.
  destruct (truthy file).
  - unfold bind, lift, log. destruct (open_write env file) as [u|e];
      intros H; inversion H; subst; cbn [trace]; eauto.
    exists []. now rewrite app_nil_r.
  - intros H. inversion H. exists []. now rewrite app_nil_r.
Qed.

Lemma post_grows (bootstrap : bool) (payload : json) st (o : outcome unit) st' :
  (if bootstrap then _bootstrap payload ;;; ret tt else ret tt) st = (o, st') ->
  exists evs, trace st' = trace st ++ evs.
Proof.
  destruct bootstrap.
  - unfold _bootstrap, bind, log, request_server, lift, ret.
    cbn [server SETTINGS ints confirms texts trace].
    destruct (server st) as [|[r|e] rest]; [| destruct (bootstrap_answer r) |];
      intros H; inversion H; subst; cbn [trace]; eauto.
  - intros H. inversion H. exists []. now rewrite app_nil_r.
Qed.

(** X25.  The ceremony gives no payload away before the metadata is
    there: however a run without upload ends, if it has written the
    payload to the file or posted it to the server, then
    [initialize_metadata] was called before, on the roles of [SETTINGS],
    and returned the metadata without an error. *)
Theorem ceremony_outputs_need_the_metadata :
  forall (new_role : RolesKeysInput) (bootstrap : bool) (file : string)
         (save : bool) (st st' : State) (o : outcome unit),
    SETTINGS st = SETTINGS_initial new_role ->
    ceremony env bootstrap file false save st = (o, st') ->
    exists evs,
      trace st' = trace st ++ evs /\
      (existsb is_output evs = true ->
       exists settings metadata,
         In (InitializeMetadata settings save) evs /\
         initialize_metadata env settings save = Ok metadata).
Proof.
  intros new_role bootstrap file save st st' o Hinitial H.
  pose proof (initial_names _ Hinitial) as Hnames.
  assert (Hnone : forall s : State,
             trace s = trace st ->
             exists evs,
               trace s = trace st ++ evs /\
               (existsb is_output evs = true ->
                exists settings metadata,
                  In (InitializeMetadata settings save) evs /\
                  initialize_metadata env settings save = Ok metadata)).
  { intros s Hs. exists []. rewrite app_nil_r. split; [exact Hs|].
    discriminate. }
  unfold ceremony in H.
  run H as u0 e0 s0 R0.
  2:{ inversion H; subst. apply Hnone.
      destruct save; inversion R0; reflexivity. }
  assert (s0 = st) as -> by (destruct save; inversion R0; reflexivity).
  clear R0. cbn [andb] in H.
  run H as u1 e1 s1 R1; [|discriminate]. inversion R1; subst s1. clear R1.
  run H as headers e2 s2 R2.
  2:{ inversion H; subst. apply Hnone. destruct bootstrap.
      - now destruct (bootstrap_gate_quiet env _ R2) as (_ & _ & _ & _ & T).
      - discriminate. }
  assert (Hgate : SETTINGS s2 = SETTINGS st /\ trace s2 = trace st).
  { destruct bootstrap.
    - now destruct (bootstrap_gate_quiet env _ R2) as (S2 & _ & _ & _ & T).
    - inversion R2. auto. }
  destruct Hgate as [S2 T2]. clear R2.
  assert (N2 : names_of s2 = five_names) by (unfold names_of; now rewrite S2).
  cbn [negb] in H.
  assert (Hmain : forall (o3 : outcome unit) s3,
             (json_payload <~ ceremony_steps env save ;;
              (if truthy file
               then lift (open_write env file) ;;;
                    log (WriteFile file json_payload)
               else ret tt) ;;;
              (if bootstrap then _bootstrap json_payload ;;; ret tt
               else ret tt)) s2 = (o3, s3) ->
             exists evs,
               trace s3 = trace st ++ evs /\
               (existsb is_output evs = true ->
                exists settings metadata,
                  In (InitializeMetadata settings save) evs /\
                  initialize_metadata env settings save = Ok metadata)).
  { intros o3 s3 R3. run R3 as payload e4 s4 R4.
    - destruct (@ceremony_steps_Ok Metadata env save s2 payload s4 N2 R4)
        as (evs & settings & metadata & _ & _ & T4 & _ & Hinit & _).
      assert (Hgrows : exists more, trace s3 = trace s4 ++ more).
      { run R3 as u5 e5 s5 R5.
        - apply write_grows in R5. destruct R5 as (w & Tw).
          apply post_grows in R3. destruct R3 as (b & Tb).
          exists (w ++ b). now rewrite Tb, Tw, app_assoc.
        - inversion R3; subst. eapply write_grows. exact R5. }
      destruct Hgrows as (more & Tmore).
      exists ((map Configure five_names ++ map LoadKeys five_names ++ evs
               ++ [InitializeMetadata settings save]) ++ more).
      split.
      + rewrite Tmore, T4, T2, <- !app_assoc. reflexivity.
      + intros _. exists settings, metadata. split; [|exact Hinit].
        apply in_or_app. left. apply in_or_app. right.
        apply in_or_app. right. apply in_or_app. right. left. reflexivity.
    - inversion R3; subst.
      destruct (@silent_ceremony_steps save _ _ _ R4) as (evs & T4 & O4).
      exists evs. rewrite T4, T2. split; [reflexivity | congruence]. }
  run H as u3 e3 s3 R3.
  - inversion H; subst. eapply Hmain. reflexivity.
  - inversion H; subst. eapply Hmain. reflexivity.
Qed.

End CeremonySilence.

Section CeremonySilenceExample.

Import PyStr Ceremony.

Lemma ceremony_outputs_need_the_metadata_witness :
  exists evs,
    trace example_end = trace example_run ++ evs /\
    (existsb is_output evs = true ->
     exists settings metadata,
       In (InitializeMetadata settings false) evs /\
       initialize_metadata example_env settings false = Ok metadata).
Proof.
  exact (@ceremony_outputs_need_the_metadata unit example_env
           (mkRolesKeysInput 1 1 1 [] true None) false "payload.json" false
           example_run example_end (Ok tt) eq_refl example_run_completes).
Defined.

End CeremonySilenceExample.
